(** * Zibit trading assistant: market data, indicators, chat and broadcaster

    A shallow embedding of the server-side services of the repository
    (server/services/technicalAnalysisService.ts, marketDataService.ts,
    chatService.ts, orderlyMarketService.ts, the express routes and the
    WebSocketManager), with the properties of its specification stated
    and settled against the embedded code.

    JavaScript [number]s are IEEE-754 binary64 values; they are modelled
    by the [spec_float] type of the standard library instantiated at
    precision 53 and maximal exponent 1024, so that division by zero,
    NaN propagation and rounding are those of the running program. *)

From Stdlib Require Import ZArith List Bool Lia SpecFloat.
From stdpp Require Import gmap strings list pretty.
Import ListNotations.

Local Open Scope Z_scope.
#[local] Set Warnings "-register-all,-clear-no-such-hyp".

(** ** JavaScript numbers *)

Module Num.

Abbreviation number := spec_float.

Definition prec : Z := 53.
Definition emax : Z := 1024.

Definition NaN : number := S754_nan.
Definition PosInfinity : number := S754_infinity false.
Definition NegInfinity : number := S754_infinity true.

(** An integer literal; exact below 2^53. *)
Definition of_Z (z : Z) : number := binary_normalize prec emax z 0 false.
Definition of_nat (n : nat) : number := of_Z (Z.of_nat n).

Definition add : number -> number -> number := SFadd prec emax.
Definition sub : number -> number -> number := SFsub prec emax.
Definition mul : number -> number -> number := SFmul prec emax.
Definition div : number -> number -> number := SFdiv prec emax.

(** A decimal literal [n / 10^k], correctly rounded as the parser does
    (both operands are exact, and division rounds to nearest). *)
Definition decimal (n : Z) (k : nat) : number :=
  div (of_Z n) (of_Z (10 ^ Z.of_nat k)).

(** [a < b], [a > b] and [a === b]; all false when an operand is NaN. *)
Definition lt (a b : number) : bool := SFltb a b.
Definition gt (a b : number) : bool := SFltb b a.
Definition le (a b : number) : bool := SFleb a b.
Definition strict_eq (a b : number) : bool := SFeqb a b.

Definition isNaN (x : number) : bool :=
  match x with S754_nan => true | _ => false end.

Definition isZero (x : number) : bool :=
  match x with S754_zero _ => true | _ => false end.

(** Neither NaN nor an infinity. *)
Definition isFinite (x : number) : bool :=
  match x with S754_zero _ | S754_finite _ _ _ => true | _ => false end.

(** ToBoolean on a number: NaN, +0 and -0 are falsy. *)
Definition truthy (x : number) : bool :=
  match x with S754_nan | S754_zero _ => false | _ => true end.

(** [x || 0] where [x] may be [undefined] (an index out of range). *)
Definition or_zero (x : option number) : number :=
  match x with
  | Some v => if truthy v then v else of_Z 0
  | None => of_Z 0
  end.

(** ToNumber of an array element used in arithmetic: [undefined]
    coerces to NaN. *)
Definition at_index (a : list number) (i : nat) : number :=
  default NaN (a !! i).

Definition abs : number -> number := SFabs.
Definition opp : number -> number := SFopp.

(** Math.max and Math.min, after ECMA-262: start from -Infinity
    (resp. +Infinity), return NaN at a NaN argument, prefer +0 over -0
    (resp. -0 over +0), otherwise keep the larger (smaller). *)
Fixpoint max_loop (highest : number) (args : list number) : number :=
  match args with
  | [] => highest
  | n :: rest =>
      if isNaN n then NaN
      else
        let highest :=
          match n, highest with
          | S754_zero false, S754_zero true => n
          | _, _ => highest
          end in
        max_loop (if gt n highest then n else highest) rest
  end.

Definition math_max (args : list number) : number :=
  max_loop NegInfinity args.

Fixpoint min_loop (lowest : number) (args : list number) : number :=
  match args with
  | [] => lowest
  | n :: rest =>
      if isNaN n then NaN
      else
        let lowest :=
          match n, lowest with
          | S754_zero true, S754_zero false => n
          | _, _ => lowest
          end in
        min_loop (if lt n lowest then n else lowest) rest
  end.

Definition math_min (args : list number) : number :=
  min_loop PosInfinity args.

(** [arr.reduce((sum, x) => sum + x, 0)] *)
Definition reduce_sum (l : list number) : number :=
  fold_left add l (of_Z 0).

(** [arr.slice(-n)] for an integer [n >= 0]; [slice(-0)] is [slice(0)]. *)
Definition slice_last (n : nat) (l : list number) : list number :=
  match n with
  | O => l
  | _ => drop (length l - n) l
  end.

(** [for (let i = lo; i < hi; i++) acc = body(i, acc)] *)
Definition for_range {A} (lo hi : nat) (body : nat -> A -> A) (init : A) : A :=
  fold_left (fun acc i => body i acc) (seq lo (hi - lo)) init.

(** The closed interval [0,100] of the RSI. *)
Definition in_0_100 (x : number) : bool :=
  le (of_Z 0) x && le x (of_Z 100).

End Num.

(** ** JavaScript values, exceptions and effects *)

Module Js.
Import Num.

(** The dynamically typed values that reach the services: parsed JSON
    bodies and request fields.  An object is the list of its own
    properties, each key bound once. *)
Inductive JsVal :=
| VUndefined
| VNull
| VBool (b : bool)
| VNum (n : number)
| VStr (s : string)
| VArr (elems : list JsVal)
| VObj (fields : list (string * JsVal)).

(** ToBoolean *)
Definition js_truthy (v : JsVal) : bool :=
  match v with
  | VUndefined | VNull => false
  | VBool b => b
  | VNum n => truthy n
  | VStr s => negb (String.eqb s "")
  | VArr _ | VObj _ => true
  end.

(** [a || b] *)
Definition js_or (a b : JsVal) : JsVal := if js_truthy a then a else b.

(** Either a value or a thrown exception (a rejected promise). *)
Inductive Outcome (A : Type) :=
| Ok (a : A)
| Throw (error : string).
Arguments Ok {A} a.
Arguments Throw {A} error.

Definition is_ok {A} (o : Outcome A) : bool :=
  match o with Ok _ => true | Throw _ => false end.

Fixpoint assoc (k : string) (fields : list (string * JsVal)) : JsVal :=
  match fields with
  | [] => VUndefined
  | (k', v) :: rest => if String.eqb k k' then v else assoc k rest
  end.

(** [v.k] for the property names the services read; none of them is a
    built-in property of a string, number, boolean or array. *)
Definition get_field (v : JsVal) (k : string) : Outcome JsVal :=
  match v with
  | VUndefined | VNull => Throw "TypeError: cannot read properties"
  | VObj fields => Ok (assoc k fields)
  | _ => Ok VUndefined
  end.

(** [v[i]] for a literal index [i]. *)
Definition get_index (v : JsVal) (i : nat) : Outcome JsVal :=
  match v with
  | VUndefined | VNull => Throw "TypeError: cannot read properties"
  | VArr elems => Ok (default VUndefined (elems !! i))
  | VStr s =>
      Ok (match String.get i s with
          | Some c => VStr (String c EmptyString)
          | None => VUndefined
          end)
  | VObj fields => Ok (assoc (pretty i) fields)
  | _ => Ok VUndefined
  end.

End Js.

(** ** The state of the process and its environment *)

Module TickerData.
Record t := mk {
  symbol : string;
  price : Num.number;
  price24h : Num.number;
  volume24h : Num.number;
  high24h : Num.number;
  low24h : Num.number;
  priceChange24h : Num.number;
  priceChangePercent24h : Num.number;
  timestamp : Z
}.
End TickerData.

Module OrderbookData.
Record t := mk {
  symbol : string;
  bids : list (Num.number * Num.number);
  asks : list (Num.number * Num.number);
  timestamp : Z
}.
End OrderbookData.

Module KlineData.
Record t := mk {
  timestamp : Num.number;
  open : Num.number;
  high : Num.number;
  low : Num.number;
  close : Num.number;
  volume : Num.number
}.
End KlineData.

Module TradeData.
Record t := mk {
  id : Js.JsVal;
  symbol : Js.JsVal;
  price : Num.number;
  quantity : Num.number;
  side : Js.JsVal;
  timestamp : Num.number
}.
End TradeData.

Module Effects.
Import Num Js.

(** What [MarketDataService.cache : Map<string, any>] holds.  The keys
    of the four operations start with different prefixes, so a lookup
    under a ticker key only ever finds a ticker. *)
Inductive CacheEntry :=
| CTicker (ticker : TickerData.t)
| COrderbook (orderbook : OrderbookData.t)
| CKlines (klines : list KlineData.t)
| CTrades (trades : list TradeData.t).

Record Request := { authenticated : bool; endpoint : string }.

(** The answer to one [fetch]: how long it took and the parsed body;
    [None] is a transport error, a non-2xx status or an unparsable
    body. *)
Record Reply := { latency : Z; body : option JsVal }.

(** Everything outside the process: the exchange, the random source,
    the completion service and the built-in conversions between
    numbers and text.  The [n]-th call gets the [n]-th answer. *)
Record Env := {
  network : nat -> Request -> Reply;
  random : nat -> number;
  chatCompletion : nat -> string -> string -> option (option string);
  parseFloat : JsVal -> number;
  parseInt : JsVal -> number;
  toFixed : number -> nat -> string;
  toLocaleString : number -> string
}.

Record World := {
  cache : gmap string CacheEntry;
  lastFetch : gmap string Z;
  clock : Z;
  netCalls : nat;
  randCalls : nat;
  llmCalls : nat
}.

Definition set_cache (c : gmap string CacheEntry) (w : World) : World :=
  {| cache := c; lastFetch := lastFetch w; clock := clock w;
     netCalls := netCalls w; randCalls := randCalls w; llmCalls := llmCalls w |}.
Definition set_lastFetch (l : gmap string Z) (w : World) : World :=
  {| cache := cache w; lastFetch := l; clock := clock w;
     netCalls := netCalls w; randCalls := randCalls w; llmCalls := llmCalls w |}.
Definition set_clock (t : Z) (w : World) : World :=
  {| cache := cache w; lastFetch := lastFetch w; clock := t;
     netCalls := netCalls w; randCalls := randCalls w; llmCalls := llmCalls w |}.
Definition set_netCalls (n : nat) (w : World) : World :=
  {| cache := cache w; lastFetch := lastFetch w; clock := clock w;
     netCalls := n; randCalls := randCalls w; llmCalls := llmCalls w |}.
Definition set_randCalls (n : nat) (w : World) : World :=
  {| cache := cache w; lastFetch := lastFetch w; clock := clock w;
     netCalls := netCalls w; randCalls := n; llmCalls := llmCalls w |}.
Definition set_llmCalls (n : nat) (w : World) : World :=
  {| cache := cache w; lastFetch := lastFetch w; clock := clock w;
     netCalls := netCalls w; randCalls := randCalls w; llmCalls := n |}.

(** An async function: it transforms the world and fulfils or rejects.
    Time only passes while a call awaits the network or a timer. *)
Definition M (A : Type) : Type := World -> Outcome A * World.

Definition ret {A} (a : A) : M A := fun w => (Ok a, w).
Definition throw {A} (error : string) : M A := fun w => (Throw error, w).
Definition lift {A} (o : Outcome A) : M A := fun w => (o, w).

Definition bind {A B} (c : M A) (k : A -> M B) : M B :=
  fun w =>
    match c w with
    | (Ok a, w') => k a w'
    | (Throw error, w') => (Throw error, w')
    end.

(** [try { body } catch (error) { handler }] *)
Definition try_catch {A} (body : M A) (handler : string -> M A) : M A :=
  fun w =>
    match body w with
    | (Ok a, w') => (Ok a, w')
    | (Throw error, w') => handler error w'
    end.

Definition date_now : M Z := fun w => (Ok (clock w), w).
Definition sleep (ms : Z) : M unit := fun w => (Ok tt, set_clock (clock w + ms) w).

Definition math_random (env : Env) : M number :=
  fun w => (Ok (random env (randCalls w)), set_randCalls (S (randCalls w)) w).

Definition http_fetch (env : Env) (request : Request) : M JsVal :=
  fun w =>
    let reply := network env (netCalls w) request in
    let w' := set_clock (clock w + latency reply) (set_netCalls (S (netCalls w)) w) in
    match body reply with
    | Some data => (Ok data, w')
    | None => (Throw "Orderly API error", w')
    end.

Fixpoint mapM {A B} (f : A -> M B) (l : list A) : M (list B) :=
  match l with
  | [] => ret []
  | x :: rest =>
      bind (f x) (fun y => bind (mapM f rest) (fun ys => ret (y :: ys)))
  end.

(** A loop whose body awaits or draws random numbers. *)
Fixpoint foldM {A B} (body : B -> A -> M B) (l : list A) (init : B) : M B :=
  match l with
  | [] => ret init
  | x :: rest => bind (body init x) (fun acc => foldM body rest acc)
  end.

(** An async call that cannot reject. *)
Definition fulfils {A} (c : M A) : Prop :=
  forall w, exists a w', c w = (Ok a, w').

(** A property of the world that a call, once it holds, leaves true. *)
Definition preserves {A} (P : World -> Prop) (c : M A) : Prop :=
  forall w, P w -> P (snd (c w)).

(** A call that sends at most [n] requests to the exchange. *)
Definition sends {A} (n : nat) (c : M A) : Prop :=
  forall w, (netCalls (snd (c w)) <= netCalls w + n)%nat.



(** A property that only reads the rate-limit table and is not lost
    when more requests have been sent. *)
Definition steady (P : World -> Prop) : Prop :=
  forall w w',
    lastFetch w' = lastFetch w -> (netCalls w <= netCalls w')%nat -> P w -> P w'.

(** [v.map(f)] on a dynamically typed [v]: only an array has [map]. *)
Definition js_map {B} (v : JsVal) (f : JsVal -> M B) : M (list B) :=
  match v with
  | VArr elems => mapM f elems
  | _ => throw "TypeError: map is not a function"
  end.

(** [v.a || v.b || ... || dflt] *)
Fixpoint first_truthy (v : JsVal) (names : list string) (dflt : M JsVal) : M JsVal :=
  match names with
  | [] => dflt
  | k :: rest =>
      bind (lift (get_field v k))
           (fun x => if js_truthy x then ret x else first_truthy v rest dflt)
  end.

End Effects.

Declare Scope effect_scope.
Delimit Scope effect_scope with eff.
Notation "'let*' x ':=' c 'in' k" := (Effects.bind c (fun x => k))
  (at level 10, x name, c at level 100, k at level 200) : effect_scope.
Notation "c '>>' k" := (Effects.bind c (fun _ => k))
  (at level 100, k at level 200, right associativity) : effect_scope.

(** ** MarketDataService *)

Module MarketDataService.
Import Num Js Effects.
Local Open Scope effect_scope.

Definition CACHE_DURATION : Z := 2000.
Definition REQUEST_TIMEOUT : Z := 3000.
Definition MAX_RETRIES : nat := 3.
Definition RETRY_DELAY : Z := 500.

(** [Promise.race([operation(), timeout])]: the operation wins when it
    settles before the timer; its effects on the world stay either way
    (the loser is not aborted). *)
Definition race_with_timeout {A} (operation : M A) : M A :=
  fun w =>
    let '(r, w') := operation w in
    if clock w' - clock w <? REQUEST_TIMEOUT then (r, w')
    else (Throw "Request timeout", set_clock (clock w + REQUEST_TIMEOUT) w').

(** The loop of [withRetry], entered at [attempt] with [remaining]
    iterations to go. *)
Fixpoint withRetry_from {A} (operation : M A) (attempt remaining : nat)
    (lastError : string) : M A :=
  match remaining with
  | O => throw lastError
  | S remaining' =>
      try_catch (race_with_timeout operation)
        (fun error =>
           (if (attempt <? MAX_RETRIES)%nat
            then sleep (RETRY_DELAY * Z.of_nat attempt) else ret tt) >>
           withRetry_from operation (S attempt) remaining' error)
  end.

Definition withRetry {A} (operation : M A) : M A :=
  withRetry_from operation 1 MAX_RETRIES "".

Definition checkRateLimit (symbol : string) : M bool :=
  fun w =>
    let lastFetch := default 0 (lastFetch w !! symbol) in
    let now := clock w in
    if now - lastFetch <? 1000 then (Ok false, w)
    else (Ok true, set_lastFetch (<[symbol := now]> (Effects.lastFetch w)) w).

Definition getBasePrice (symbol : string) : number :=
  if String.eqb symbol "PERP_BTC_USDC" then of_Z 65000
  else if String.eqb symbol "PERP_ETH_USDC" then of_Z 3200
  else if String.eqb symbol "PERP_SOL_USDC" then of_Z 180
  else if String.eqb symbol "PERP_AVAX_USDC" then of_Z 35
  else if String.eqb symbol "PERP_MATIC_USDC" then decimal 8 1
  else if String.eqb symbol "PERP_HYPE_USDC" then decimal 2 3
  else of_Z 100.

Definition cache_get (key : string) : M (option CacheEntry) :=
  fun w => (Ok (cache w !! key), w).

Definition cache_set (key : string) (entry : CacheEntry) : M unit :=
  fun w => (Ok tt, set_cache (<[key := entry]> (cache w)) w).

Definition as_ticker (e : CacheEntry) : option TickerData.t :=
  match e with CTicker t => Some t | _ => None end.
Definition as_orderbook (e : CacheEntry) : option OrderbookData.t :=
  match e with COrderbook o => Some o | _ => None end.
Definition as_klines (e : CacheEntry) : option (list KlineData.t) :=
  match e with CKlines k => Some k | _ => None end.
Definition as_trades (e : CacheEntry) : option (list TradeData.t) :=
  match e with CTrades t => Some t | _ => None end.


Section WithEnv.
Variable env : Env.

Definition publicFetch (endpoint : string) : M JsVal :=
  http_fetch env {| authenticated := false; endpoint := endpoint |}.

Definition authenticatedFetch (endpoint : string) : M JsVal :=
  http_fetch env {| authenticated := true; endpoint := endpoint |}.

Definition getMockTicker (symbol : string) : M TickerData.t :=
  let basePrice := getBasePrice symbol in
  let* r1 := math_random env in
  let* r2 := math_random env in
  let* r3 := math_random env in
  let* r4 := math_random env in
  let* now := date_now in
  ret (TickerData.mk symbol basePrice
         (mul basePrice (add (of_Z 1) (mul (sub r1 (decimal 5 1)) (decimal 2 2))))
         (mul r2 (of_Z 1000000))
         (mul basePrice (decimal 1015 3))
         (mul basePrice (decimal 985 3))
         (mul (mul (sub r3 (decimal 5 1)) basePrice) (decimal 3 2))
         (mul (sub r4 (decimal 5 1)) (of_Z 3))
         now).

(** The [for (const endpoint of ...)] loops of [fetchTicker]: the
    first endpoint whose retried fetch fulfils ends the loop; when
    all reject, [data] keeps the value it had. *)
Fixpoint try_endpoints (fetch : string -> M JsVal) (endpoints : list string)
    (data : JsVal) : M JsVal :=
  match endpoints with
  | [] => ret data
  | endpoint :: rest =>
      try_catch (withRetry (fetch endpoint))
                (fun _ => try_endpoints fetch rest data)
  end.

Definition parse_field (data : JsVal) (names : list string) : M number :=
  let* v := first_truthy data names (ret (VStr "0")) in
  ret (parseFloat env v).

(** The [try] block of [fetchTicker], with its [catch]. *)
Definition fetchTicker_request (symbol : string) : M TickerData.t :=
  let cacheKey := "ticker_" +:+ symbol in
  try_catch
      (let* data :=
         try_endpoints publicFetch
           [ "/v1/public/market/ticker?symbol=" +:+ symbol;
             "/v1/public/ticker?symbol=" +:+ symbol;
             "/ticker?symbol=" +:+ symbol;
             "/v1/ticker?symbol=" +:+ symbol ] VUndefined in
       let* data :=
         if negb (js_truthy data) then
           try_endpoints authenticatedFetch
             [ "/v1/public/market/ticker?symbol=" +:+ symbol;
               "/v1/public/ticker?symbol=" +:+ symbol ] data
         else ret data in
       if negb (js_truthy data)
       then throw ("All endpoints failed for symbol " +:+ symbol)
       else
         let* price := parse_field data ["price"; "last_price"; "lastPrice"] in
         let* price24h := parse_field data ["price24h"; "open_24h"; "open24h"] in
         let* volume24h :=
           parse_field data ["volume24h"; "volume_24h"; "volume24h"] in
         let* high24h := parse_field data ["high24h"; "high_24h"; "high24h"] in
         let* low24h := parse_field data ["low24h"; "low_24h"; "low24h"] in
         let* priceChange24h :=
           parse_field data ["priceChange24h"; "price_change_24h"; "change24h"] in
         let* priceChangePercent24h :=
           parse_field data ["priceChangePercent24h"; "price_change_percent_24h";
                             "changePercent24h"] in
         let* timestamp := date_now in
         let ticker :=
           TickerData.mk symbol price price24h volume24h high24h low24h
             priceChange24h priceChangePercent24h timestamp in
         if strict_eq (TickerData.price ticker) (of_Z 0)
            && strict_eq (TickerData.volume24h ticker) (of_Z 0)
         then throw ("Invalid data received for " +:+ symbol)
         else cache_set cacheKey (CTicker ticker) >> ret ticker)
      (fun _ => getMockTicker symbol).

Definition fetchTicker (symbol : string) : M TickerData.t :=
  let cacheKey := "ticker_" +:+ symbol in
  let* entry := cache_get cacheKey in
  let cached := entry ≫= as_ticker in
  let* now := date_now in
  let fresh :=
    match cached with
    | Some c => if now - TickerData.timestamp c <? CACHE_DURATION then Some c else None
    | None => None
    end in
  match fresh with
  | Some c => ret c
  | None =>
      let* allowed := checkRateLimit symbol in
      if negb allowed then
        match cached with
        | Some c => ret c
        | None => getMockTicker symbol
        end
      else
        fetchTicker_request symbol
  end.

Definition getMockOrderbook (symbol : string) : M OrderbookData.t :=
  let basePrice := getBasePrice symbol in
  bind
    (foldM
       (fun '(bids, asks) i =>
          let* r1 := math_random env in
          let* r2 := math_random env in
          ret (bids ++ [(sub basePrice (mul (of_nat i) (decimal 5 1)),
                         mul r1 (of_Z 100))],
               asks ++ [(add basePrice (mul (of_nat i) (decimal 5 1)),
                         mul r2 (of_Z 100))]))
       (seq 0 10) ([], []))
    (fun '(bids, asks) =>
       let* now := date_now in
       ret (OrderbookData.mk symbol bids asks now)).

(** [for (let i = limit; i > 0; i--)] *)
Definition getMockKlines (symbol : string) (limit : nat) : M (list KlineData.t) :=
  let basePrice := getBasePrice symbol in
  foldM
    (fun klines i =>
       let* now := date_now in
       let timestamp := of_Z (now - Z.of_nat i * 60000) in
       let* r1 := math_random env in
       let open := add basePrice (mul (sub r1 (decimal 5 1)) (of_Z 10)) in
       let* r2 := math_random env in
       let close := add open (mul (sub r2 (decimal 5 1)) (of_Z 2)) in
       let* r3 := math_random env in
       let high := add (math_max [open; close]) (mul r3 (of_Z 1)) in
       let* r4 := math_random env in
       let low := sub (math_min [open; close]) (mul r4 (of_Z 1)) in
       let* r5 := math_random env in
       ret (klines ++ [KlineData.mk timestamp open high low close
                         (mul r5 (of_Z 1000))]))
    (rev (seq 1 limit)) [].

Definition getMockTrades (symbol : string) (limit : nat) : M (list TradeData.t) :=
  let basePrice := getBasePrice symbol in
  foldM
    (fun trades i =>
       let* r1 := math_random env in
       let* r2 := math_random env in
       let* r3 := math_random env in
       let* now := date_now in
       ret (trades ++
            [TradeData.mk (VStr ("trade_" +:+ pretty i)) (VStr symbol)
               (add basePrice (mul (sub r1 (decimal 5 1)) (of_Z 2)))
               (mul r2 (of_Z 10))
               (VStr (if gt r3 (decimal 5 1) then "buy" else "sell"))
               (of_Z (now - Z.of_nat i * 1000))]))
    (seq 0 limit) [].

(** [[parseFloat(bid[0]), parseFloat(bid[1])]] *)
Definition parse_level (level : JsVal) : M (number * number) :=
  let* p := lift (get_index level 0) in
  let* q := lift (get_index level 1) in
  ret (parseFloat env p, parseFloat env q).

(** The public endpoint first and, when its retries are exhausted,
    the same path with authentication headers. *)
Definition public_then_authenticated (endpoint : string) : M JsVal :=
  try_catch (withRetry (publicFetch endpoint))
            (fun _ => withRetry (authenticatedFetch endpoint)).

Definition fetchOrderbook (symbol : string) : M OrderbookData.t :=
  let cacheKey := "orderbook_" +:+ symbol in
  let* entry := cache_get cacheKey in
  let cached := entry ≫= as_orderbook in
  let* now := date_now in
  let fresh :=
    match cached with
    | Some c =>
        if now - OrderbookData.timestamp c <? CACHE_DURATION then Some c else None
    | None => None
    end in
  match fresh with
  | Some c => ret c
  | None =>
      let* allowed := checkRateLimit symbol in
      if negb allowed then
        match cached with
        | Some c => ret c
        | None => getMockOrderbook symbol
        end
      else
        try_catch
          (let* data :=
             public_then_authenticated
               ("/v1/public/orderbook?symbol=" +:+ symbol +:+ "&depth=20") in
           let* rawBids := lift (get_field data "bids") in
           let* bids := js_map (js_or rawBids (VArr [])) parse_level in
           let* rawAsks := lift (get_field data "asks") in
           let* asks := js_map (js_or rawAsks (VArr [])) parse_level in
           let* timestamp := date_now in
           let orderbook := OrderbookData.mk symbol bids asks timestamp in
           cache_set cacheKey (COrderbook orderbook) >> ret orderbook)
          (fun _ => getMockOrderbook symbol)
  end.

Definition now_value : M JsVal :=
  let* now := date_now in ret (VNum (of_Z now)).

Definition parse_kline (kline : JsVal) : M KlineData.t :=
  let* timestamp := first_truthy kline ["timestamp"; "t"] now_value in
  let* open := parse_field kline ["open"; "o"] in
  let* high := parse_field kline ["high"; "h"] in
  let* low := parse_field kline ["low"; "l"] in
  let* close := parse_field kline ["close"; "c"] in
  let* volume := parse_field kline ["volume"; "v"] in
  ret (KlineData.mk (parseInt env timestamp) open high low close volume).

Definition fetchKlines (symbol interval : string) (limit : nat)
    : M (list KlineData.t) :=
  let cacheKey :=
    "klines_" +:+ symbol +:+ "_" +:+ interval +:+ "_" +:+ pretty limit in
  let* allowed := checkRateLimit symbol in
  if negb allowed then
    let* entry := cache_get cacheKey in
    match entry ≫= as_klines with
    | Some klines => ret klines
    | None => getMockKlines symbol limit
    end
  else
    try_catch
      (let* data :=
         public_then_authenticated
           ("/v1/public/futures/klines?symbol=" +:+ symbol +:+ "&interval="
              +:+ interval +:+ "&limit=" +:+ pretty limit) in
       let* klines := js_map (js_or data (VArr [])) parse_kline in
       cache_set cacheKey (CKlines klines) >> ret klines)
      (fun _ => getMockKlines symbol limit).

Definition parse_trade (symbol : string) (trade : JsVal) : M TradeData.t :=
  let* id :=
    first_truthy trade ["id"; "trade_id"]
      (let* now := date_now in ret (VStr ("trade_" +:+ pretty now))) in
  let* tradeSymbol := first_truthy trade ["symbol"] (ret (VStr symbol)) in
  let* price := parse_field trade ["price"; "p"] in
  let* quantity := parse_field trade ["quantity"; "q"] in
  let* side :=
    first_truthy trade ["side"]
      (let* r := math_random env in
       ret (VStr (if gt r (decimal 5 1) then "buy" else "sell"))) in
  let* timestamp := first_truthy trade ["timestamp"; "time"] now_value in
  ret (TradeData.mk id tradeSymbol price quantity side (parseInt env timestamp)).

Definition fetchTrades (symbol : string) (limit : nat) : M (list TradeData.t) :=
  let cacheKey := "trades_" +:+ symbol +:+ "_" +:+ pretty limit in
  let* allowed := checkRateLimit symbol in
  if negb allowed then
    let* entry := cache_get cacheKey in
    match entry ≫= as_trades with
    | Some trades => ret trades
    | None => getMockTrades symbol limit
    end
  else
    try_catch
      (let* data :=
         public_then_authenticated
           ("/v1/public/trades?symbol=" +:+ symbol +:+ "&limit=" +:+ pretty limit) in
       let* trades := js_map (js_or data (VArr [])) (parse_trade symbol) in
       cache_set cacheKey (CTrades trades) >> ret trades)
      (fun _ => getMockTrades symbol limit).

End WithEnv.

Definition clearCache : M unit :=
  fun w => (Ok tt, set_lastFetch ∅ (set_cache ∅ w)).

End MarketDataService.

(** ** TechnicalAnalysisService *)

Module TechnicalAnalysisService.
Import Num Js Effects.
Local Open Scope effect_scope.

(** The [gains] and [losses] arrays filled by the first loop of
    [calculateRSI]. *)
Definition price_change (prices : list number) (i : nat) : number :=
  sub (at_index prices i) (at_index prices (i - 1)).

Definition rsi_gains (prices : list number) : list number :=
  map (fun i => let change := price_change prices i in
                if gt change (of_Z 0) then change else of_Z 0)
      (seq 1 (length prices - 1)).

Definition rsi_losses (prices : list number) : list number :=
  map (fun i => let change := price_change prices i in
                if lt change (of_Z 0) then abs change else of_Z 0)
      (seq 1 (length prices - 1)).

Definition calculateRSI (prices : list number) (period : nat) : number :=
  if (length prices <? period + 1)%nat then of_Z 50
  else
    let gains := rsi_gains prices in
    let losses := rsi_losses prices in
    let avgGain := div (reduce_sum (take period gains)) (of_nat period) in
    let avgLoss := div (reduce_sum (take period losses)) (of_nat period) in
    let '(avgGain, avgLoss) :=
      for_range period (length gains)
        (fun i '(avgGain, avgLoss) =>
           (div (add (mul avgGain (of_Z (Z.of_nat period - 1))) (at_index gains i))
                (of_nat period),
            div (add (mul avgLoss (of_Z (Z.of_nat period - 1))) (at_index losses i))
                (of_nat period)))
        (avgGain, avgLoss) in
    let rs := div avgGain avgLoss in
    let rsi := sub (of_Z 100) (div (of_Z 100) (add (of_Z 1) rs)) in
    math_max [of_Z 0; math_min [of_Z 100; rsi]].

Definition calculateEMA (prices : list number) (period : nat) : number :=
  if (length prices <? period)%nat then or_zero (last prices)
  else
    let multiplier := div (of_Z 2) (of_Z (Z.of_nat period + 1)) in
    let ema := div (reduce_sum (take period prices)) (of_nat period) in
    for_range period (length prices)
      (fun i ema =>
         add (mul (at_index prices i) multiplier)
             (mul ema (sub (of_Z 1) multiplier)))
      ema.

Definition calculateSMA (prices : list number) (period : nat) : number :=
  if (length prices <? period)%nat then or_zero (last prices)
  else
    let recentPrices := slice_last period prices in
    div (reduce_sum recentPrices) (of_nat period).

Record Macd := { macd : number; signal : number; histogram : number }.

Definition calculateMACD (prices : list number) : Macd :=
  let ema12 := calculateEMA prices 12 in
  let ema26 := calculateEMA prices 26 in
  let macd := sub ema12 ema26 in
  let macdValues := [macd] in
  let signal := calculateEMA macdValues 9 in
  let histogram := sub macd signal in
  {| macd := macd; signal := signal; histogram := histogram |}.

(** The true range of bar [i] (for [i >= 1]). *)
Definition true_range (highs lows closes : list number) (i : nat) : number :=
  math_max [ sub (at_index highs i) (at_index lows i);
             abs (sub (at_index highs i) (at_index closes (i - 1)));
             abs (sub (at_index lows i) (at_index closes (i - 1))) ].

(** The [trueRanges] array filled by the loop of [calculateATR]. *)
Definition trueRanges (highs lows closes : list number) : list number :=
  map (true_range highs lows closes) (seq 1 (length highs - 1)).

Definition calculateATR (highs lows closes : list number) (period : nat) : number :=
  if (length highs <? period)%nat then of_Z 0
  else
    let trueRanges := trueRanges highs lows closes in
    if (length trueRanges <? period)%nat then or_zero (last trueRanges)
    else calculateSMA trueRanges period.

Inductive Trend := bullish | bearish | neutral.

Definition trendDirection (prices : list number) (sma20 sma50 : number) : Trend :=
  if (length prices <? 2)%nat then neutral
  else
    let currentPrice := at_index prices (length prices - 1) in
    let shortTermTrend := if gt currentPrice sma20 then 1 else -1 in
    let longTermTrend := if gt sma20 sma50 then 1 else -1 in
    if (shortTermTrend >? 0) && (longTermTrend >? 0) then bullish
    else if (shortTermTrend <? 0) && (longTermTrend <? 0) then bearish
    else neutral.

Definition calculateVWAP (highs lows closes volumes : list number) : number :=
  if negb ((length highs =? length lows)%nat && (length lows =? length closes)%nat
           && (length closes =? length volumes)%nat)
  then or_zero (last closes)
  else
    let '(priceVolumeSum, volumeSum) :=
      for_range 0 (length highs)
        (fun i '(priceVolumeSum, volumeSum) =>
           let typicalPrice :=
             div (add (add (at_index highs i) (at_index lows i)) (at_index closes i))
                 (of_Z 3) in
           (add priceVolumeSum (mul typicalPrice (at_index volumes i)),
            add volumeSum (at_index volumes i)))
        (of_Z 0, of_Z 0) in
    if gt volumeSum (of_Z 0) then div priceVolumeSum volumeSum
    else or_zero (last closes).

Record Indicators := {
  rsi : number;
  macd_ : Macd;
  ema20 : number;
  ema50 : number;
  sma20 : number;
  atr : number;
  vwap : number;
  trend : Trend
}.

(** The indicator block shared by [getAllIndicators] and
    [getMockIndicators]. *)
Definition indicators_of (closes highs lows volumes : list number) : Indicators :=
  let rsi := calculateRSI closes 14 in
  let macd := calculateMACD closes in
  let ema20 := calculateEMA closes 20 in
  let ema50 := calculateEMA closes 50 in
  let sma20 := calculateSMA closes 20 in
  let atr := calculateATR highs lows closes 14 in
  let vwap := calculateVWAP highs lows closes volumes in
  let trend := trendDirection closes sma20 ema50 in
  {| rsi := rsi; macd_ := macd; ema20 := ema20; ema50 := ema50; sma20 := sma20;
     atr := atr; vwap := vwap; trend := trend |}.

(** The service keeps its own copy of the base-price table. *)
Definition getBasePrice : string -> number := MarketDataService.getBasePrice.

Section WithEnv.
Variable env : Env.

Definition getMockIndicators (symbol : string) : M Indicators :=
  let basePrice := getBasePrice symbol in
  let* mockPrices :=
    mapM (fun _ : nat =>
            let* r := math_random env in
            ret (add basePrice (mul (mul (sub r (decimal 5 1)) basePrice)
                                    (decimal 1 1))))
         (seq 0 100) in
  let* mockHighs :=
    mapM (fun p =>
            let* r := math_random env in
            ret (mul p (add (of_Z 1) (mul r (decimal 1 2)))))
         mockPrices in
  let* mockLows :=
    mapM (fun p =>
            let* r := math_random env in
            ret (mul p (sub (of_Z 1) (mul r (decimal 1 2)))))
         mockPrices in
  let* mockVolumes :=
    mapM (fun _ : nat =>
            let* r := math_random env in ret (mul r (of_Z 1000)))
         (seq 0 100) in
  ret (indicators_of mockPrices mockHighs mockLows mockVolumes).

Definition getAllIndicators (symbol : string) : M Indicators :=
  try_catch
    (let* klines := MarketDataService.fetchKlines env symbol "1m" 200 in
     if (length klines <? 50)%nat then throw "Insufficient klines data"
     else
       let closes := map KlineData.close klines in
       let highs := map KlineData.high klines in
       let lows := map KlineData.low klines in
       let volumes := map KlineData.volume klines in
       ret (indicators_of closes highs lows volumes))
    (fun _ => getMockIndicators symbol).

End WithEnv.

End TechnicalAnalysisService.

(** ** OrderlyMarketService *)

Module MarketSnapshot.
Record t := mk {
  symbol : string;
  price : Num.number;
  volume24h : Num.number;
  change24h : Num.number;
  high : Num.number;
  low : Num.number;
  bids : list (Num.number * Num.number);
  asks : list (Num.number * Num.number);
  timestamp : Z;
  isRealData : bool
}.
End MarketSnapshot.

Module OrderlyMarketService.
Import Num Js Effects.
Local Open Scope effect_scope.

Definition getBasePrice : string -> number := MarketDataService.getBasePrice.

Section WithEnv.
Variable env : Env.

Definition generateOrderbook (isBid : bool) : M (list (number * number)) :=
  bind
    (foldM
       (fun '(orders, price) i =>
          let priceChange :=
            if isBid then opp (mul (of_nat i) (decimal 5 1))
            else mul (of_nat i) (decimal 5 1) in
          let price := add price priceChange in
          let* r := math_random env in
          let quantity := mul r (of_Z 10) in
          ret (orders ++ [(price, quantity)], price))
       (seq 0 10) ([], of_Z 3200))
    (fun '(orders, _) => ret orders).

Definition getMockMarketData (symbol : string) : M MarketSnapshot.t :=
  let basePrice := getBasePrice symbol in
  let* r1 := math_random env in
  let* r2 := math_random env in
  let* bids := generateOrderbook true in
  let* asks := generateOrderbook false in
  let* now := date_now in
  ret (MarketSnapshot.mk symbol basePrice
         (mul r1 (of_Z 1000000))
         (mul (sub r2 (decimal 5 1)) (of_Z 10))
         (mul basePrice (decimal 102 2))
         (mul basePrice (decimal 98 2))
         bids asks now false).

Definition getMarketData (symbol : string) : M MarketSnapshot.t :=
  try_catch
    (let* ticker := MarketDataService.fetchTicker env symbol in
     let* orderbook := MarketDataService.fetchOrderbook env symbol in
     let* now := date_now in
     ret (MarketSnapshot.mk symbol
            (TickerData.price ticker)
            (TickerData.volume24h ticker)
            (TickerData.priceChangePercent24h ticker)
            (TickerData.high24h ticker)
            (TickerData.low24h ticker)
            (take 10 (OrderbookData.bids orderbook))
            (take 10 (OrderbookData.asks orderbook))
            now true))
    (fun _ => getMockMarketData symbol).

(** The service's own mock klines: a random walk from the base price;
    [basePrice *= (1 + priceChange)] runs before the kline is built. *)
Definition getMockKlines (symbol : string) (limit : nat) : M (list KlineData.t) :=
  bind
    (foldM
       (fun '(klines, basePrice) i =>
          let* now := date_now in
          let timestamp := of_Z (now - Z.of_nat i * 60000) in
          let* r1 := math_random env in
          let priceChange := mul (sub r1 (decimal 5 1)) (decimal 1 2) in
          let basePrice := mul basePrice (add (of_Z 1) priceChange) in
          let* r2 := math_random env in
          let* r3 := math_random env in
          let* r4 := math_random env in
          ret (klines ++
               [KlineData.mk timestamp basePrice
                  (mul basePrice (add (of_Z 1) (mul r2 (decimal 5 3))))
                  (mul basePrice (sub (of_Z 1) (mul r3 (decimal 5 3))))
                  basePrice
                  (mul r4 (of_Z 1000))],
               basePrice))
       (rev (seq 1 limit)) ([], getBasePrice symbol))
    (fun '(klines, _) => ret klines).

Definition getKlines (symbol interval : string) (limit : nat) : M (list KlineData.t) :=
  try_catch (MarketDataService.fetchKlines env symbol interval limit)
            (fun _ => getMockKlines symbol limit).

End WithEnv.
End OrderlyMarketService.

(** ** GET /api/market/:symbol *)

Module MarketRoute.
Import Num Js Effects.
Local Open Scope effect_scope.

Record Response := { status : nat; json : MarketSnapshot.t }.

Section WithEnv.
Variable env : Env.

(** The handler never rejects: its [catch] answers 206. *)
Definition get_symbol (symbol : string) : M Response :=
  try_catch
    (let* marketData := MarketDataService.fetchTicker env symbol in
     let* orderbook := MarketDataService.fetchOrderbook env symbol in
     ret {| status := 200;
            json := MarketSnapshot.mk
                      (TickerData.symbol marketData)
                      (TickerData.price marketData)
                      (TickerData.volume24h marketData)
                      (TickerData.priceChangePercent24h marketData)
                      (TickerData.high24h marketData)
                      (TickerData.low24h marketData)
                      (take 10 (OrderbookData.bids orderbook))
                      (take 10 (OrderbookData.asks orderbook))
                      (TickerData.timestamp marketData)
                      true |})
    (fun _ =>
       let basePrice := OrderlyMarketService.getBasePrice symbol in
       let* r1 := math_random env in
       let* r2 := math_random env in
       let* bids := OrderlyMarketService.generateOrderbook env true in
       let* asks := OrderlyMarketService.generateOrderbook env false in
       let* now := date_now in
       ret {| status := 206;
              json := MarketSnapshot.mk symbol basePrice
                        (mul r1 (of_Z 1000000))
                        (mul (sub r2 (decimal 5 1)) (of_Z 10))
                        (mul basePrice (decimal 102 2))
                        (mul basePrice (decimal 98 2))
                        bids asks now false |}).

End WithEnv.
End MarketRoute.

(** ** ChatService *)

Module ChatService.
Import Num Js Effects.
Local Open Scope effect_scope.

Record HeadlineIndicators := {
  rsi : number;
  macd : TechnicalAnalysisService.Macd;
  ema20 : number;
  ema50 : number
}.

Record ChatResponse := {
  reply : string;
  indicators : HeadlineIndicators;
  price : number
}.

Definition sum_qty (levels : list (number * number)) : number :=
  fold_left (fun sum '(price, qty) => add sum qty) levels (of_Z 0).

Definition calculateOrderbookImbalance (bids asks : list (number * number)) : number :=
  let totalBidVolume := sum_qty bids in
  let totalAskVolume := sum_qty asks in
  let totalVolume := add totalBidVolume totalAskVolume in
  if strict_eq totalVolume (of_Z 0) then of_Z 0
  else div (sub totalBidVolume totalAskVolume) totalVolume.

Definition nl : string := String (Ascii.ascii_of_nat 10) EmptyString.

Definition or_text (s dflt : string) : string :=
  if String.eqb s "" then dflt else s.

Definition generateMarketAnalysis (marketData : MarketSnapshot.t)
    (indicators : TechnicalAnalysisService.Indicators) : string :=
  let price := MarketSnapshot.price marketData in
  let ema20 := TechnicalAnalysisService.ema20 indicators in
  let ema50 := TechnicalAnalysisService.ema50 indicators in
  let rsi := TechnicalAnalysisService.rsi indicators in
  let m := TechnicalAnalysisService.macd_ indicators in
  let histogram := TechnicalAnalysisService.histogram m in
  let analysis := "" in
  let analysis :=
    if gt price ema20 && gt ema20 ema50
    then analysis +:+ "- Strong bullish trend: Price above EMA20 > EMA50" +:+ nl
    else if lt price ema20 && lt ema20 ema50
    then analysis +:+ "- Bearish trend developing: Price below EMA20 < EMA50" +:+ nl
    else analysis in
  let analysis :=
    if gt rsi (of_Z 70)
    then analysis +:+ "- RSI indicates overbought conditions (>70)" +:+ nl
    else if lt rsi (of_Z 30)
    then analysis +:+ "- RSI indicates oversold conditions (<30)" +:+ nl
    else analysis in
  let analysis :=
    if gt histogram (of_Z 0)
       && gt (TechnicalAnalysisService.macd m) (TechnicalAnalysisService.signal m)
    then analysis +:+ "- MACD shows bullish momentum" +:+ nl
    else if lt histogram (of_Z 0)
            && lt (TechnicalAnalysisService.macd m) (TechnicalAnalysisService.signal m)
    then analysis +:+ "- MACD shows bearish momentum" +:+ nl
    else analysis in
  let analysis :=
    if gt (MarketSnapshot.volume24h marketData) (of_Z 1000000)
    then analysis +:+ "- High 24h volume indicates strong market interest" +:+ nl
    else analysis in
  or_text analysis ("- Market conditions are neutral" +:+ nl).

Definition trend_text (t : TechnicalAnalysisService.Trend) : string :=
  match t with
  | TechnicalAnalysisService.bullish => "bullish"
  | TechnicalAnalysisService.bearish => "bearish"
  | TechnicalAnalysisService.neutral => "neutral"
  end.

(** The reply of the [catch] block of [processMessage]. *)
Definition apology (symbol : string) : string :=
  "I apologize, but I'm having trouble accessing market data right now. Your question about "
    +:+ symbol +:+ " has been noted. Please try again in a moment.".

Definition fallbackResponse (symbol : string) : ChatResponse :=
  {| reply := apology symbol;
     indicators :=
       {| rsi := of_Z 50;
          macd := {| TechnicalAnalysisService.macd := of_Z 0;
                     TechnicalAnalysisService.signal := of_Z 0;
                     TechnicalAnalysisService.histogram := of_Z 0 |};
          ema20 := of_Z 0;
          ema50 := of_Z 0 |};
     price := of_Z 0 |}.

Section Collaborators.
Variable env : Env.
(** [orderlyMarketService.getMarketData], [technicalAnalysisService.
    getAllIndicators] and the completion call, as the imported
    objects the method is written against. *)
Variable getMarketData : string -> M MarketSnapshot.t.
Variable getAllIndicators : string -> M TechnicalAnalysisService.Indicators.
Variable createCompletion : string -> string -> M (option string).

Definition systemPrompt (wallet symbol : string) (marketData : MarketSnapshot.t)
    (indicators : TechnicalAnalysisService.Indicators) (orderbookImbalance : number)
    : string :=
  let m := TechnicalAnalysisService.macd_ indicators in
  "You are Zibit's advanced trading AI assistant. Analyze the provided REAL market data and give professional trading insights."
  +:+ nl +:+ nl
  +:+ "Current REAL Market Data for " +:+ symbol +:+ ":" +:+ nl
  +:+ "- Price: $" +:+ toFixed env (MarketSnapshot.price marketData) 4 +:+ nl
  +:+ "- 24h Change: " +:+ toFixed env (MarketSnapshot.change24h marketData) 2
  +:+ "%" +:+ nl
  +:+ "- 24h Volume: $" +:+ toLocaleString env (MarketSnapshot.volume24h marketData)
  +:+ nl
  +:+ "- 24h High: $" +:+ toFixed env (MarketSnapshot.high marketData) 4 +:+ nl
  +:+ "- 24h Low: $" +:+ toFixed env (MarketSnapshot.low marketData) 4 +:+ nl
  +:+ "- Data Source: "
  +:+ (if MarketSnapshot.isRealData marketData
       then "LIVE Orderly Network API" else "Cached Fallback") +:+ nl +:+ nl
  +:+ "Technical Indicators (Real-time calculated):" +:+ nl
  +:+ "- RSI (14): " +:+ toFixed env (TechnicalAnalysisService.rsi indicators) 2 +:+ nl
  +:+ "- MACD: " +:+ toFixed env (TechnicalAnalysisService.macd m) 4
  +:+ " (Signal: " +:+ toFixed env (TechnicalAnalysisService.signal m) 4
  +:+ ", Histogram: " +:+ toFixed env (TechnicalAnalysisService.histogram m) 4
  +:+ ")" +:+ nl
  +:+ "- EMA20: $" +:+ toFixed env (TechnicalAnalysisService.ema20 indicators) 4 +:+ nl
  +:+ "- EMA50: $" +:+ toFixed env (TechnicalAnalysisService.ema50 indicators) 4 +:+ nl
  +:+ "- SMA20: $" +:+ toFixed env (TechnicalAnalysisService.sma20 indicators) 4 +:+ nl
  +:+ "- ATR (14): " +:+ toFixed env (TechnicalAnalysisService.atr indicators) 6 +:+ nl
  +:+ "- VWAP: $" +:+ toFixed env (TechnicalAnalysisService.vwap indicators) 4 +:+ nl
  +:+ "- Trend: " +:+ trend_text (TechnicalAnalysisService.trend indicators) +:+ nl
  +:+ "- Orderbook Imbalance: " +:+ toFixed env orderbookImbalance 2 +:+ " ("
  +:+ (if gt orderbookImbalance (decimal 1 1) then "Bullish"
       else if lt orderbookImbalance (opp (decimal 1 1)) then "Bearish"
       else "Neutral") +:+ ")" +:+ nl +:+ nl
  +:+ "Market Analysis:" +:+ nl
  +:+ generateMarketAnalysis marketData indicators +:+ nl +:+ nl
  +:+ "User Wallet: " +:+ wallet +:+ nl
  +:+ "Trading Pair: " +:+ symbol +:+ nl +:+ nl
  +:+ "Guidelines:" +:+ nl
  +:+ "- Be professional and data-driven using REAL market data" +:+ nl
  +:+ "- Explain technical signals based on actual calculations" +:+ nl
  +:+ "- Provide actionable insights with risk warnings" +:+ nl
  +:+ "- Mention current trend direction and key levels" +:+ nl
  +:+ "- Keep responses concise but informative" +:+ nl
  +:+ "- Always reference the data source (LIVE vs Cached)" +:+ nl.

(** [Promise.all] is taken in the order of its array: a rejection of
    either call rejects the whole. *)
Definition processMessage (message wallet symbol : string) : M ChatResponse :=
  try_catch
    (let* marketData := getMarketData symbol in
     let* indicators := getAllIndicators symbol in
     let orderbookImbalance :=
       calculateOrderbookImbalance (MarketSnapshot.bids marketData)
                                   (MarketSnapshot.asks marketData) in
     let prompt := systemPrompt wallet symbol marketData indicators orderbookImbalance in
     let* content := createCompletion prompt message in
     let reply :=
       or_text (default "" content)
               "Sorry, I couldn't generate a response. Please try again." in
     ret {| reply := reply;
            indicators :=
              {| rsi := TechnicalAnalysisService.rsi indicators;
                 macd := TechnicalAnalysisService.macd_ indicators;
                 ema20 := TechnicalAnalysisService.ema20 indicators;
                 ema50 := TechnicalAnalysisService.ema50 indicators |};
            price := MarketSnapshot.price marketData |})
    (fun _ => ret (fallbackResponse symbol)).

(** The two MACD alerts of [generateAlerts]. *)
Definition macdBullishAlert (symbol : string) : string :=
  "üìà " +:+ symbol +:+ ": MACD bullish crossover detected".
Definition macdBearishAlert (symbol : string) : string :=
  "üìâ " +:+ symbol +:+ ": MACD bearish crossover detected".

(** [alerts] is only pushed to after both awaited calls have settled,
    and nothing after them can throw, so the [catch] block is entered
    with [alerts] still empty. *)
Definition generateAlerts (symbol : string) : M (list string) :=
  try_catch
    (let* marketData := getMarketData symbol in
     let* indicators := getAllIndicators symbol in
     let m := TechnicalAnalysisService.macd_ indicators in
     let alerts := [] in
     let alerts :=
       if gt (TechnicalAnalysisService.rsi indicators) (of_Z 70)
       then alerts ++
              ["‚ö†Ô∏è " +:+ symbol +:+ ": RSI at "
               +:+ toFixed env (TechnicalAnalysisService.rsi indicators) 1
               +:+ " - Overbought condition"]
       else if lt (TechnicalAnalysisService.rsi indicators) (of_Z 30)
       then alerts ++
              ["üéØ " +:+ symbol +:+ ": RSI at "
               +:+ toFixed env (TechnicalAnalysisService.rsi indicators) 1
               +:+ " - Oversold opportunity"]
       else alerts in
     let alerts :=
       if gt (TechnicalAnalysisService.histogram m) (of_Z 0)
          && gt (TechnicalAnalysisService.macd m) (TechnicalAnalysisService.signal m)
       then alerts ++ [macdBullishAlert symbol]
       else if lt (TechnicalAnalysisService.histogram m) (of_Z 0)
               && lt (TechnicalAnalysisService.macd m) (TechnicalAnalysisService.signal m)
       then alerts ++ [macdBearishAlert symbol]
       else alerts in
     let price := MarketSnapshot.price marketData in
     let ema20 := TechnicalAnalysisService.ema20 indicators in
     let ema50 := TechnicalAnalysisService.ema50 indicators in
     let alerts :=
       if gt price ema20 && gt ema20 ema50
       then alerts ++ ["üöÄ " +:+ symbol +:+ ": Strong bullish trend - Price above EMA20 > EMA50"]
       else if lt price ema20 && lt ema20 ema50
       then alerts ++
              ["‚ö†Ô∏è " +:+ symbol +:+ ": Bearish trend developing - Price below EMA20 < EMA50"]
       else alerts in
     let alerts :=
       if gt (MarketSnapshot.change24h marketData) (of_Z 5)
       then alerts ++
              ["üìä " +:+ symbol +:+ ": Strong upward momentum (+"
               +:+ toFixed env (MarketSnapshot.change24h marketData) 1 +:+ "% in 24h)"]
       else if lt (MarketSnapshot.change24h marketData) (opp (of_Z 5))
       then alerts ++
              ["üìä " +:+ symbol +:+ ": Significant downward pressure ("
               +:+ toFixed env (MarketSnapshot.change24h marketData) 1 +:+ "% in 24h)"]
       else alerts in
     ret alerts)
    (fun _ => ret []).

End Collaborators.

(** [openai.chat.completions.create] followed by
    [choices[0]?.message?.content]: the call may reject, and a
    fulfilled call may carry no content. *)
Definition createCompletion (env : Env) (system user : string) : M (option string) :=
  fun w =>
    let w' := set_llmCalls (S (llmCalls w)) w in
    match chatCompletion env (llmCalls w) system user with
    | Some content => (Ok content, w')
    | None => (Throw "completion failed", w')
    end.

(** The exported [chatService] object, wired to the two services. *)
Definition chatService_processMessage (env : Env) : string -> string -> string -> M ChatResponse :=
  processMessage env (OrderlyMarketService.getMarketData env)
    (TechnicalAnalysisService.getAllIndicators env) (createCompletion env).

Definition chatService_generateAlerts (env : Env) : string -> M (list string) :=
  generateAlerts env (OrderlyMarketService.getMarketData env)
    (TechnicalAnalysisService.getAllIndicators env).

End ChatService.

(** ** POST /api/ai/chat *)

Module AiRoute.
Import Num Js Effects.
Local Open Scope effect_scope.

Inductive Body :=
| ChatBody (response : ChatService.ChatResponse)
| ErrorBody (error : string)
| ErrorReplyBody (error reply : string).

Record Response := { status : nat; json : Body }.

Section Handler.
(** [chatService.processMessage]; the route passes the body fields on
    as they came. *)
Variable processMessage : JsVal -> JsVal -> JsVal -> M ChatService.ChatResponse.

Definition post_chat (body : JsVal) : M Response :=
  try_catch
    (let* message := lift (get_field body "message") in
     let* wallet := lift (get_field body "wallet") in
     let* symbol := lift (get_field body "symbol") in
     if negb (js_truthy message) || negb (js_truthy wallet) || negb (js_truthy symbol)
     then ret {| status := 400;
                 json := ErrorBody "Missing required fields: message, wallet, symbol" |}
     else
       let* response := processMessage message wallet symbol in
       ret {| status := 200; json := ChatBody response |})
    (fun _ =>
       ret {| status := 500;
              json := ErrorReplyBody "Failed to process AI chat request"
                        "Sorry, I encountered an error. Please try again." |}).

End Handler.
End AiRoute.

(** ** WebSocketManager *)

Module WebSocketManager.

Abbreviation SocketId := nat.
Abbreviation TimerId := nat.

(** What a live [setInterval] timer runs when it fires. *)
Inductive TimerTask :=
| PricePoll (symbol : string)
| AlertCheck (symbol : string).

Record Timer := { task : TimerTask; delay : Z }.

(** One [io.to(room).emit(event, ...)] and the sockets it reached. *)
Record Emission := { event : string; room : string; recipients : gset SocketId }.

(** The manager's two private fields, the room table of the socket
    server ([io.sockets.adapter.rooms]), the timers of the runtime
    that have been set and not cleared, what has been emitted, and the
    symbols whose immediate first poll has not settled yet. *)
Record State := {
  rooms : gmap string (gset SocketId);
  activeSymbols : gset string;
  pollIntervals : gmap string TimerId;
  timers : gmap TimerId Timer;
  nextTimer : TimerId;
  outbox : list Emission;
  pending : list string
}.

Definition initial : State :=
  {| rooms := ∅; activeSymbols := ∅; pollIntervals := ∅; timers := ∅;
     nextTimer := 0%nat; outbox := []; pending := [] |}.

Definition set_rooms (r : gmap string (gset SocketId)) (st : State) : State :=
  {| rooms := r; activeSymbols := activeSymbols st; pollIntervals := pollIntervals st;
     timers := timers st; nextTimer := nextTimer st; outbox := outbox st; pending := pending st |}.
Definition set_activeSymbols (a : gset string) (st : State) : State :=
  {| rooms := rooms st; activeSymbols := a; pollIntervals := pollIntervals st;
     timers := timers st; nextTimer := nextTimer st; outbox := outbox st; pending := pending st |}.
Definition set_pollIntervals (p : gmap string TimerId) (st : State) : State :=
  {| rooms := rooms st; activeSymbols := activeSymbols st; pollIntervals := p;
     timers := timers st; nextTimer := nextTimer st; outbox := outbox st; pending := pending st |}.
Definition set_timers (t : gmap TimerId Timer) (st : State) : State :=
  {| rooms := rooms st; activeSymbols := activeSymbols st;
     pollIntervals := pollIntervals st;
     timers := t; nextTimer := nextTimer st; outbox := outbox st; pending := pending st |}.

(** [setInterval(callback, ms)] returns a fresh handle. *)
Definition setInterval (t : TimerTask) (ms : Z) (st : State) : TimerId * State :=
  let id := nextTimer st in
  (id, {| rooms := rooms st; activeSymbols := activeSymbols st;
          pollIntervals := pollIntervals st;
          timers := <[id := {| task := t; delay := ms |}]> (timers st);
          nextTimer := S id; outbox := outbox st; pending := pending st |}).

Definition clearInterval (id : TimerId) (st : State) : State :=
  set_timers (delete id (timers st)) st.

(** Rooms of the socket server: joining creates the room, the last
    member leaving deletes it, and a closing socket leaves every room
    before its [disconnect] handlers run. *)
Definition members (name : string) (st : State) : gset SocketId :=
  default ∅ (rooms st !! name).

Definition socket_join (socket : SocketId) (name : string) (st : State) : State :=
  set_rooms (<[name := {[socket]} ∪ members name st]> (rooms st)) st.

Definition without (socket : SocketId) (room : gset SocketId) : option (gset SocketId) :=
  let rest := room ∖ {[socket]} in
  if decide (rest = ∅) then None else Some rest.

Definition socket_leave (socket : SocketId) (name : string) (st : State) : State :=
  match rooms st !! name with
  | None => st
  | Some room =>
      match without socket room with
      | None => set_rooms (delete name (rooms st)) st
      | Some rest => set_rooms (<[name := rest]> (rooms st)) st
      end
  end.

Definition socket_leave_all (socket : SocketId) (st : State) : State :=
  set_rooms (omap (without socket) (rooms st)) st.

Definition emit_to (name event : string) (st : State) : State :=
  {| rooms := rooms st; activeSymbols := activeSymbols st;
     pollIntervals := pollIntervals st; timers := timers st;
     nextTimer := nextTimer st;
     outbox := outbox st ++ [{| event := event; room := name;
                                recipients := members name st |}];
     pending := pending st |}.

Fixpoint list_remove_one (x : string) (l : list string) : list string :=
  match l with
  | [] => []
  | y :: rest => if String.eqb x y then rest else y :: list_remove_one x rest
  end.

Definition symbol_room (symbol : string) : string := "symbol-" +:+ symbol.
Definition alerts_room (wallet : string) : string := "alerts-" +:+ wallet.

Definition add_pending (symbol : string) (st : State) : State :=
  {| rooms := rooms st; activeSymbols := activeSymbols st;
     pollIntervals := pollIntervals st; timers := timers st;
     nextTimer := nextTimer st; outbox := outbox st;
     pending := pending st ++ [symbol] |}.

Definition set_pending (p : list string) (st : State) : State :=
  {| rooms := rooms st; activeSymbols := activeSymbols st;
     pollIntervals := pollIntervals st; timers := timers st;
     nextTimer := nextTimer st; outbox := outbox st; pending := p |}.

(** [orderlyMarketService.startPolling]: a 2000 ms interval and an
    immediate first poll; the value returned stands for the closure
    that clears the interval. *)
Definition startPolling (symbol : string) (st : State) : TimerId * State :=
  let '(interval, st) := setInterval (PricePoll symbol) 2000 st in
  (interval, add_pending symbol st).

Definition subscribeToSymbol (symbol : string) (st : State) : State :=
  if decide (symbol ∈ activeSymbols st) then st
  else
    let st := set_activeSymbols ({[symbol]} ∪ activeSymbols st) st in
    let '(stopPolling, st) := startPolling symbol st in
    let '(alertInterval, st) := setInterval (AlertCheck symbol) 30000 st in
    set_pollIntervals (<[symbol := alertInterval]> (pollIntervals st)) st.

Definition unsubscribeFromSymbol (symbol : string) (st : State) : State :=
  let symbolRoom := rooms st !! symbol_room symbol in
  if match symbolRoom with
     | None => true
     | Some room => bool_decide (size room = 0%nat)
     end
  then
    let st := set_activeSymbols (activeSymbols st ∖ {[symbol]}) st in
    match pollIntervals st !! symbol with
    | Some interval =>
        set_pollIntervals (delete symbol (pollIntervals st)) (clearInterval interval st)
    | None => st
    end
  else st.

(** What reaches the manager: the three client messages, a socket
    closing, a timer of the runtime coming due (with, for an alert
    timer, the alerts [generateAlerts] produced on that run), and the
    first poll of a symbol delivering its data. *)
Inductive Event :=
| SubscribeSymbol (socket : SocketId) (symbol : string)
| UnsubscribeSymbol (socket : SocketId) (symbol : string)
| SubscribeAlerts (socket : SocketId) (wallet : string)
| Disconnect (socket : SocketId)
| TimerDue (id : TimerId) (alerts : list string)
| FirstPollSettled (symbol : string).

Definition fire (t : Timer) (alerts : list string) (st : State) : State :=
  match task t with
  | PricePoll symbol => emit_to (symbol_room symbol) "price-update" st
  | AlertCheck symbol =>
      if (0 <? length alerts)%nat then emit_to (symbol_room symbol) "alerts" st
      else st
  end.

Definition step (e : Event) (st : State) : State :=
  match e with
  | SubscribeSymbol socket symbol =>
      socket_join socket (symbol_room symbol) (subscribeToSymbol symbol st)
  | UnsubscribeSymbol socket symbol =>
      unsubscribeFromSymbol symbol (socket_leave socket (symbol_room symbol) st)
  | SubscribeAlerts socket wallet =>
      socket_join socket (alerts_room wallet) st
  | Disconnect socket =>
      socket_leave_all socket st
  | TimerDue id alerts =>
      match timers st !! id with
      | Some t => fire t alerts st
      | None => st
      end
  | FirstPollSettled symbol =>
      if bool_decide (symbol ∈ pending st)
      then emit_to (symbol_room symbol) "price-update"
             (set_pending (list_remove_one symbol (pending st)) st)
      else st
  end.

(** A cleared timer never fires; a live one keeps coming due. *)
Definition run (events : list Event) (st : State) : State :=
  fold_left (fun st e => step e st) events st.

(** The timers of a symbol that are still live. *)
Definition live (t : TimerTask) (ms : Z) (st : State) : Prop :=
  ∃ id, timers st !! id = Some {| task := t; delay := ms |}.

(** What holds of the timer handles in every state the manager reaches:
    handles are below [nextTimer], and the handle kept for a symbol is
    never that of a price-update timer. *)
Definition handles_ok (st : State) : Prop :=
  (forall id t, timers st !! id = Some t -> (id < nextTimer st)%nat) /\
  (forall symbol id,
     pollIntervals st !! symbol = Some id ->
     (id < nextTimer st)%nat /\
     forall t, timers st !! id = Some t -> exists s, task t = AlertCheck s).

(** The bookkeeping of the alert timers: the handle kept for a symbol
    is that of a live 30000 ms alert timer for that symbol, every live
    alert timer is the one kept for its symbol, and a handle is kept
    exactly for the active symbols. *)
Definition alert_timers_ok (st : State) : Prop :=
  (forall id t, timers st !! id = Some t -> (id < nextTimer st)%nat) /\
  (forall symbol id,
     pollIntervals st !! symbol = Some id ->
     timers st !! id = Some {| task := AlertCheck symbol; delay := 30000 |}) /\
  (forall id t symbol,
     timers st !! id = Some t -> task t = AlertCheck symbol ->
     pollIntervals st !! symbol = Some id) /\
  (forall symbol, symbol ∈ activeSymbols st <-> is_Some (pollIntervals st !! symbol)).

(** One socket subscribing to a symbol and unsubscribing again. *)
Definition subscribe_unsubscribe (socket : SocketId) (symbol : string) (st : State) : State :=
  run [SubscribeSymbol socket symbol; UnsubscribeSymbol socket symbol] st.

(** The state after [n] rounds of subscribing and unsubscribing: nobody
    is in the symbol's room, the symbol is not active, no alert handle
    is kept, and the timers are the [n] price-update timers 0, 2, ...,
    2n - 2. *)
Definition leaked (symbol : string) (n : nat) (st : State) : Prop :=
  rooms st !! symbol_room symbol = None /\
  (symbol ∉ activeSymbols st) /\
  pollIntervals st !! symbol = None /\
  nextTimer st = (2 * n)%nat /\
  (forall i, (i < n)%nat ->
     timers st !! (2 * i)%nat = Some {| task := PricePoll symbol; delay := 2000 |}) /\
  (forall id t, timers st !! id = Some t ->
     t = {| task := PricePoll symbol; delay := 2000 |} /\ exists i, (i < n)%nat /\ id = (2 * i)%nat).

End WebSocketManager.

(** ** The specification's statements, as written, and the notions
       the properties below are stated with *)

Module Stated.
Import Num TechnicalAnalysisService.

(** ATR on a short series, in the specification's words: with fewer
    than [period] true-range samples the result is the last computed
    true range, and 0 when there is none. *)
Definition atr_short_series (highs lows closes : list number) (period : nat) : Prop :=
  let tr := trueRanges highs lows closes in
  (length tr < period)%nat ->
  calculateATR highs lows closes period = default (of_Z 0) (last tr).

(** The mean of the last [period] values. *)
Definition sma_of_last (period : nat) (values : list number) : number :=
  div (reduce_sum (slice_last period values)) (of_nat period).

(** The true range of a bar, from its high, its low and the close of the
    bar before. *)
Definition true_range_of (high low prevClose : number) : number :=
  math_max [sub high low; abs (sub high prevClose); abs (sub low prevClose)].

(** MACD in the specification's words: on a sequence of real numbers
    the signal equals the macd value and the histogram is zero. *)
Definition macd_histogram_zero (prices : list number) : Prop :=
  forallb isFinite prices = true ->
  strict_eq (signal (calculateMACD prices)) (macd (calculateMACD prices)) = true /\
  isZero (histogram (calculateMACD prices)) = true.

(** Trend classes in the specification's words: bearish exactly when
    both strict comparisons are reversed. *)
Definition trend_bearish_iff_reversed (prices : list number) (sma20 sma50 : number) : Prop :=
  let currentPrice := at_index prices (length prices - 1) in
  trendDirection prices sma20 sma50 = bearish <->
  lt currentPrice sma20 = true /\ lt sma20 sma50 = true.

(** The time since the last fetch that the rate limit let through for
    the symbol. *)
Definition since_last_fetch (symbol : string) (w : Effects.World) : Z :=
  Effects.clock w - default 0 (Effects.lastFetch w !! symbol).

(** The rate-limit table only moves forward: once a fetch for the
    symbol has been let through at [t], every later entry is at [t] or
    after it. *)
Definition not_before (symbol : string) (t : Z) (w : Effects.World) : Prop :=
  t <= default 0 (Effects.lastFetch w !! symbol).

(** The cache key of a klines request. *)
Definition klines_key (symbol interval : string) (limit : nat) : string :=
  "klines_" +:+ symbol +:+ "_" +:+ interval +:+ "_" +:+ pretty limit.

(** The cache claim for klines, in the specification's words: a call
    stores its result, and a second call made while that entry is
    younger than the 2000 ms TTL returns it without network access. *)
Definition fresh_klines_served (env : Effects.Env) (symbol interval : string)
    (limit : nat) (w0 : Effects.World) (age : Z) : Prop :=
  0 <= age < MarketDataService.CACHE_DURATION ->
  let w1 := snd (MarketDataService.fetchKlines env symbol interval limit w0) in
  forall klines,
    Effects.cache w1 !! klines_key symbol interval limit = Some (Effects.CKlines klines) ->
    let '(r2, w2) :=
      MarketDataService.fetchKlines env symbol interval limit
        (snd (Effects.sleep age w1)) in
    r2 = Js.Ok klines /\ Effects.netCalls w2 = Effects.netCalls w1.

(** What a rate-limited [fetchTicker] answers in a given world: the
    cached ticker of the symbol if there is one, mock data otherwise. *)
Definition cached_or_mock (env : Effects.Env) (symbol : string) (w : Effects.World)
    : Js.Outcome TickerData.t :=
  match Effects.cache w !! ("ticker_" +:+ symbol) ≫= MarketDataService.as_ticker with
  | Some cached => Js.Ok cached
  | None => fst (MarketDataService.getMockTicker env symbol w)
  end.

(** The same for [fetchOrderbook]. *)
Definition cached_or_mock_orderbook (env : Effects.Env) (symbol : string)
    (w : Effects.World) : Js.Outcome OrderbookData.t :=
  match Effects.cache w !! ("orderbook_" +:+ symbol) ≫= MarketDataService.as_orderbook with
  | Some cached => Js.Ok cached
  | None => fst (MarketDataService.getMockOrderbook env symbol w)
  end.

(** The rate-limit claim, in the specification's words: of two calls
    issued less than 1000 ms apart at most one goes to the network, and
    the later one answers with the cached value or with mock data. *)
Definition later_ticker_served_locally (env : Effects.Env) (symbol : string)
    (w1 : Effects.World) (pause : Z) : Prop :=
  let w1' := snd (MarketDataService.fetchTicker env symbol w1) in
  let w2 := snd (Effects.sleep pause w1') in
  let '(r2, w2') := MarketDataService.fetchTicker env symbol w2 in
  0 <= pause -> Effects.clock w2 - Effects.clock w1 < 1000 ->
  (Effects.netCalls w1' = Effects.netCalls w1 \/ Effects.netCalls w2' = Effects.netCalls w2)
  /\ r2 = cached_or_mock env symbol w2.

End Stated.

(** ** What the service may be asked between two calls *)

Module Schedule.
Import Effects.

Inductive Op :=
| Sleep (ms : Z)
| FetchTicker (symbol : string)
| FetchOrderbook (symbol : string)
| FetchKlines (symbol interval : string) (limit : nat)
| FetchTrades (symbol : string) (limit : nat).

Definition run_op (env : Env) (op : Op) (w : World) : World :=
  match op with
  | Sleep ms => snd (sleep ms w)
  | FetchTicker symbol => snd (MarketDataService.fetchTicker env symbol w)
  | FetchOrderbook symbol => snd (MarketDataService.fetchOrderbook env symbol w)
  | FetchKlines symbol interval limit =>
      snd (MarketDataService.fetchKlines env symbol interval limit w)
  | FetchTrades symbol limit => snd (MarketDataService.fetchTrades env symbol limit w)
  end.

(** Any sequence of them; [clearCache] is not among them. *)
Definition run_ops (env : Env) (ops : list Op) (w : World) : World :=
  fold_left (fun w op => run_op env op w) ops w.

End Schedule.

(** ** Scenarios *)

Module Scenario.
Import Num Js Effects.

(** An environment in which nothing answers: every request to the
    exchange fails after 10 ms, the completion service rejects, and the
    random source is stuck at one half. *)
Definition silent_env : Env :=
  {| network := fun _ _ => {| latency := 10; body := None |};
     random := fun _ => decimal 5 1;
     chatCompletion := fun _ _ _ => None;
     parseFloat := fun v => match v with VNum n => n | _ => NaN end;
     parseInt := fun v => match v with VNum n => n | _ => NaN end;
     toFixed := fun _ _ => "0";
     toLocaleString := fun _ => "0" |}.


(** An exchange that answers every request in 50 ms with an order
    book of one bid and one ask. *)
Definition orderbook_env : Env :=
  {| network := fun _ _ =>
       {| latency := 50;
          body := Some (VObj [("price", VNum (of_Z 64000));
                              ("volume24h", VNum (of_Z 1200));
                              ("bids", VArr [VArr [VNum (of_Z 63990); VNum (of_Z 2)]]);
                              ("asks", VArr [VArr [VNum (of_Z 64010); VNum (of_Z 3)]])]) |};
     random := fun _ => decimal 5 1;
     chatCompletion := fun _ _ _ => None;
     parseFloat := fun v => match v with VNum n => n | _ => NaN end;
     parseInt := fun v => match v with VNum n => n | _ => NaN end;
     toFixed := fun _ _ => "0";
     toLocaleString := fun _ => "0" |}.

(** The two conversions on what the scenarios send: numbers pass, the
    text 0 is zero. *)
Definition parse_number (v : JsVal) : number :=
  match v with
  | VNum n => n
  | VStr s => if String.eqb s "0" then of_Z 0 else NaN
  | _ => NaN
  end.

(** An exchange that answers every request in 50 ms with one ticker. *)
Definition ticker_env : Env :=
  {| network := fun _ _ =>
       {| latency := 50;
          body := Some (VObj [("price", VNum (of_Z 64000));
                              ("volume24h", VNum (of_Z 1200))]) |};
     random := fun _ => decimal 5 1;
     chatCompletion := fun _ _ _ => None;
     parseFloat := parse_number;
     parseInt := parse_number;
     toFixed := fun _ _ => "0";
     toLocaleString := fun _ => "0" |}.

(** An exchange that answers the [n]-th request in 100 ms with one
    candle closing at [n]. *)
Definition klines_env : Env :=
  {| network := fun n _ =>
       {| latency := 100;
          body := Some (VArr [VObj [("close", VNum (of_nat n))]]) |};
     random := fun _ => decimal 5 1;
     chatCompletion := fun _ _ _ => None;
     parseFloat := parse_number;
     parseInt := parse_number;
     toFixed := fun _ _ => "0";
     toLocaleString := fun _ => "0" |}.

(** A fresh process, started at some epoch time. *)
Definition fresh_world : World :=
  {| cache := ∅; lastFetch := ∅; clock := 1700000000000;
     netCalls := 0; randCalls := 0; llmCalls := 0 |}.

(** A process in which a fetch for the symbol was let through 900 ms
    ago, and whose cache holds a ticker stored 5000 ms ago. *)
Definition limited_world (symbol : string) : World :=
  {| cache :=
       {[ "ticker_" +:+ symbol :=
            CTicker (TickerData.mk symbol (of_Z 64000) (of_Z 63000) (of_Z 1200)
                       (of_Z 64500) (of_Z 62500) (of_Z 1000) (of_Z 2)
                       (1700000000000 - 5000)) ]};
     lastFetch := {[ symbol := 1700000000000 - 900 ]};
     clock := 1700000000000; netCalls := 0; randCalls := 0; llmCalls := 0 |}.

End Scenario.

(** * Properties *)

(** ** Numbers *)

Section NumberFacts.
Import Num.

Lemma of_Z_0 : of_Z 0 = S754_zero false.
Proof. reflexivity. Qed.

Lemma of_Z_100 : of_Z 100 = S754_finite false 7036874417766400 (-46).
Proof. vm_compute. reflexivity. Qed.

Lemma lt_le (a b : number) : lt a b = true -> le a b = true.
Proof.
  unfold lt, le, SFltb, SFleb.
  destruct (SFcompare a b) as [[ | | ]|]; congruence.
Qed.

(** [Math.min(c, x)] for a constant [c] that is a nonzero finite number. *)
Lemma math_min_pair (s : bool) (m : positive) (e : Z) (x : number) :
  math_min [S754_finite s m e; x] =
  if isNaN x then NaN
  else if lt x (S754_finite s m e) then x else S754_finite s m e.
Proof.
  destruct x as [[|]|[|]| |sx mx ex]; destruct s; reflexivity.
Qed.

(** [Math.max(0, y)] *)
Lemma math_max_zero (y : number) :
  math_max [of_Z 0; y] =
  if isNaN y then NaN else if gt y (of_Z 0) then y else of_Z 0.
Proof.
  rewrite of_Z_0. destruct y as [[|]|[|]| |[|] m e]; reflexivity.
Qed.

(** The final expression of [calculateRSI] yields NaN or a number of
    the interval [0,100], whatever it is given. *)
Lemma clamp_0_100 (x : number) :
  let r := math_max [of_Z 0; math_min [of_Z 100; x]] in
  r = NaN \/ in_0_100 r = true.
Proof.
  cbv zeta. rewrite of_Z_100, math_min_pair, math_max_zero. rewrite <- of_Z_100.
  destruct (isNaN x) eqn:Hx; [left; reflexivity|].
  destruct (lt x (of_Z 100)) eqn:Hlt.
  - rewrite Hx. destruct (gt x (of_Z 0)) eqn:Hgt.
    + right. unfold in_0_100. rewrite (lt_le _ _ Hlt).
      unfold gt in Hgt. fold (lt (of_Z 0) x) in Hgt. rewrite (lt_le _ _ Hgt). reflexivity.
    + right. reflexivity.
  - right. vm_compute. reflexivity.
Qed.

Lemma strict_eq_refl (x : number) : isFinite x = true -> strict_eq x x = true.
Proof.
  destruct x as [s|s| |s m e]; try discriminate; intros _; [reflexivity|].
  unfold strict_eq, SFeqb, SFcompare.
  rewrite Z.compare_refl.
  change (Pos.compare_cont Eq m m) with (Pos.compare m m).
  rewrite Pos.compare_refl. destruct s; reflexivity.
Qed.

Lemma sub_diag (x : number) : isFinite x = true -> sub x x = S754_zero false.
Proof.
  destruct x as [[|]|s| |s m e]; try discriminate; intros _; try reflexivity.
  unfold sub, SFsub. rewrite Z.sub_diag. reflexivity.
Qed.

End NumberFacts.

(** ** Technical indicators *)

Section IndicatorFacts.
Import Num TechnicalAnalysisService.

(** X1: with fewer than [period + 1] prices the RSI is the neutral 50. *)
Lemma calculateRSI_short_series (prices : list number) (period : nat) :
  (length prices < period + 1)%nat -> calculateRSI prices period = of_Z 50.
Proof.
  intros Hlen. unfold calculateRSI.
  destruct (Nat.ltb_spec (length prices) (period + 1)) as [_|Hge]; [reflexivity|lia].
Qed.

(** X1 on three prices. *)
Lemma calculateRSI_short_series_witness :
  calculateRSI (map of_Z [1; 2; 3]) 14 = of_Z 50.
Proof. apply calculateRSI_short_series. vm_compute. lia. Defined.

(** X2: the RSI is never outside [0,100] by a number: it is in the
    interval, or it is NaN. *)
Lemma calculateRSI_in_range_or_NaN (prices : list number) (period : nat) :
  calculateRSI prices period = NaN \/ in_0_100 (calculateRSI prices period) = true.
Proof.
  unfold calculateRSI.
  destruct (length prices <? period + 1)%nat; [right; reflexivity|].
  cbv zeta.
  destruct (for_range _ _ _ _) as [avgGain avgLoss].
  apply clamp_0_100.
Qed.

Lemma map_seq_constant {A} (f : nat -> A) (c : A) (lo k : nat) :
  (forall i, (lo <= i < lo + k)%nat -> f i = c) ->
  map f (seq lo k) = replicate k c.
Proof.
  revert lo. induction k as [|k IH]; intros lo Hf; [reflexivity|].
  cbn [seq map replicate]. rewrite (Hf lo) by lia. f_equal.
  apply IH. intros i Hi. apply Hf. lia.
Qed.

Lemma at_index_replicate (n i : nat) (x : number) :
  (i < n)%nat -> at_index (replicate n x) i = x.
Proof.
  intros Hi. unfold at_index.
  rewrite (lookup_replicate_2 n x i Hi). reflexivity.
Qed.

(** On a flat series every change is +0, so there is neither gain nor
    loss. *)
Lemma rsi_gains_flat (n : nat) (x : number) :
  isFinite x = true ->
  rsi_gains (replicate n x) = replicate (n - 1) (of_Z 0) /\
  rsi_losses (replicate n x) = replicate (n - 1) (of_Z 0).
Proof.
  intros Hx. unfold rsi_gains, rsi_losses. rewrite length_replicate.
  split; apply map_seq_constant; intros i Hi; unfold price_change;
    rewrite !at_index_replicate by lia; rewrite (sub_diag x Hx); reflexivity.
Qed.

Lemma for_range_fixed {A} (lo hi : nat) (body : nat -> A -> A) (a : A) :
  (forall i, (lo <= i < hi)%nat -> body i a = a) -> for_range lo hi body a = a.
Proof.
  unfold for_range. intros Hb.
  assert (Hgen : forall k lo', (lo <= lo')%nat -> (lo' + k <= Nat.max lo hi)%nat ->
                   (lo' + k <= hi \/ k = 0)%nat ->
                   fold_left (fun acc i => body i acc) (seq lo' k) a = a).
  { induction k as [|k IH]; intros lo' Hlo Hmax Hhi; [reflexivity|].
    cbn [seq fold_left]. rewrite Hb by lia. apply IH; lia. }
  apply Hgen; lia.
Qed.

(** X3: the RSI of a flat series: whatever its length and its price,
    the relative strength is 0/0 and the result is NaN. *)
Lemma calculateRSI_flat_series (n : nat) (x : number) :
  (15 <= n)%nat -> isFinite x = true -> calculateRSI (replicate n x) 14 = NaN.
Proof.
  intros Hn Hx. unfold calculateRSI. rewrite length_replicate.
  destruct (Nat.ltb_spec n (14 + 1)) as [Hlt|_]; [lia|].
  destruct (rsi_gains_flat n x Hx) as [-> ->].
  rewrite take_replicate, length_replicate.
  replace (14 `min` (n - 1))%nat with 14%nat by lia.
  rewrite for_range_fixed; [vm_compute; reflexivity|].
  intros i Hi. rewrite !at_index_replicate by lia. vm_compute. reflexivity.
Qed.

(** X3 on twenty prices of 7. *)
Lemma calculateRSI_flat_series_witness :
  calculateRSI (replicate 20 (of_Z 7)) 14 = NaN.
Proof. apply calculateRSI_flat_series; [lia|reflexivity]. Defined.

(** C3, at the input where the code leaves the interval: fifteen equal
    prices give no gain and no loss, the relative strength is 0/0, and
    [calculateRSI(prices, 14)] returns NaN, which is not in [0,100]. *)
Theorem calculateRSI_flat_series_is_NaN :
  let prices := replicate 15 (of_Z 100) in
  (15 <= length prices)%nat /\
  calculateRSI prices 14 = NaN /\
  in_0_100 (calculateRSI prices 14) = false.
Proof.
  cbv zeta. split; [vm_compute; lia|].
  split; vm_compute; reflexivity.
Qed.

(** EMA(9) of a one-element series is that element, or 0 when the
    element is falsy (NaN or a zero). *)
Lemma calculateEMA_singleton (x : number) :
  calculateEMA [x] 9 = if truthy x then x else of_Z 0.
Proof. reflexivity. Qed.

(** C4, as the code has it: [calculateMACD] returns macd = EMA(12) -
    EMA(26); its signal is EMA(9) of the one-element series [macd]; and
    histogram = macd - signal.  Whenever the macd value is a finite
    number, the signal equals it and the histogram is zero. *)
Theorem calculateMACD_signal_is_macd (prices : list number)
    (Hreal : isFinite (sub (calculateEMA prices 12) (calculateEMA prices 26)) = true) :
  let r := calculateMACD prices in
  macd r = sub (calculateEMA prices 12) (calculateEMA prices 26) /\
  signal r = calculateEMA [macd r] 9 /\
  strict_eq (signal r) (macd r) = true /\
  histogram r = sub (macd r) (signal r) /\
  isZero (histogram r) = true.
Proof.
  cbv zeta. unfold calculateMACD. cbn [macd signal histogram].
  set (m := sub (calculateEMA prices 12) (calculateEMA prices 26)) in *.
  rewrite calculateEMA_singleton.
  repeat split.
  - destruct m as [s|s| |s mm e]; try discriminate Hreal; [reflexivity|].
    cbn [truthy]. apply strict_eq_refl. reflexivity.
  - destruct m as [[|]|s| |s mm e]; try discriminate Hreal; try reflexivity.
    cbn [truthy]. rewrite sub_diag; reflexivity.
Qed.

(** C4 at a concrete series of thirty rising prices. *)
Lemma calculateMACD_signal_is_macd_witness :
  let prices := map of_Z [100; 101; 102; 103; 104; 105; 106; 107; 108; 109;
                          110; 111; 112; 113; 114; 115; 116; 117; 118; 119;
                          120; 121; 122; 123; 124; 125; 126; 127; 128; 129] in
  isFinite (sub (calculateEMA prices 12) (calculateEMA prices 26)) = true /\
  strict_eq (signal (calculateMACD prices)) (macd (calculateMACD prices)) = true /\
  isZero (histogram (calculateMACD prices)) = true.
Proof.
  cbv zeta.
  assert (H : isFinite (sub (calculateEMA (map of_Z
            [100; 101; 102; 103; 104; 105; 106; 107; 108; 109;
             110; 111; 112; 113; 114; 115; 116; 117; 118; 119;
             120; 121; 122; 123; 124; 125; 126; 127; 128; 129]) 12)
          (calculateEMA (map of_Z
            [100; 101; 102; 103; 104; 105; 106; 107; 108; 109;
             110; 111; 112; 113; 114; 115; 116; 117; 118; 119;
             120; 121; 122; 123; 124; 125; 126; 127; 128; 129]) 26)) = true)
    by (vm_compute; reflexivity).
  split; [exact H|].
  destruct (calculateMACD_signal_is_macd _ H) as (_ & _ & Heq & _ & Hz).
  split; [exact Heq | exact Hz].
Defined.

(** C4 as stated fails where the arithmetic overflows: twelve prices
    of 10^308 are real numbers, their sum is Infinity, so are EMA(12),
    macd and signal, and the histogram Infinity - Infinity is NaN. *)
Lemma calculateMACD_overflow_counterexample :
  ~ Stated.macd_histogram_zero (replicate 12 (of_Z (10 ^ 308))).
Proof.
  unfold Stated.macd_histogram_zero. intros H.
  destruct H as [_ Hz]; [vm_compute; reflexivity|].
  vm_compute in Hz. discriminate Hz.
Qed.

End IndicatorFacts.

(** ** More on the indicators *)

Section MacdSign.
Import Num TechnicalAnalysisService.

(** The histogram [macd - EMA9([macd])] is a zero or NaN. *)
Lemma histogram_unsigned (m : number) :
  gt (sub m (calculateEMA [m] 9)) (of_Z 0) = false /\
  lt (sub m (calculateEMA [m] 9)) (of_Z 0) = false.
Proof.
  rewrite calculateEMA_singleton.
  destruct m as [[|]|[|]| |s m e]; cbn [truthy]; try (split; reflexivity).
  rewrite sub_diag by reflexivity. split; reflexivity.
Qed.

(** X8: the histogram of [calculateMACD] is never a positive and never
    a negative number, whatever the prices: the signal is the EMA of
    the one-element series [macd], so the histogram is a zero or NaN.
    The MACD conditions of [generateMarketAnalysis] and
    [generateAlerts], which start with [histogram > 0] and
    [histogram < 0], are false for every macd this function returns. *)
Lemma calculateMACD_histogram_never_signed (prices : list number) :
  gt (histogram (calculateMACD prices)) (of_Z 0) = false /\
  lt (histogram (calculateMACD prices)) (of_Z 0) = false.
Proof. unfold calculateMACD. cbn [histogram]. apply histogram_unsigned. Qed.

End MacdSign.

Section VwapFacts.
Import Num TechnicalAnalysisService.

Lemma add_zero_zero (v : number) :
  isZero v = true -> add (S754_zero false) v = S754_zero false.
Proof. destruct v as [[|]| | |]; try discriminate; reflexivity. Qed.

Lemma vwap_loop_zero_volume (highs lows closes volumes : list number)
    (k lo : nat) (pv : number) :
  (lo + k <= length volumes)%nat ->
  Forall (fun v => isZero v = true) volumes ->
  snd (fold_left
         (fun acc i =>
            (fun '(priceVolumeSum, volumeSum) =>
               (add priceVolumeSum
                  (mul (div (add (add (at_index highs i) (at_index lows i))
                                 (at_index closes i)) (of_Z 3))
                       (at_index volumes i)),
                add volumeSum (at_index volumes i))) acc)
         (seq lo k) (pv, S754_zero false))
  = S754_zero false.
Proof.
  intros Hlen Hzero. revert lo pv Hlen.
  induction k as [|k IH]; intros lo pv Hlen; [reflexivity|].
  cbn [seq fold_left].
  assert (Hv : isZero (at_index volumes lo) = true).
  { unfold at_index. destruct (volumes !! lo) as [v|] eqn:Hlo.
    - cbn. rewrite Forall_forall in Hzero. apply Hzero.
      apply (list_elem_of_lookup_2 _ _ _ Hlo).
    - apply lookup_ge_None in Hlo. lia. }
  rewrite (add_zero_zero _ Hv). apply IH. lia.
Qed.

(** X10: when every volume is zero, the volume sum is not positive and
    [calculateVWAP] returns the last close, or 0 when there is none or
    it is falsy. *)
Lemma calculateVWAP_zero_volume (highs lows closes volumes : list number) :
  length highs = length lows ->
  length lows = length closes ->
  length closes = length volumes ->
  forallb isZero volumes = true ->
  calculateVWAP highs lows closes volumes = or_zero (last closes).
Proof.
  intros H1 H2 H3 Hzero. unfold calculateVWAP.
  assert (Hall : Forall (fun v => isZero v = true) volumes).
  { apply Forall_forall. intros v Hv. rewrite forallb_forall in Hzero.
    apply Hzero. apply list_elem_of_In. exact Hv. }
  rewrite H1, H2, H3, !Nat.eqb_refl. cbn [andb negb].
  unfold for_range. rewrite Nat.sub_0_r.
  pose proof (vwap_loop_zero_volume highs lows closes volumes
                (length volumes) 0 (of_Z 0) ltac:(lia) Hall) as Hsum.
  rewrite of_Z_0 in *.
  destruct (fold_left _ _ _) as [priceVolumeSum volumeSum].
  cbn [snd] in Hsum. subst volumeSum. reflexivity.
Qed.

(** X10 on three bars without volume: the result is the last close. *)
Lemma calculateVWAP_zero_volume_witness :
  calculateVWAP (map of_Z [12; 13; 14]) (map of_Z [9; 10; 11])
                (map of_Z [10; 12; 13]) (map of_Z [0; 0; 0])
  = of_Z 13.
Proof.
  rewrite calculateVWAP_zero_volume; reflexivity.
Defined.

End VwapFacts.

Section AtrAndTrendFacts.
Import Num TechnicalAnalysisService.

Lemma trueRanges_length (highs lows closes : list number) :
  length (trueRanges highs lows closes) = (length highs - 1)%nat.
Proof. unfold trueRanges. rewrite length_map, length_seq. reflexivity. Qed.

Lemma trueRanges_lookup (highs lows closes : list number) (i : nat) :
  (i < length (trueRanges highs lows closes))%nat ->
  trueRanges highs lows closes !! i =
  Some (Stated.true_range_of (at_index highs (S i)) (at_index lows (S i))
                             (at_index closes i)).
Proof.
  rewrite trueRanges_length. intros Hi. unfold trueRanges.
  rewrite list_lookup_fmap, lookup_seq_lt by exact Hi.
  cbn [fmap option_fmap option_map]. unfold true_range, Stated.true_range_of.
  replace (1 + i - 1)%nat with i by lia. reflexivity.
Qed.

(** C7, as the code has it: below [period] bars the result is 0; at
    exactly [period] bars (one true range short) it is the last true
    range, or 0 when that is NaN or zero; with [period] true ranges or
    more it is the mean of the last [period] of them.  Each true range
    is max(high - low, |high - prevClose|, |low - prevClose|). *)
Theorem calculateATR_by_length (highs lows closes : list number) (period : nat) :
  let tr := trueRanges highs lows closes in
  length tr = (length highs - 1)%nat /\
  (forall i, (i < length tr)%nat ->
     tr !! i = Some (Stated.true_range_of (at_index highs (S i)) (at_index lows (S i))
                                          (at_index closes i))) /\
  ((length highs < period)%nat -> calculateATR highs lows closes period = of_Z 0) /\
  ((length highs = period)%nat -> (0 < period)%nat ->
     calculateATR highs lows closes period = or_zero (last tr)) /\
  ((period <= length tr)%nat ->
     calculateATR highs lows closes period = Stated.sma_of_last period tr).
Proof.
  cbv zeta. split; [apply trueRanges_length|].
  split; [intros i; apply trueRanges_lookup|].
  pose proof (trueRanges_length highs lows closes) as Htr.
  unfold calculateATR. repeat split.
  - intros Hlt.
    destruct (Nat.ltb_spec (length highs) period); [reflexivity|lia].
  - intros Heq Hpos.
    destruct (Nat.ltb_spec (length highs) period); [lia|].
    destruct (Nat.ltb_spec (length (trueRanges highs lows closes)) period);
      [reflexivity|lia].
  - intros Hle.
    destruct (Nat.ltb_spec (length highs) period); [lia|].
    destruct (Nat.ltb_spec (length (trueRanges highs lows closes)) period); [lia|].
    unfold calculateSMA, Stated.sma_of_last.
    destruct (Nat.ltb_spec (length (trueRanges highs lows closes)) period);
      [lia|reflexivity].
Qed.

(** C7 on three bars with period 2 (the mean of two true ranges), on
    two bars with period 2 (the single true range) and on one bar. *)
Lemma calculateATR_by_length_witness :
  calculateATR (map of_Z [10; 12; 13]) (map of_Z [9; 10; 11]) (map of_Z [9; 11; 12]) 2
  = Stated.sma_of_last 2
      (trueRanges (map of_Z [10; 12; 13]) (map of_Z [9; 10; 11]) (map of_Z [9; 11; 12]))
  /\ calculateATR (map of_Z [10; 12]) (map of_Z [9; 10]) (map of_Z [9; 11]) 2
     = or_zero (last (trueRanges (map of_Z [10; 12]) (map of_Z [9; 10]) (map of_Z [9; 11])))
  /\ calculateATR (map of_Z [10]) (map of_Z [9]) (map of_Z [9]) 2 = of_Z 0.
Proof.
  split; [|split].
  - destruct (calculateATR_by_length (map of_Z [10; 12; 13]) (map of_Z [9; 10; 11])
                (map of_Z [9; 11; 12]) 2) as (_ & _ & _ & _ & Hlong).
    apply Hlong. vm_compute. lia.
  - destruct (calculateATR_by_length (map of_Z [10; 12]) (map of_Z [9; 10])
                (map of_Z [9; 11]) 2) as (_ & _ & _ & Hexact & _).
    apply Hexact; [reflexivity | lia].
  - destruct (calculateATR_by_length (map of_Z [10]) (map of_Z [9]) (map of_Z [9]) 2)
      as (_ & _ & Hshort & _ & _).
    apply Hshort. vm_compute. lia.
Defined.

(** C7 as stated fails on two bars with the default period 14: one true
    range (3) has been computed, and the result is 0. *)
Lemma calculateATR_short_series_counterexample :
  ~ Stated.atr_short_series (map of_Z [10; 12]) (map of_Z [9; 10]) (map of_Z [9; 11]) 14.
Proof.
  unfold Stated.atr_short_series. cbv zeta. intros H.
  assert (Hlen : Nat.lt (length (trueRanges (map of_Z [10; 12]) (map of_Z [9; 10])
                                    (map of_Z [9; 11]))) 14) by (vm_compute; lia).
  specialize (H Hlen). vm_compute in H. discriminate H.
Qed.

Lemma compare_antisym (a b : number) :
  SFcompare a b = option_map CompOpp (SFcompare b a).
Proof.
  destruct a as [[|]|[|]| |[|] ma ea], b as [[|]|[|]| |[|] mb eb];
    try reflexivity; cbn [SFcompare option_map];
    rewrite (Z.compare_antisym ea eb);
    destruct (ea ?= eb); cbn [CompOpp]; try reflexivity;
    rewrite (Pos.compare_cont_antisym mb ma Eq); cbn [CompOpp];
    destruct (Pos.compare_cont Eq ma mb); reflexivity.
Qed.

(** Between numbers, [a > b] fails exactly when [a <= b]. *)
Lemma gt_false_iff_le (a b : number) :
  isNaN a = false -> isNaN b = false -> (gt a b = false <-> le a b = true).
Proof.
  intros Ha Hb. unfold gt, le, SFltb, SFleb. rewrite (compare_antisym a b).
  destruct (SFcompare b a) as [[ | | ]|] eqn:Hc; cbn [option_map CompOpp];
    try (split; congruence).
  destruct a, b; discriminate.
Qed.

(** C8, as the code has it: with at least two prices the trend is
    bullish exactly when current price > sma20 and sma20 > the long-term
    reference, bearish exactly when neither comparison holds (between
    numbers: current price <= sma20 and sma20 <= the reference), and
    neutral exactly when one holds and the other does not. *)
Theorem trendDirection_classes (prices : list number) (sma20 sma50 : number)
    (Hlen : (2 <= length prices)%nat) :
  let currentPrice := at_index prices (length prices - 1) in
  (trendDirection prices sma20 sma50 = bullish <->
     gt currentPrice sma20 = true /\ gt sma20 sma50 = true) /\
  (trendDirection prices sma20 sma50 = bearish <->
     gt currentPrice sma20 = false /\ gt sma20 sma50 = false) /\
  (trendDirection prices sma20 sma50 = neutral <->
     gt currentPrice sma20 <> gt sma20 sma50) /\
  (isNaN currentPrice = false -> isNaN sma20 = false -> isNaN sma50 = false ->
     (trendDirection prices sma20 sma50 = bearish <->
        le currentPrice sma20 = true /\ le sma20 sma50 = true)).
Proof.
  cbv zeta. unfold trendDirection.
  destruct (Nat.ltb_spec (length prices) 2) as [Hlt|_]; [lia|].
  set (currentPrice := at_index prices (length prices - 1)).
  assert (Hmain :
    (if gt currentPrice sma20 then
       if gt sma20 sma50 then bullish else neutral
     else if gt sma20 sma50 then neutral else bearish) =
    (if ((if gt currentPrice sma20 then 1 else -1) >? 0)
        && ((if gt sma20 sma50 then 1 else -1) >? 0) then bullish
     else if ((if gt currentPrice sma20 then 1 else -1) <? 0)
             && ((if gt sma20 sma50 then 1 else -1) <? 0) then bearish
     else neutral)).
  { destruct (gt currentPrice sma20), (gt sma20 sma50); reflexivity. }
  rewrite <- Hmain. clear Hmain.
  split; [|split; [|split]].
  - destruct (gt currentPrice sma20), (gt sma20 sma50); naive_solver.
  - destruct (gt currentPrice sma20), (gt sma20 sma50); naive_solver.
  - destruct (gt currentPrice sma20), (gt sma20 sma50); naive_solver.
  - intros Hc Hs Hl.
    rewrite <- (gt_false_iff_le _ _ Hc Hs), <- (gt_false_iff_le _ _ Hs Hl).
    destruct (gt currentPrice sma20), (gt sma20 sma50); naive_solver.
Qed.

(** C8 on a falling series below both references (bearish) and on a
    series level with both (bearish as well). *)
Lemma trendDirection_classes_witness :
  trendDirection (map of_Z [5; 4]) (of_Z 6) (of_Z 7) = bearish /\
  trendDirection (map of_Z [1; 1]) (of_Z 1) (of_Z 1) = bearish.
Proof.
  split.
  - destruct (trendDirection_classes (map of_Z [5; 4]) (of_Z 6) (of_Z 7))
      as (_ & Hbear & _ & _); [vm_compute; lia|].
    apply Hbear. split; reflexivity.
  - destruct (trendDirection_classes (map of_Z [1; 1]) (of_Z 1) (of_Z 1))
      as (_ & Hbear & _ & _); [vm_compute; lia|].
    apply Hbear. split; reflexivity.
Defined.

(** C8 as stated fails when the compared values are equal: the code
    answers bearish, not neutral. *)
Lemma trendDirection_equal_values_counterexample :
  trendDirection (map of_Z [1; 1]) (of_Z 1) (of_Z 1) = bearish /\
  ~ Stated.trend_bearish_iff_reversed (map of_Z [1; 1]) (of_Z 1) (of_Z 1).
Proof.
  split; [reflexivity|].
  unfold Stated.trend_bearish_iff_reversed. cbv zeta. intros [H _].
  destruct (H eq_refl) as [H1 _]. vm_compute in H1. discriminate H1.
Qed.

End AtrAndTrendFacts.

(** ** The broadcaster *)

Section BroadcasterFacts.
Import WebSocketManager.

Lemma without_last (socket : SocketId) : without socket ({[socket]} ∪ ∅) = None.
Proof.
  unfold without. destruct (decide _) as [_|Hne]; [reflexivity|].
  exfalso. apply Hne. set_solver.
Qed.

(** The state once a first socket has subscribed to a symbol. *)
Lemma first_subscription (socket : SocketId) (symbol : string) :
  step (SubscribeSymbol socket symbol) initial =
  {| rooms := <[symbol_room symbol := {[socket]} ∪ ∅]> ∅;
     activeSymbols := {[symbol]} ∪ ∅;
     pollIntervals := <[symbol := 1%nat]> ∅;
     timers := <[1%nat := {| task := AlertCheck symbol; delay := 30000 |}]>
                 (<[0%nat := {| task := PricePoll symbol; delay := 2000 |}]> ∅);
     nextTimer := 2%nat;
     outbox := [];
     pending := [symbol] |}.
Proof.
  unfold step, subscribeToSymbol.
  destruct (decide (symbol ∈ activeSymbols initial)) as [Hin|_];
    [cbn in Hin; set_solver|].
  reflexivity.
Qed.

(** C1, at the input where the code keeps polling: one socket
    subscribes to a symbol and then disconnects.  The symbol's room is
    empty, and both the 2000 ms price-update timer and the 30000 ms alert
    timer are still set; when they come due they still emit, to nobody. *)
Theorem timers_outlive_last_disconnect (socket : SocketId) (symbol : string) :
  let st := run [SubscribeSymbol socket symbol; Disconnect socket] initial in
  members (symbol_room symbol) st = ∅ /\
  live (PricePoll symbol) 2000 st /\
  live (AlertCheck symbol) 30000 st /\
  outbox (run [TimerDue 0%nat []; TimerDue 1%nat ["RSI overbought"]] st) =
    [ {| event := "price-update"; room := symbol_room symbol; recipients := ∅ |};
      {| event := "alerts"; room := symbol_room symbol; recipients := ∅ |} ].
Proof.
  cbv zeta. unfold run. cbn [fold_left].
  rewrite first_subscription.
  assert (Hroom : omap (without socket)
                    (<[symbol_room symbol := {[socket]} ∪ ∅]> (∅ : gmap string (gset SocketId)))
                  !! symbol_room symbol = None).
  { rewrite lookup_omap, lookup_insert_eq. cbn. apply without_last. }
  cbn [step]. unfold socket_leave_all, set_rooms. cbn [rooms activeSymbols pollIntervals
    timers nextTimer outbox pending].
  split; [|split; [|split]].
  - unfold members. cbn [rooms]. rewrite Hroom. reflexivity.
  - exists 0%nat. cbn [timers]. rewrite lookup_insert_ne by lia. apply lookup_insert_eq.
  - exists 1%nat. cbn [timers]. apply lookup_insert_eq.
  - rewrite lookup_insert_ne by lia. rewrite lookup_insert_eq.
    unfold fire, emit_to, members.
    cbn [task timers rooms activeSymbols pollIntervals nextTimer outbox pending].
    rewrite lookup_insert_eq.
    cbn [task timers rooms activeSymbols pollIntervals nextTimer outbox pending
         length Nat.ltb Nat.leb].
    rewrite Hroom. reflexivity.
Qed.

(** An explicit unsubscribe of the last subscriber clears the alert
    timer only: the price-update timer stays set. *)
Lemma price_timer_outlives_unsubscribe (socket : SocketId) (symbol : string) :
  let st := run [SubscribeSymbol socket symbol; UnsubscribeSymbol socket symbol] initial in
  members (symbol_room symbol) st = ∅ /\
  live (PricePoll symbol) 2000 st /\
  ~ live (AlertCheck symbol) 30000 st.
Proof.
  cbv zeta. unfold run. cbn [fold_left].
  rewrite first_subscription.
  cbn [step]. unfold socket_leave. cbn [rooms]. rewrite lookup_insert_eq, without_last.
  unfold unsubscribeFromSymbol, set_rooms.
  cbn [rooms activeSymbols pollIntervals timers nextTimer outbox pending].
  rewrite lookup_delete_eq.
  unfold set_activeSymbols.
  cbn [rooms activeSymbols pollIntervals timers nextTimer outbox pending].
  rewrite lookup_insert_eq.
  unfold set_pollIntervals, clearInterval, set_timers, members, live.
  cbn [rooms activeSymbols pollIntervals timers nextTimer outbox pending].
  rewrite lookup_delete_eq. rewrite delete_insert_eq.
  split; [reflexivity|]. split.
  - exists 0%nat. rewrite lookup_delete_ne by lia. apply lookup_insert_eq.
  - intros [id Hid].
    destruct (decide (id = 0%nat)) as [->|Hne].
    + rewrite lookup_delete_ne in Hid by lia.
      rewrite lookup_insert_eq in Hid. discriminate Hid.
    + destruct (decide (id = 1%nat)) as [->|Hne1].
      * rewrite lookup_delete_eq in Hid. discriminate Hid.
      * rewrite lookup_delete_ne, lookup_insert_ne, lookup_empty in Hid by lia.
        discriminate Hid.
Qed.

(** A closing socket changes the rooms and nothing else: no timer is
    cleared and the symbol stays active. *)
Lemma disconnect_clears_nothing (socket : SocketId) (st : State) :
  timers (step (Disconnect socket) st) = timers st /\
  pollIntervals (step (Disconnect socket) st) = pollIntervals st /\
  activeSymbols (step (Disconnect socket) st) = activeSymbols st.
Proof. repeat split. Qed.

Lemma handles_ok_initial : handles_ok initial.
Proof.
  split.
  - intros id t H. cbn in H. rewrite lookup_empty in H. discriminate H.
  - intros symbol id H. cbn in H. rewrite lookup_empty in H. discriminate H.
Qed.

Lemma handles_ok_subscribeToSymbol (symbol : string) (st : State) :
  handles_ok st -> handles_ok (subscribeToSymbol symbol st).
Proof.
  intros [Ht Hp]. unfold subscribeToSymbol.
  destruct (decide (symbol ∈ activeSymbols st)) as [_|_]; [split; assumption|].
  split.
  - intros id t H. cbn in H |- *.
    destruct (decide (id = S (nextTimer st))) as [->|Hne1]; [lia|].
    rewrite lookup_insert_ne in H by congruence.
    destruct (decide (id = nextTimer st)) as [->|Hne0]; [lia|].
    rewrite lookup_insert_ne in H by congruence.
    specialize (Ht id t H). lia.
  - intros s id H. cbn in H |- *.
    destruct (decide (s = symbol)) as [->|Hne].
    + rewrite lookup_insert_eq in H. injection H as <-.
      split; [lia|]. intros t Hl. rewrite lookup_insert_eq in Hl.
      injection Hl as <-. exists symbol. reflexivity.
    + rewrite lookup_insert_ne in H by congruence.
      destruct (Hp s id H) as [Hlt Halert]. split; [lia|].
      intros t Hl.
      rewrite lookup_insert_ne in Hl by lia.
      rewrite lookup_insert_ne in Hl by lia.
      exact (Halert t Hl).
Qed.

Lemma handles_ok_unsubscribeFromSymbol (symbol : string) (st : State) :
  handles_ok st -> handles_ok (unsubscribeFromSymbol symbol st).
Proof.
  intros [Ht Hp]. unfold unsubscribeFromSymbol.
  destruct (match rooms st !! symbol_room symbol with
            | Some room => bool_decide (size room = 0%nat)
            | None => true
            end); [|split; assumption].
  cbn [set_activeSymbols pollIntervals].
  destruct (pollIntervals st !! symbol) as [interval|] eqn:Hi; [|split; assumption].
  split.
  - intros id t H. cbn in H.
    destruct (decide (id = interval)) as [->|Hne].
    + rewrite lookup_delete_eq in H. discriminate H.
    + rewrite lookup_delete_ne in H by congruence. exact (Ht id t H).
  - intros s id H. cbn in H |- *.
    destruct (decide (s = symbol)) as [->|Hne].
    + rewrite lookup_delete_eq in H. discriminate H.
    + rewrite lookup_delete_ne in H by congruence.
      destruct (Hp s id H) as [Hlt Halert]. split; [exact Hlt|].
      intros t Hl.
      destruct (decide (id = interval)) as [->|Hne'].
      * rewrite lookup_delete_eq in Hl. discriminate Hl.
      * rewrite lookup_delete_ne in Hl by congruence. exact (Halert t Hl).
Qed.

Lemma handles_ok_step (e : Event) (st : State) : handles_ok st -> handles_ok (step e st).
Proof.
  intros H. destruct e as [socket symbol|socket symbol|socket wallet|socket|id alerts|symbol];
    cbn [step].
  - apply (handles_ok_subscribeToSymbol symbol) in H. exact H.
  - apply handles_ok_unsubscribeFromSymbol.
    unfold socket_leave. destruct (rooms st !! symbol_room symbol) as [room|]; [|exact H].
    destruct (without socket room); exact H.
  - exact H.
  - exact H.
  - destruct (timers st !! id) as [t|]; [|exact H].
    unfold fire. destruct (task t); [exact H|].
    destruct (0 <? length alerts)%nat; exact H.
  - destruct (bool_decide (symbol ∈ pending st)); exact H.
Qed.

(** No message, disconnection or timer run ever clears a price-update
    timer: once set, it stays set. *)
Lemma price_timer_survives_step (e : Event) (st : State) (id : TimerId)
    (symbol : string) (ms : Z) :
  handles_ok st ->
  timers st !! id = Some {| task := PricePoll symbol; delay := ms |} ->
  timers (step e st) !! id = Some {| task := PricePoll symbol; delay := ms |}.
Proof.
  intros [Ht Hp] Hid.
  destruct e as [socket s|socket s|socket wallet|socket|tid alerts|s]; cbn [step].
  - unfold subscribeToSymbol.
    destruct (decide (s ∈ activeSymbols st)) as [_|_]; [exact Hid|].
    cbn. specialize (Ht _ _ Hid).
    rewrite lookup_insert_ne by lia. rewrite lookup_insert_ne by lia. exact Hid.
  - assert (Hleave : forall st', timers st' = timers st ->
                       pollIntervals st' = pollIntervals st ->
                       timers (unsubscribeFromSymbol s st') !! id
                       = Some {| task := PricePoll symbol; delay := ms |}).
    { intros st' Et Ep. unfold unsubscribeFromSymbol.
      destruct (match rooms st' !! symbol_room s with
                | Some room => bool_decide (size room = 0%nat)
                | None => true
                end); [|rewrite Et; exact Hid].
      cbn [set_activeSymbols pollIntervals]. rewrite Ep.
      destruct (pollIntervals st !! s) as [interval|] eqn:Hi;
        [|cbn; rewrite Et; exact Hid].
      cbn. rewrite Et.
      destruct (decide (id = interval)) as [->|Hne].
      - destruct (Hp s interval Hi) as [_ Halert].
        destruct (Halert _ Hid) as [s' Hs']. discriminate Hs'.
      - rewrite lookup_delete_ne by congruence. exact Hid. }
    apply Hleave; unfold socket_leave;
      destruct (rooms st !! symbol_room s) as [room|]; try reflexivity;
      destruct (without socket room); reflexivity.
  - exact Hid.
  - exact Hid.
  - destruct (timers st !! tid) as [t|]; [|exact Hid].
    unfold fire. destruct (task t); [exact Hid|].
    destruct (0 <? length alerts)%nat; exact Hid.
  - destruct (bool_decide (s ∈ pending st)); exact Hid.
Qed.

(** X7: whatever happens next, a price-update timer that is set stays
    set. *)
Lemma price_timer_never_cleared (events : list Event) (st : State) (id : TimerId)
    (symbol : string) (ms : Z) :
  handles_ok st ->
  timers st !! id = Some {| task := PricePoll symbol; delay := ms |} ->
  timers (run events st) !! id = Some {| task := PricePoll symbol; delay := ms |}.
Proof.
  unfold run. revert st.
  induction events as [|e rest IH]; intros st Hok Hid; cbn [fold_left]; [exact Hid|].
  apply IH; [apply handles_ok_step, Hok|apply price_timer_survives_step; assumption].
Qed.

(** X7 on a subscription followed by an unsubscribe and the socket
    closing. *)
Lemma price_timer_never_cleared_witness :
  timers (run [UnsubscribeSymbol 1%nat "PERP_ETH_USDC"; Disconnect 1%nat]
            (step (SubscribeSymbol 1%nat "PERP_ETH_USDC") initial)) !! 0%nat
  = Some {| task := PricePoll "PERP_ETH_USDC"; delay := 2000 |}.
Proof.
  apply price_timer_never_cleared.
  - apply handles_ok_step, handles_ok_initial.
  - rewrite first_subscription. cbn [timers].
    rewrite lookup_insert_ne by lia. apply lookup_insert_eq.
Defined.

End BroadcasterFacts.

(** ** More on the broadcaster *)

Section AlertTimerFacts.
Import WebSocketManager.

Lemma alert_timers_ok_initial : alert_timers_ok initial.
Proof.
  repeat split; cbn.
  - intros id t H. rewrite lookup_empty in H. discriminate H.
  - intros symbol id H. rewrite lookup_empty in H. discriminate H.
  - intros id t symbol H. rewrite lookup_empty in H. discriminate H.
  - intros H. set_solver.
  - intros [id H]. rewrite lookup_empty in H. discriminate H.
Qed.

Lemma alert_timers_ok_subscribeToSymbol (symbol : string) (st : State) :
  alert_timers_ok st -> alert_timers_ok (subscribeToSymbol symbol st).
Proof.
  intros (Hlt & Hkept & Hlive & Hactive). unfold subscribeToSymbol.
  destruct (decide (symbol ∈ activeSymbols st)) as [Hin|Hout];
    [repeat split; try assumption; apply Hactive|].
  assert (Hnone : pollIntervals st !! symbol = None).
  { destruct (pollIntervals st !! symbol) as [id|] eqn:E; [|reflexivity].
    exfalso. apply Hout, Hactive. rewrite E. eexists. reflexivity. }
  repeat split; cbn.
  - intros id t H.
    destruct (decide (id = S (nextTimer st))) as [->|Hne1]; [lia|].
    rewrite lookup_insert_ne in H by congruence.
    destruct (decide (id = nextTimer st)) as [->|Hne0]; [lia|].
    rewrite lookup_insert_ne in H by congruence.
    specialize (Hlt id t H). lia.
  - intros s id H.
    destruct (decide (s = symbol)) as [->|Hne].
    + rewrite lookup_insert_eq in H. injection H as <-. apply lookup_insert_eq.
    + rewrite lookup_insert_ne in H by congruence.
      pose proof (Hkept s id H) as Hid. pose proof (Hlt _ _ Hid).
      rewrite lookup_insert_ne by lia. rewrite lookup_insert_ne by lia. exact Hid.
  - intros id t s H Htask.
    destruct (decide (id = S (nextTimer st))) as [->|Hne1].
    + rewrite lookup_insert_eq in H. injection H as <-. cbn in Htask.
      injection Htask as <-. apply lookup_insert_eq.
    + rewrite lookup_insert_ne in H by congruence.
      destruct (decide (id = nextTimer st)) as [->|Hne0].
      * rewrite lookup_insert_eq in H. injection H as <-. discriminate Htask.
      * rewrite lookup_insert_ne in H by congruence.
        pose proof (Hlive id t s H Htask) as Hs.
        rewrite lookup_insert_ne; [exact Hs|].
        intros <-. rewrite Hnone in Hs. discriminate Hs.
  - intros Hin. destruct (decide (symbol0 = symbol)) as [->|Hne].
    + rewrite lookup_insert_eq. eexists. reflexivity.
    + rewrite lookup_insert_ne by congruence. apply Hactive. set_solver.
  - intros Hsome. destruct (decide (symbol0 = symbol)) as [->|Hne]; [set_solver|].
    rewrite lookup_insert_ne in Hsome by congruence.
    apply Hactive in Hsome. set_solver.
Qed.

Lemma alert_timers_ok_unsubscribeFromSymbol (symbol : string) (st : State) :
  alert_timers_ok st -> alert_timers_ok (unsubscribeFromSymbol symbol st).
Proof.
  intros (Hlt & Hkept & Hlive & Hactive). unfold unsubscribeFromSymbol.
  destruct (match rooms st !! symbol_room symbol with
            | Some room => bool_decide (size room = 0%nat)
            | None => true
            end); [|repeat split; try assumption; apply Hactive].
  cbn [set_activeSymbols pollIntervals].
  destruct (pollIntervals st !! symbol) as [interval|] eqn:Hi.
  - pose proof (Hkept _ _ Hi) as Hinterval.
    repeat split; cbn.
    + intros id t H.
      destruct (decide (id = interval)) as [->|Hne].
      * rewrite lookup_delete_eq in H. discriminate H.
      * rewrite lookup_delete_ne in H by congruence. exact (Hlt id t H).
    + intros s id H.
      destruct (decide (s = symbol)) as [->|Hne].
      * rewrite lookup_delete_eq in H. discriminate H.
      * rewrite lookup_delete_ne in H by congruence.
        pose proof (Hkept s id H) as Hid.
        rewrite lookup_delete_ne; [exact Hid|].
        intros <-. rewrite Hinterval in Hid. congruence.
    + intros id t s H Htask.
      destruct (decide (id = interval)) as [->|Hne].
      * rewrite lookup_delete_eq in H. discriminate H.
      * rewrite lookup_delete_ne in H by congruence.
        pose proof (Hlive id t s H Htask) as Hs.
        rewrite lookup_delete_ne; [exact Hs|].
        intros <-. rewrite Hi in Hs. congruence.
    + intros Hin. destruct (decide (symbol0 = symbol)) as [->|Hne]; [set_solver|].
      rewrite lookup_delete_ne by congruence. apply Hactive. set_solver.
    + intros Hsome. destruct (decide (symbol0 = symbol)) as [->|Hne].
      * rewrite lookup_delete_eq in Hsome. destruct Hsome as [x Hx]. discriminate Hx.
      * rewrite lookup_delete_ne in Hsome by congruence.
        apply Hactive in Hsome. set_solver.
  - repeat split; cbn; try assumption.
    + intros Hin. apply Hactive. set_solver.
    + intros Hsome. destruct (decide (symbol0 = symbol)) as [->|Hne].
      * rewrite Hi in Hsome. destruct Hsome as [x Hx]. discriminate Hx.
      * apply Hactive in Hsome. set_solver.
Qed.

Lemma alert_timers_ok_step (e : Event) (st : State) :
  alert_timers_ok st -> alert_timers_ok (step e st).
Proof.
  intros H. destruct e as [socket symbol|socket symbol|socket wallet|socket|id alerts|symbol];
    cbn [step].
  - apply (alert_timers_ok_subscribeToSymbol symbol) in H. exact H.
  - apply alert_timers_ok_unsubscribeFromSymbol.
    unfold socket_leave. destruct (rooms st !! symbol_room symbol) as [room|]; [|exact H].
    destruct (without socket room); exact H.
  - exact H.
  - exact H.
  - destruct (timers st !! id) as [t|]; [|exact H].
    unfold fire. destruct (task t); [exact H|].
    destruct (0 <? length alerts)%nat; exact H.
  - destruct (bool_decide (symbol ∈ pending st)); exact H.
Qed.

Lemma alert_timers_ok_run (events : list Event) (st : State) :
  alert_timers_ok st -> alert_timers_ok (run events st).
Proof.
  unfold run. revert st.
  induction events as [|e rest IH]; intros st H; cbn [fold_left]; [exact H|].
  apply IH, alert_timers_ok_step, H.
Qed.

(** X11: in every state the manager reaches, an active symbol has
    exactly one alert timer set, and a symbol that is not active has
    none. *)
Lemma one_alert_timer_per_active_symbol (events : list Event) (symbol : string) :
  let st := run events initial in
  (symbol ∈ activeSymbols st ->
   exists id,
     timers st !! id = Some {| task := AlertCheck symbol; delay := 30000 |} /\
     forall id' t, timers st !! id' = Some t -> task t = AlertCheck symbol -> id' = id) /\
  (symbol ∉ activeSymbols st ->
   forall id t, timers st !! id = Some t -> task t <> AlertCheck symbol).
Proof.
  cbv zeta.
  destruct (alert_timers_ok_run events initial alert_timers_ok_initial)
    as (Hlt & Hkept & Hlive & Hactive).
  split.
  - intros Hin. apply Hactive in Hin as [id Hid].
    exists id. split; [exact (Hkept _ _ Hid)|].
    intros id' t Ht Htask. pose proof (Hlive _ _ _ Ht Htask) as H'. congruence.
  - intros Hout id t Ht Htask. apply Hout, Hactive.
    rewrite (Hlive _ _ _ Ht Htask). eexists. reflexivity.
Qed.

End AlertTimerFacts.

Section TimerLeak.
Import WebSocketManager.
Variable socket : SocketId.
Variable symbol : string.

Lemma leaked_initial : leaked symbol 0 initial.
Proof.
  unfold leaked. cbn.
  split; [apply lookup_empty|]. split; [set_solver|].
  split; [apply lookup_empty|]. split; [reflexivity|].
  split; [intros i Hi; lia|].
  intros id t H. rewrite lookup_empty in H. discriminate H.
Qed.

(** The state once a socket has subscribed to a symbol that was not
    active. *)
Lemma subscription_of_inactive (st : State) :
  symbol ∉ activeSymbols st ->
  step (SubscribeSymbol socket symbol) st =
  {| rooms := <[symbol_room symbol := {[socket]} ∪ members (symbol_room symbol) st]>
                (rooms st);
     activeSymbols := {[symbol]} ∪ activeSymbols st;
     pollIntervals := <[symbol := S (nextTimer st)]> (pollIntervals st);
     timers := <[S (nextTimer st) := {| task := AlertCheck symbol; delay := 30000 |}]>
                 (<[nextTimer st := {| task := PricePoll symbol; delay := 2000 |}]>
                    (timers st));
     nextTimer := S (S (nextTimer st));
     outbox := outbox st;
     pending := pending st ++ [symbol] |}.
Proof.
  intros Hout. unfold step, subscribeToSymbol.
  destruct (decide (symbol ∈ activeSymbols st)) as [Hin|_]; [contradiction|].
  reflexivity.
Qed.

Lemma leaked_round (n : nat) (st : State) :
  leaked symbol n st -> leaked symbol (S n) (subscribe_unsubscribe socket symbol st).
Proof.
  intros (Hroom & Hout & Hnone & Hnext & Hpresent & Honly).
  unfold subscribe_unsubscribe, run. cbn [fold_left].
  rewrite (subscription_of_inactive st Hout).
  unfold members. rewrite Hroom. cbn [default].
  cbn [step]. unfold socket_leave. cbn [rooms]. rewrite lookup_insert_eq, without_last.
  unfold unsubscribeFromSymbol, set_rooms.
  cbn [rooms activeSymbols pollIntervals timers nextTimer outbox pending].
  rewrite lookup_delete_eq.
  unfold set_activeSymbols.
  cbn [rooms activeSymbols pollIntervals timers nextTimer outbox pending].
  rewrite lookup_insert_eq.
  unfold set_pollIntervals, clearInterval, set_timers.
  cbn [rooms activeSymbols pollIntervals timers nextTimer outbox pending].
  rewrite Hnext. unfold leaked.
  cbn [rooms activeSymbols pollIntervals timers nextTimer outbox pending].
  split; [apply lookup_delete_eq|]. split; [set_solver|].
  split; [apply lookup_delete_eq|]. split; [lia|]. split.
  - intros i Hi. rewrite lookup_delete_ne by lia.
    destruct (decide (i = n)) as [->|Hne].
    + rewrite lookup_insert_ne by lia. apply lookup_insert_eq.
    + rewrite !lookup_insert_ne by lia. apply Hpresent. lia.
  - intros id t H.
    destruct (decide (id = S (2 * n))) as [->|Hne1].
    + rewrite lookup_delete_eq in H. discriminate H.
    + rewrite lookup_delete_ne, lookup_insert_ne in H by congruence.
      destruct (decide (id = (2 * n)%nat)) as [->|Hne0].
      * rewrite lookup_insert_eq in H. injection H as <-.
        split; [reflexivity|]. exists n. lia.
      * rewrite lookup_insert_ne in H by congruence.
        destruct (Honly _ _ H) as [-> (i & Hi & ->)].
        split; [reflexivity|]. exists i. lia.
Qed.

(** X12: every round of one socket subscribing to a symbol and
    unsubscribing again leaves one more price-update timer behind: after
    [n] rounds nobody is subscribed, the symbol is not active, and [n]
    price-update timers for it are set. *)
Lemma price_timers_accumulate (n : nat) :
  let st := Nat.iter n (subscribe_unsubscribe socket symbol) initial in
  members (symbol_room symbol) st = ∅ /\
  (symbol ∉ activeSymbols st) /\
  (forall i, (i < n)%nat ->
     timers st !! (2 * i)%nat = Some {| task := PricePoll symbol; delay := 2000 |}) /\
  (forall id t, timers st !! id = Some t ->
     t = {| task := PricePoll symbol; delay := 2000 |}).
Proof.
  cbv zeta.
  assert (H : leaked symbol n (Nat.iter n (subscribe_unsubscribe socket symbol) initial)).
  { induction n as [|n IH]; [apply leaked_initial|].
    cbn [Nat.iter]. apply leaked_round, IH. }
  destruct H as (Hroom & Hout & _ & _ & Hpresent & Honly).
  split; [unfold members; rewrite Hroom; reflexivity|].
  split; [exact Hout|]. split; [exact Hpresent|].
  intros id t Ht. apply (Honly _ _ Ht).
Qed.

End TimerLeak.

Section SharedRoom.
Import WebSocketManager.

(** X13: when a socket unsubscribes from a symbol while another socket
    is still in the symbol's room, nothing is stopped: the timers, the
    kept handles and the active symbols are as before, and the other
    socket is still in the room. *)
Lemma unsubscribe_keeps_polling_for_others (socket other : SocketId) (symbol : string)
    (st : State) :
  other <> socket ->
  other ∈ members (symbol_room symbol) st ->
  let st' := step (UnsubscribeSymbol socket symbol) st in
  timers st' = timers st /\
  pollIntervals st' = pollIntervals st /\
  activeSymbols st' = activeSymbols st /\
  other ∈ members (symbol_room symbol) st'.
Proof.
  intros Hne Hin. cbv zeta. cbn [step]. unfold members in Hin.
  unfold socket_leave.
  destruct (rooms st !! symbol_room symbol) as [room|] eqn:Hroom;
    [|cbn in Hin; set_solver].
  cbn [default] in Hin.
  unfold without.
  destruct (decide (room ∖ {[socket]} = ∅)) as [Hempty|Hrest]; [set_solver|].
  unfold unsubscribeFromSymbol, set_rooms. cbn [rooms].
  rewrite lookup_insert_eq.
  assert (Hsize : size (room ∖ {[socket]}) <> 0%nat).
  { intros Hzero. apply size_empty_inv in Hzero. apply Hrest.
    apply leibniz_equiv. exact Hzero. }
  rewrite bool_decide_eq_false_2 by exact Hsize.
  cbn [timers pollIntervals activeSymbols].
  repeat split.
  unfold members. cbn [rooms]. rewrite lookup_insert_eq. cbn [default]. set_solver.
Qed.

(** X13 with sockets 1 and 2 subscribed to a symbol: socket 1
    unsubscribes and both timers stay set. *)
Lemma unsubscribe_keeps_polling_for_others_witness :
  let st := run [SubscribeSymbol 1%nat "PERP_ETH_USDC";
                 SubscribeSymbol 2%nat "PERP_ETH_USDC"] initial in
  timers (step (UnsubscribeSymbol 1%nat "PERP_ETH_USDC") st) = timers st.
Proof.
  cbv zeta.
  apply (unsubscribe_keeps_polling_for_others 1%nat 2%nat "PERP_ETH_USDC").
  - lia.
  - unfold run. cbn [fold_left]. rewrite first_subscription.
    cbn [step]. unfold socket_join, members, set_rooms. cbn [rooms].
    unfold subscribeToSymbol.
    destruct (decide _) as [_|Hout]; cbn [rooms];
      rewrite lookup_insert_eq; cbn [default]; set_solver.
Defined.

End SharedRoom.

(** ** The chat service and its route *)

Section ChatFacts.
Import Num Js Effects ChatService.

Variable env : Env.
Variable getMarketData : string -> M MarketSnapshot.t.
Variable getAllIndicators : string -> M TechnicalAnalysisService.Indicators.
Variable createCompletion : string -> string -> M (option string).

(** X6: [processMessage] never rejects, whatever its collaborators do. *)
Lemma processMessage_never_rejects (message wallet symbol : string) (w : World) :
  is_ok (fst (processMessage env getMarketData getAllIndicators createCompletion
                message wallet symbol w)) = true.
Proof.
  unfold processMessage, try_catch, bind, ret.
  destruct (getMarketData symbol w) as [[marketData|error] w1]; [|reflexivity].
  destruct (getAllIndicators symbol w1) as [[indicators|error] w2]; [|reflexivity].
  destruct (createCompletion _ message w2) as [[content|error] w3]; reflexivity.
Qed.

End ChatFacts.

Section RouteFacts.
Import Num Js Effects.

Variable processMessage : JsVal -> JsVal -> JsVal -> M ChatService.ChatResponse.

(** C10: a body in which [message], [wallet] or [symbol] is absent or is
    the empty string is answered 400 with the error field alone;
    [processMessage] is not run, so the answer is the same for every
    implementation of it and the world is left as it was. *)
Theorem post_chat_rejects_missing_or_empty (fields : list (string * JsVal))
    (name : string) (w : World)
    (Hname : name = "message" \/ name = "wallet" \/ name = "symbol")
    (Hvalue : assoc name fields = VUndefined \/ assoc name fields = VStr "") :
  AiRoute.post_chat processMessage (VObj fields) w
  = (Ok {| AiRoute.status := 400;
           AiRoute.json :=
             AiRoute.ErrorBody "Missing required fields: message, wallet, symbol" |}, w).
Proof.
  unfold AiRoute.post_chat, try_catch, bind, lift, ret, get_field.
  assert (Hfalsy : js_truthy (assoc name fields) = false)
    by (destruct Hvalue as [-> | ->]; reflexivity).
  destruct Hname as [-> | [-> | ->]]; rewrite Hfalsy;
    repeat match goal with
           | |- context [js_truthy ?v] => destruct (js_truthy v)
           end; reflexivity.
Qed.

End RouteFacts.

Section RouteWitness.
Import Num Js Effects Scenario.

(** C10 on a body whose message is the empty string, in front of a
    chat service that would make the route answer 500 if it were run. *)
Lemma post_chat_rejects_missing_or_empty_witness :
  AiRoute.post_chat
    (fun _ _ _ => throw "processMessage was called")
    (VObj [("message", VStr ""); ("wallet", VStr "0xabc"); ("symbol", VStr "PERP_ETH_USDC")])
    fresh_world
  = (Ok {| AiRoute.status := 400;
           AiRoute.json :=
             AiRoute.ErrorBody "Missing required fields: message, wallet, symbol" |},
     fresh_world).
Proof.
  apply (post_chat_rejects_missing_or_empty _ _ "message").
  - left. reflexivity.
  - right. reflexivity.
Defined.

End RouteWitness.

(** ** Market data: what always fulfils *)

Section Fulfilment.
Import Num Js Effects MarketDataService.

Lemma fulfils_ret {A} (a : A) : fulfils (ret a).
Proof. intros w. eexists _, _. reflexivity. Qed.

Lemma fulfils_bind {A B} (c : M A) (k : A -> M B) :
  fulfils c -> (forall a, fulfils (k a)) -> fulfils (bind c k).
Proof.
  intros Hc Hk w. unfold bind.
  destruct (Hc w) as (a & w1 & ->). apply Hk.
Qed.

Lemma fulfils_try_catch {A} (body : M A) (handler : string -> M A) :
  (forall error, fulfils (handler error)) -> fulfils (try_catch body handler).
Proof.
  intros Hh w. unfold try_catch.
  destruct (body w) as [[a|error] w1]; [eexists _, _; reflexivity|apply Hh].
Qed.

Lemma fulfils_date_now : fulfils date_now.
Proof. intros w. eexists _, _. reflexivity. Qed.

Lemma fulfils_math_random (env : Env) : fulfils (math_random env).
Proof. intros w. eexists _, _. reflexivity. Qed.

Lemma fulfils_cache_get (key : string) : fulfils (cache_get key).
Proof. intros w. eexists _, _. reflexivity. Qed.

Lemma fulfils_checkRateLimit (symbol : string) : fulfils (checkRateLimit symbol).
Proof.
  intros w. unfold checkRateLimit.
  destruct (_ <? 1000); eexists _, _; reflexivity.
Qed.

Lemma fulfils_foldM {A B} (body : B -> A -> M B) (l : list A) (init : B) :
  (forall acc x, fulfils (body acc x)) -> fulfils (foldM body l init).
Proof.
  intros Hbody. revert init.
  induction l as [|x rest IH]; intros init; cbn [foldM].
  - apply fulfils_ret.
  - apply fulfils_bind; [apply Hbody | intros acc; apply IH].
Qed.

Lemma fulfils_mapM {A B} (f : A -> M B) (l : list A) :
  (forall x, fulfils (f x)) -> fulfils (mapM f l).
Proof.
  intros Hf. induction l as [|x rest IH]; cbn [mapM].
  - apply fulfils_ret.
  - apply fulfils_bind; [apply Hf|]. intros y.
    apply fulfils_bind; [apply IH|]. intros ys. apply fulfils_ret.
Qed.

End Fulfilment.

Ltac fulfilment :=
  repeat match goal with
    | |- Effects.fulfils (Effects.ret _) => apply fulfils_ret
    | |- Effects.fulfils Effects.date_now => apply fulfils_date_now
    | |- Effects.fulfils (Effects.math_random _) => apply fulfils_math_random
    | |- Effects.fulfils (MarketDataService.cache_get _) => apply fulfils_cache_get
    | |- Effects.fulfils (MarketDataService.checkRateLimit _) => apply fulfils_checkRateLimit
    | |- Effects.fulfils (Effects.try_catch _ _) => apply fulfils_try_catch; intros ?
    | |- Effects.fulfils (Effects.foldM _ _ _) => apply fulfils_foldM; intros ? ?
    | |- Effects.fulfils (Effects.mapM _ _) => apply fulfils_mapM; intros ?
    | |- Effects.fulfils (Effects.bind _ _) => apply fulfils_bind; [|intros ?]
    | |- Effects.fulfils (MarketDataService.fetchTicker_request _ _) =>
        unfold MarketDataService.fetchTicker_request
    | |- Effects.fulfils (match ?x with _ => _ end) => destruct x
    | |- Effects.fulfils ((match ?x with _ => _ end) _) => destruct x; cbv beta
    | |- Effects.fulfils (if ?b then _ else _) => destruct b
    end.

Section MockFulfilment.
Import Num Js Effects MarketDataService.
Variable env : Env.

Lemma fulfils_getMockTicker (symbol : string) : fulfils (getMockTicker env symbol).
Proof. unfold getMockTicker. fulfilment. Qed.

Lemma fulfils_getMockOrderbook (symbol : string) : fulfils (getMockOrderbook env symbol).
Proof. unfold getMockOrderbook. fulfilment. Qed.

(** [fetchTicker] and [fetchOrderbook] answer with a value on every
    path: what fails inside is caught and replaced by mock data. *)
Lemma fulfils_fetchTicker (symbol : string) : fulfils (fetchTicker env symbol).
Proof.
  unfold fetchTicker. fulfilment; apply fulfils_getMockTicker.
Qed.

Lemma fulfils_fetchOrderbook (symbol : string) : fulfils (fetchOrderbook env symbol).
Proof.
  unfold fetchOrderbook. fulfilment; apply fulfils_getMockOrderbook.
Qed.

(** X4: the snapshot of [getMarketData] is marked real whatever
    happened on the network: its [catch] block is never entered. *)
Lemma getMarketData_always_marked_real (symbol : string) (w : World) :
  exists snapshot w',
    OrderlyMarketService.getMarketData env symbol w = (Ok snapshot, w') /\
    MarketSnapshot.isRealData snapshot = true.
Proof.
  unfold OrderlyMarketService.getMarketData, try_catch, bind.
  destruct (fulfils_fetchTicker symbol w) as (ticker & w1 & ->).
  destruct (fulfils_fetchOrderbook symbol w1) as (orderbook & w2 & ->).
  eexists _, _. split; reflexivity.
Qed.

(** X5: GET /api/market/:symbol always answers 200 with isRealData =
    true; its 206 branch is never entered. *)
Lemma get_symbol_always_200 (symbol : string) (w : World) :
  exists response w',
    MarketRoute.get_symbol env symbol w = (Ok response, w') /\
    MarketRoute.status response = 200%nat /\
    MarketSnapshot.isRealData (MarketRoute.json response) = true.
Proof.
  unfold MarketRoute.get_symbol, try_catch, bind.
  destruct (fulfils_fetchTicker symbol w) as (ticker & w1 & ->).
  destruct (fulfils_fetchOrderbook symbol w1) as (orderbook & w2 & ->).
  eexists _, _. repeat split; reflexivity.
Qed.

End MockFulfilment.

Section UnreachableExchange.
Import Num Js Effects MarketDataService Scenario.

(** C2, at the input where the code mislabels its data: a fresh process
    and an exchange that answers no request.  All 24 attempts for the
    ticker and the order book fail and nothing is cached, yet the
    snapshot carries the mock base price with isRealData = true, and
    GET /api/market/PERP_BTC_USDC answers 200, not 206. *)
Theorem unreachable_exchange_snapshot_marked_real :
  (forall n request, body (network silent_env n request) = None) /\
  (exists snapshot w',
     OrderlyMarketService.getMarketData silent_env "PERP_BTC_USDC" fresh_world
       = (Ok snapshot, w') /\
     netCalls w' = 24%nat /\ cache w' = ∅ /\
     MarketSnapshot.price snapshot = getBasePrice "PERP_BTC_USDC" /\
     MarketSnapshot.isRealData snapshot = true) /\
  (exists response w',
     MarketRoute.get_symbol silent_env "PERP_BTC_USDC" fresh_world = (Ok response, w') /\
     netCalls w' = 24%nat /\
     MarketSnapshot.price (MarketRoute.json response) = getBasePrice "PERP_BTC_USDC" /\
     MarketRoute.status response = 200%nat /\
     MarketSnapshot.isRealData (MarketRoute.json response) = true).
Proof.
  split; [reflexivity|]. split.
  - destruct (OrderlyMarketService.getMarketData silent_env "PERP_BTC_USDC" fresh_world)
      as [[snapshot|error] w'] eqn:Hrun.
    + exists snapshot, w'. split; [reflexivity|].
      assert (Hs : snapshot = match fst (OrderlyMarketService.getMarketData silent_env
                                          "PERP_BTC_USDC" fresh_world) with
                              | Ok s => s | Throw _ => snapshot end)
        by (rewrite Hrun; reflexivity).
      assert (Hw : w' = snd (OrderlyMarketService.getMarketData silent_env
                               "PERP_BTC_USDC" fresh_world))
        by (rewrite Hrun; reflexivity).
      rewrite Hs, Hw. vm_compute. repeat split; reflexivity.
    + exfalso. vm_compute in Hrun. discriminate Hrun.
  - destruct (MarketRoute.get_symbol silent_env "PERP_BTC_USDC" fresh_world)
      as [[response|error] w'] eqn:Hrun.
    + exists response, w'. split; [reflexivity|].
      assert (Hs : response = match fst (MarketRoute.get_symbol silent_env
                                          "PERP_BTC_USDC" fresh_world) with
                              | Ok s => s | Throw _ => response end)
        by (rewrite Hrun; reflexivity).
      assert (Hw : w' = snd (MarketRoute.get_symbol silent_env
                               "PERP_BTC_USDC" fresh_world))
        by (rewrite Hrun; reflexivity).
      rewrite Hs, Hw. vm_compute. repeat split; reflexivity.
    + exfalso. vm_compute in Hrun. discriminate Hrun.
Qed.

End UnreachableExchange.
(** ** The chat service as the program wires it *)

Section FulfilledCollaborators.
Import Num Js Effects MarketDataService.
Variable env : Env.

Lemma fulfils_getMarketData (symbol : string) :
  fulfils (OrderlyMarketService.getMarketData env symbol).
Proof.
  intros w. unfold OrderlyMarketService.getMarketData, try_catch, bind.
  destruct (fulfils_fetchTicker env symbol w) as (ticker & w1 & ->).
  destruct (fulfils_fetchOrderbook env symbol w1) as (orderbook & w2 & ->).
  eexists _, _. reflexivity.
Qed.



End FulfilledCollaborators.

Section ChatWiring.
Import Num Js Effects ChatService.
Variable env : Env.


End ChatWiring.

Section ChatScenarios.
Import Num Js Effects ChatService Scenario.



End ChatScenarios.

(** ** Alerts as the program wires them *)

Section AlertFacts.
Import Num Js Effects ChatService.
Variable env : Env.

Lemma bind_ok {A B} (c : M A) (k : A -> M B) (w : World) (a : A) (w1 : World) :
  c w = (Ok a, w1) -> bind c k w = k a w1.
Proof. unfold bind. intros ->. reflexivity. Qed.

(** Both paths of [getAllIndicators] end in the same indicator block. *)
Lemma getAllIndicators_computed (symbol : string) (w : World) :
  exists closes highs lows volumes w',
    TechnicalAnalysisService.getAllIndicators env symbol w
    = (Ok (TechnicalAnalysisService.indicators_of closes highs lows volumes), w').
Proof.
  assert (Hmock : forall w0, exists closes highs lows volumes w',
            TechnicalAnalysisService.getMockIndicators env symbol w0
            = (Ok (TechnicalAnalysisService.indicators_of closes highs lows volumes), w')).
  { intros w0. unfold TechnicalAnalysisService.getMockIndicators.
    match goal with |- context [bind (mapM ?f ?l) _ w0] =>
      destruct (fulfils_mapM f l ltac:(intros ?; cbv beta; fulfilment) w0) as (prices & w1 & E1) end.
    rewrite (bind_ok _ _ _ _ _ E1).
    match goal with |- context [bind (mapM ?f ?l) _ w1] =>
      destruct (fulfils_mapM f l ltac:(intros ?; cbv beta; fulfilment) w1) as (highs & w2 & E2) end.
    rewrite (bind_ok _ _ _ _ _ E2).
    match goal with |- context [bind (mapM ?f ?l) _ w2] =>
      destruct (fulfils_mapM f l ltac:(intros ?; cbv beta; fulfilment) w2) as (lows & w3 & E3) end.
    rewrite (bind_ok _ _ _ _ _ E3).
    match goal with |- context [bind (mapM ?f ?l) _ w3] =>
      destruct (fulfils_mapM f l ltac:(intros ?; cbv beta; fulfilment) w3) as (volumes & w4 & E4) end.
    rewrite (bind_ok _ _ _ _ _ E4).
    eexists _, _, _, _, _. reflexivity. }
  unfold TechnicalAnalysisService.getAllIndicators, try_catch, bind.
  destruct (MarketDataService.fetchKlines env symbol "1m" 200 w) as [[klines|error] w1].
  - destruct (length klines <? 50)%nat.
    + apply Hmock.
    + eexists _, _, _, _, _. reflexivity.
  - apply Hmock.
Qed.

(** X9: [chatService.generateAlerts] never rejects, returns at most
    three alerts, and never one of the two MACD crossover alerts: the
    indicators always come from [calculateMACD], whose histogram has no
    sign. *)
Lemma generateAlerts_never_reports_macd (symbol : string) (w : World) :
  exists alerts w',
    chatService_generateAlerts env symbol w = (Ok alerts, w') /\
    (length alerts <= 3)%nat /\
    (macdBullishAlert symbol ∉ alerts) /\
    (macdBearishAlert symbol ∉ alerts).
Proof.
  unfold chatService_generateAlerts, generateAlerts, try_catch, bind, ret.
  destruct (fulfils_getMarketData env symbol w) as (marketData & w1 & ->).
  destruct (getAllIndicators_computed symbol w1)
    as (closes & highs & lows & volumes & w2 & ->).
  eexists _, _. split; [reflexivity|].
  unfold TechnicalAnalysisService.indicators_of.
  cbn [TechnicalAnalysisService.macd_ TechnicalAnalysisService.rsi
       TechnicalAnalysisService.ema20 TechnicalAnalysisService.ema50].
  unfold TechnicalAnalysisService.calculateMACD.
  cbn [TechnicalAnalysisService.histogram TechnicalAnalysisService.macd
       TechnicalAnalysisService.signal].
  destruct (histogram_unsigned
              (sub (TechnicalAnalysisService.calculateEMA closes 12)
                   (TechnicalAnalysisService.calculateEMA closes 26))) as [-> ->].
  cbn [andb].
  unfold macdBullishAlert, macdBearishAlert.
  repeat match goal with
         | |- context [if ?b then _ else _] => destruct b
         end;
    cbn [app length]; (split; [lia|]);
    split; intros Hin;
    repeat (apply elem_of_cons in Hin as [Hin|Hin]; [discriminate Hin|]);
    apply elem_of_nil in Hin; exact Hin.
Qed.

End AlertFacts.

(** ** Market data: the rate-limit table *)

Section Preservation.
Import Num Js Effects MarketDataService.

Variable P : World -> Prop.
Hypothesis P_frame : steady P.

Lemma preserves_ret {A} (a : A) : preserves P (ret a).
Proof. intros w Hw. exact Hw. Qed.

Lemma preserves_throw {A} (error : string) : preserves P (@throw A error).
Proof. intros w Hw. exact Hw. Qed.

Lemma preserves_lift {A} (o : Outcome A) : preserves P (lift o).
Proof. intros w Hw. exact Hw. Qed.

Lemma preserves_bind {A B} (c : M A) (k : A -> M B) :
  preserves P c -> (forall a, preserves P (k a)) -> preserves P (bind c k).
Proof.
  intros Hc Hk w Hw. unfold bind. specialize (Hc w Hw).
  destruct (c w) as [[a|error] w1]; [apply Hk|]; exact Hc.
Qed.

Lemma preserves_try_catch {A} (body : M A) (handler : string -> M A) :
  preserves P body -> (forall error, preserves P (handler error)) ->
  preserves P (try_catch body handler).
Proof.
  intros Hb Hh w Hw. unfold try_catch. specialize (Hb w Hw).
  destruct (body w) as [[a|error] w1]; [|apply Hh]; exact Hb.
Qed.

Lemma preserves_date_now : preserves P date_now.
Proof. intros w Hw. exact Hw. Qed.

Lemma preserves_sleep (ms : Z) : preserves P (sleep ms).
Proof. intros w Hw. apply (P_frame w); [reflexivity|cbn; lia|exact Hw]. Qed.

Lemma preserves_math_random (env : Env) : preserves P (math_random env).
Proof. intros w Hw. apply (P_frame w); [reflexivity|cbn; lia|exact Hw]. Qed.

Lemma preserves_http_fetch (env : Env) (request : Request) :
  preserves P (http_fetch env request).
Proof.
  intros w Hw. unfold http_fetch.
  destruct (body _); apply (P_frame w); (reflexivity || exact Hw || (cbn; lia)).
Qed.

Lemma preserves_cache_get (key : string) : preserves P (cache_get key).
Proof. intros w Hw. exact Hw. Qed.

Lemma preserves_cache_set (key : string) (entry : CacheEntry) :
  preserves P (cache_set key entry).
Proof. intros w Hw. apply (P_frame w); [reflexivity|cbn; lia|exact Hw]. Qed.

Lemma preserves_foldM {A B} (body : B -> A -> M B) (l : list A) (init : B) :
  (forall acc x, preserves P (body acc x)) -> preserves P (foldM body l init).
Proof.
  intros Hbody. revert init.
  induction l as [|x rest IH]; intros init; cbn [foldM].
  - apply preserves_ret.
  - apply preserves_bind; [apply Hbody | intros acc; apply IH].
Qed.

Lemma preserves_mapM {A B} (f : A -> M B) (l : list A) :
  (forall x, preserves P (f x)) -> preserves P (mapM f l).
Proof.
  intros Hf. induction l as [|x rest IH]; cbn [mapM].
  - apply preserves_ret.
  - apply preserves_bind; [apply Hf|]. intros y.
    apply preserves_bind; [apply IH|]. intros ys. apply preserves_ret.
Qed.

Lemma preserves_js_map {B} (v : JsVal) (f : JsVal -> M B) :
  (forall x, preserves P (f x)) -> preserves P (js_map v f).
Proof.
  intros Hf. destruct v; cbn [js_map];
    try apply preserves_throw. apply preserves_mapM, Hf.
Qed.

Lemma preserves_first_truthy (v : JsVal) (names : list string) (dflt : M JsVal) :
  preserves P dflt -> preserves P (first_truthy v names dflt).
Proof.
  intros Hd. induction names as [|k rest IH]; cbn [first_truthy]; [exact Hd|].
  apply preserves_bind; [apply preserves_lift|].
  intros x. destruct (js_truthy x); [apply preserves_ret|exact IH].
Qed.

Lemma preserves_race {A} (operation : M A) :
  preserves P operation -> preserves P (race_with_timeout operation).
Proof.
  intros Hop w Hw. unfold race_with_timeout. specialize (Hop w Hw).
  destruct (operation w) as [r w1]. cbn [snd] in Hop.
  destruct (_ <? REQUEST_TIMEOUT); cbn [snd]; [exact Hop|].
  apply (P_frame w1); [reflexivity|cbn; lia|exact Hop].
Qed.

Lemma preserves_withRetry_from {A} (operation : M A) (remaining attempt : nat)
    (lastError : string) :
  preserves P operation ->
  preserves P (withRetry_from operation attempt remaining lastError).
Proof.
  intros Hop. revert attempt lastError.
  induction remaining as [|remaining IH]; intros attempt lastError;
    cbn [withRetry_from].
  - apply preserves_throw.
  - apply preserves_try_catch; [apply preserves_race, Hop|].
    intros error. apply preserves_bind; [|intros _; apply IH].
    destruct (attempt <? MAX_RETRIES)%nat; [apply preserves_sleep|apply preserves_ret].
Qed.

Lemma preserves_withRetry {A} (operation : M A) :
  preserves P operation -> preserves P (withRetry operation).
Proof. apply preserves_withRetry_from. Qed.

Lemma preserves_try_endpoints (fetch : string -> M JsVal) (endpoints : list string)
    (data : JsVal) :
  (forall endpoint, preserves P (fetch endpoint)) ->
  preserves P (try_endpoints fetch endpoints data).
Proof.
  intros Hf. induction endpoints as [|endpoint rest IH]; cbn [try_endpoints].
  - apply preserves_ret.
  - apply preserves_try_catch; [apply preserves_withRetry, Hf|intros _; exact IH].
Qed.

End Preservation.

Ltac preservation :=
  repeat match goal with
    | |- Effects.preserves _ (Effects.ret _) => apply preserves_ret
    | |- Effects.preserves _ (Effects.throw _) => apply preserves_throw
    | |- Effects.preserves _ (Effects.lift _) => apply preserves_lift
    | |- Effects.preserves _ Effects.date_now => apply preserves_date_now
    | |- Effects.preserves _ (Effects.sleep _) => apply preserves_sleep; assumption
    | |- Effects.preserves _ (Effects.math_random _) => apply preserves_math_random; assumption
    | |- Effects.preserves _ (Effects.http_fetch _ _) => apply preserves_http_fetch; assumption
    | |- Effects.preserves _ (MarketDataService.publicFetch _ _) =>
        apply preserves_http_fetch; assumption
    | |- Effects.preserves _ (MarketDataService.authenticatedFetch _ _) =>
        apply preserves_http_fetch; assumption
    | |- Effects.preserves _ (MarketDataService.cache_get _) => apply preserves_cache_get
    | |- Effects.preserves _ (MarketDataService.cache_set _ _) =>
        apply preserves_cache_set; assumption
    | |- Effects.preserves _ (MarketDataService.checkRateLimit _) => solve [auto]
    | |- Effects.preserves _ (Effects.try_catch _ _) =>
        apply preserves_try_catch; [|intros ?]
    | |- Effects.preserves _ (Effects.foldM _ _ _) => apply preserves_foldM; intros ? ?
    | |- Effects.preserves _ (Effects.mapM _ _) => apply preserves_mapM; intros ?
    | |- Effects.preserves _ (Effects.js_map _ _) => apply preserves_js_map; intros ?
    | |- Effects.preserves _ (Effects.first_truthy _ _ _) => apply preserves_first_truthy
    | |- Effects.preserves _ (MarketDataService.withRetry _) =>
        apply preserves_withRetry; [assumption|]
    | |- Effects.preserves _ (MarketDataService.try_endpoints _ _ _ _) =>
        apply preserves_try_endpoints; [assumption|intros ?]
    | |- Effects.preserves _ (MarketDataService.try_endpoints _ _ _) =>
        apply preserves_try_endpoints; [assumption|intros ?]
    | |- Effects.preserves _ (Effects.bind _ _) => apply preserves_bind; [|intros ?]
    | |- Effects.preserves _ (match ?x with _ => _ end) => destruct x
    | |- Effects.preserves _ ((match ?x with _ => _ end) _) => destruct x; cbv beta
    | |- Effects.preserves _ (if ?b then _ else _) => destruct b
    | |- Effects.preserves _ (MarketDataService.fetchTicker_request _ _) =>
        unfold MarketDataService.fetchTicker_request
    | |- Effects.preserves _ (MarketDataService.parse_field _ _ _) =>
        unfold MarketDataService.parse_field
    | |- Effects.preserves _ (MarketDataService.getMockTicker _ _) =>
        unfold MarketDataService.getMockTicker
    | |- Effects.preserves _ (MarketDataService.getMockOrderbook _ _) =>
        unfold MarketDataService.getMockOrderbook
    | |- Effects.preserves _ (MarketDataService.getMockKlines _ _ _) =>
        unfold MarketDataService.getMockKlines
    | |- Effects.preserves _ (MarketDataService.getMockTrades _ _ _) =>
        unfold MarketDataService.getMockTrades
    | |- Effects.preserves _ (MarketDataService.public_then_authenticated _ _) =>
        unfold MarketDataService.public_then_authenticated
    | |- Effects.preserves _ (MarketDataService.parse_level _ _) =>
        unfold MarketDataService.parse_level
    | |- Effects.preserves _ (MarketDataService.parse_kline _ _) =>
        unfold MarketDataService.parse_kline
    | |- Effects.preserves _ (MarketDataService.parse_trade _ _ _) =>
        unfold MarketDataService.parse_trade
    | |- Effects.preserves _ MarketDataService.now_value =>
        unfold MarketDataService.now_value
    end.

Section FetchPreservation.
Import Num Js Effects MarketDataService.

Variable env : Env.
Variable P : World -> Prop.
Hypothesis P_frame : steady P.
Hypothesis P_rate : forall symbol, preserves P (checkRateLimit symbol).

Lemma preserves_fetchTicker (symbol : string) : preserves P (fetchTicker env symbol).
Proof. unfold fetchTicker. preservation. Qed.

Lemma preserves_fetchOrderbook (symbol : string) : preserves P (fetchOrderbook env symbol).
Proof. unfold fetchOrderbook. preservation. Qed.

Lemma preserves_fetchKlines (symbol interval : string) (limit : nat) :
  preserves P (fetchKlines env symbol interval limit).
Proof. unfold fetchKlines. preservation. Qed.

Lemma preserves_fetchTrades (symbol : string) (limit : nat) :
  preserves P (fetchTrades env symbol limit).
Proof. unfold fetchTrades. preservation. Qed.

End FetchPreservation.

(** ** How many requests a call sends *)

Section RequestBudget.
Import Num Js Effects MarketDataService.

Lemma sends_weaken {A} (n n' : nat) (c : M A) :
  (n <= n')%nat -> sends n c -> sends n' c.
Proof. intros Hle H w. specialize (H w). lia. Qed.

Lemma sends_ret {A} (a : A) : sends 0 (ret a).
Proof. intros w. cbn. lia. Qed.

Lemma sends_throw {A} (error : string) : sends 0 (@throw A error).
Proof. intros w. cbn. lia. Qed.

Lemma sends_lift {A} (o : Outcome A) : sends 0 (lift o).
Proof. intros w. cbn. lia. Qed.

Lemma sends_date_now : sends 0 date_now.
Proof. intros w. cbn. lia. Qed.

Lemma sends_sleep (ms : Z) : sends 0 (sleep ms).
Proof. intros w. cbn. lia. Qed.

Lemma sends_math_random (env : Env) : sends 0 (math_random env).
Proof. intros w. cbn. lia. Qed.

Lemma sends_cache_get (key : string) : sends 0 (cache_get key).
Proof. intros w. cbn. lia. Qed.

Lemma sends_cache_set (key : string) (entry : CacheEntry) : sends 0 (cache_set key entry).
Proof. intros w. cbn. lia. Qed.

Lemma sends_checkRateLimit (symbol : string) : sends 0 (checkRateLimit symbol).
Proof.
  intros w. unfold checkRateLimit.
  destruct (clock w - default 0 (lastFetch w !! symbol) <? 1000); cbn; lia.
Qed.

Lemma sends_http_fetch (env : Env) (request : Request) : sends 1 (http_fetch env request).
Proof.
  intros w. unfold http_fetch.
  destruct (body (network env (netCalls w) request)); cbn; lia.
Qed.

Lemma sends_bind {A B} (n1 n2 : nat) (c : M A) (k : A -> M B) :
  sends n1 c -> (forall a, sends n2 (k a)) -> sends (n1 + n2) (bind c k).
Proof.
  intros Hc Hk w. unfold bind. specialize (Hc w).
  destruct (c w) as [[a|error] w1]; cbn [snd] in *; [|lia].
  specialize (Hk a w1). lia.
Qed.

Lemma sends_try_catch {A} (n1 n2 : nat) (body : M A) (handler : string -> M A) :
  sends n1 body -> (forall error, sends n2 (handler error)) ->
  sends (n1 + n2) (try_catch body handler).
Proof.
  intros Hb Hh w. unfold try_catch. specialize (Hb w).
  destruct (body w) as [[a|error] w1]; cbn [snd] in *; [lia|].
  specialize (Hh error w1). lia.
Qed.

Lemma sends_foldM {A B} (body : B -> A -> M B) (l : list A) (init : B) :
  (forall acc x, sends 0 (body acc x)) -> sends 0 (foldM body l init).
Proof.
  intros Hb. revert init.
  induction l as [|x rest IH]; intros init; cbn [foldM]; [apply sends_ret|].
  apply (sends_bind 0 0); [apply Hb|intros acc; apply IH].
Qed.

Lemma sends_mapM {A B} (f : A -> M B) (l : list A) :
  (forall x, sends 0 (f x)) -> sends 0 (mapM f l).
Proof.
  intros Hf. induction l as [|x rest IH]; cbn [mapM]; [apply sends_ret|].
  apply (sends_bind 0 0); [apply Hf|intros y].
  apply (sends_bind 0 0); [apply IH|intros ys; apply sends_ret].
Qed.

Lemma sends_js_map {B} (v : JsVal) (f : JsVal -> M B) :
  (forall x, sends 0 (f x)) -> sends 0 (js_map v f).
Proof.
  intros Hf. destruct v; cbn [js_map]; try apply sends_throw.
  apply sends_mapM, Hf.
Qed.

Lemma sends_first_truthy (v : JsVal) (names : list string) (dflt : M JsVal) :
  sends 0 dflt -> sends 0 (first_truthy v names dflt).
Proof.
  intros Hd. induction names as [|k rest IH]; cbn [first_truthy]; [exact Hd|].
  apply (sends_bind 0 0); [apply sends_lift|intros x].
  destruct (js_truthy x); [apply sends_ret|exact IH].
Qed.

(** The timer of the race sends nothing; the request of the loser has
    been sent all the same. *)
Lemma sends_race {A} (n : nat) (operation : M A) :
  sends n operation -> sends n (race_with_timeout operation).
Proof.
  intros Ho w. unfold race_with_timeout. specialize (Ho w).
  destruct (operation w) as [r w1]. cbn [snd] in Ho.
  destruct (clock w1 - clock w <? REQUEST_TIMEOUT); cbn; lia.
Qed.

Lemma sends_withRetry_from {A} (n : nat) (operation : M A)
    (attempt remaining : nat) (lastError : string) :
  sends n operation ->
  sends (remaining * n) (withRetry_from operation attempt remaining lastError).
Proof.
  intros Ho. revert attempt lastError.
  induction remaining as [|remaining IH]; intros attempt lastError;
    cbn [withRetry_from]; [apply sends_throw|].
  change (S remaining * n)%nat with (n + remaining * n)%nat.
  apply sends_try_catch; [apply sends_race, Ho|intros error].
  apply (sends_bind 0); [|intros _; apply IH].
  destruct (attempt <? MAX_RETRIES)%nat; [apply sends_sleep|apply sends_ret].
Qed.

Lemma sends_withRetry (env : Env) (request : Request) :
  sends 3 (withRetry (http_fetch env request)).
Proof. apply (sends_withRetry_from 1 _ 1 3), sends_http_fetch. Qed.

Lemma sends_try_endpoints (env : Env) (authenticated : bool)
    (endpoints : list string) (data : JsVal) :
  sends (3 * length endpoints)
    (try_endpoints
       (fun endpoint => http_fetch env {| authenticated := authenticated;
                                          endpoint := endpoint |})
       endpoints data).
Proof.
  induction endpoints as [|endpoint rest IH]; cbn [try_endpoints]; [apply sends_ret|].
  replace (3 * length (endpoint :: rest))%nat with (3 + 3 * length rest)%nat
    by (cbn [length]; lia).
  apply sends_try_catch; [apply sends_withRetry|intros _; exact IH].
Qed.

Lemma sends_public_then_authenticated (env : Env) (endpoint : string) :
  sends 6 (public_then_authenticated env endpoint).
Proof.
  unfold public_then_authenticated.
  apply (sends_try_catch 3 3); [apply sends_withRetry|intros _; apply sends_withRetry].
Qed.

End RequestBudget.

(** Calls that send nothing: parsing, the cache, the mock generators. *)
Ltac no_request :=
  repeat match goal with
    | |- Effects.sends 0 (Effects.ret _) => apply sends_ret
    | |- Effects.sends 0 (Effects.throw _) => apply sends_throw
    | |- Effects.sends 0 (Effects.lift _) => apply sends_lift
    | |- Effects.sends 0 Effects.date_now => apply sends_date_now
    | |- Effects.sends 0 (Effects.sleep _) => apply sends_sleep
    | |- Effects.sends 0 (Effects.math_random _) => apply sends_math_random
    | |- Effects.sends 0 (MarketDataService.cache_get _) => apply sends_cache_get
    | |- Effects.sends 0 (MarketDataService.cache_set _ _) => apply sends_cache_set
    | |- Effects.sends 0 (MarketDataService.checkRateLimit _) => apply sends_checkRateLimit
    | |- Effects.sends 0 (Effects.try_catch _ _) =>
        apply (sends_try_catch 0 0); [|intros ?]
    | |- Effects.sends 0 (Effects.foldM _ _ _) => apply sends_foldM; intros ? ?
    | |- Effects.sends 0 (Effects.mapM _ _) => apply sends_mapM; intros ?
    | |- Effects.sends 0 (Effects.js_map _ _) => apply sends_js_map; intros ?
    | |- Effects.sends 0 (Effects.first_truthy _ _ _) => apply sends_first_truthy
    | |- Effects.sends 0 (Effects.bind _ _) => apply (sends_bind 0 0); [|intros ?]
    | |- Effects.sends 0 (match ?x with _ => _ end) => destruct x
    | |- Effects.sends 0 ((match ?x with _ => _ end) _) => destruct x; cbv beta
    | |- Effects.sends 0 (if ?b then _ else _) => destruct b
    | |- Effects.sends 0 (MarketDataService.parse_field _ _ _) =>
        unfold MarketDataService.parse_field
    | |- Effects.sends 0 (MarketDataService.parse_level _ _) =>
        unfold MarketDataService.parse_level
    | |- Effects.sends 0 (MarketDataService.parse_kline _ _) =>
        unfold MarketDataService.parse_kline
    | |- Effects.sends 0 (MarketDataService.parse_trade _ _ _) =>
        unfold MarketDataService.parse_trade
    | |- Effects.sends 0 MarketDataService.now_value =>
        unfold MarketDataService.now_value
    | |- Effects.sends 0 (MarketDataService.getMockTicker _ _) =>
        unfold MarketDataService.getMockTicker
    | |- Effects.sends 0 (MarketDataService.getMockOrderbook _ _) =>
        unfold MarketDataService.getMockOrderbook
    | |- Effects.sends 0 (MarketDataService.getMockKlines _ _ _) =>
        unfold MarketDataService.getMockKlines
    | |- Effects.sends 0 (MarketDataService.getMockTrades _ _ _) =>
        unfold MarketDataService.getMockTrades
    | |- Effects.sends 0 (OrderlyMarketService.generateOrderbook _ _) =>
        unfold OrderlyMarketService.generateOrderbook
    | |- Effects.sends 0 (OrderlyMarketService.getMockMarketData _ _) =>
        unfold OrderlyMarketService.getMockMarketData
    | |- Effects.sends 0 (TechnicalAnalysisService.getMockIndicators _ _) =>
        unfold TechnicalAnalysisService.getMockIndicators
    end.

Section FetchBudget.
Import Num Js Effects MarketDataService.
Variable env : Env.

Lemma sends_fetchTicker_request (symbol : string) :
  sends 18 (fetchTicker_request env symbol).
Proof.
  unfold fetchTicker_request.
  apply (sends_try_catch 18 0); [|intros ?; no_request].
  apply (sends_bind 12 6); [apply (sends_try_endpoints env false)|intros data].
  apply (sends_bind 6 0).
  - destruct (negb (js_truthy data)).
    + apply (sends_try_endpoints env true).
    + apply (sends_weaken 0); [lia|apply sends_ret].
  - intros data'. no_request.
Qed.

Lemma sends_fetchTicker (symbol : string) : sends 18 (fetchTicker env symbol).
Proof.
  unfold fetchTicker.
  apply (sends_bind 0 18); [apply sends_cache_get|intros entry].
  apply (sends_bind 0 18); [apply sends_date_now|intros now].
  match goal with |- sends _ (match ?x with _ => _ end) => destruct x end;
    [apply (sends_weaken 0); [lia|apply sends_ret]|].
  apply (sends_bind 0 18); [apply sends_checkRateLimit|intros allowed].
  destruct (negb allowed); [|apply sends_fetchTicker_request].
  apply (sends_weaken 0); [lia|]. no_request.
Qed.

Lemma sends_fetchOrderbook (symbol : string) : sends 6 (fetchOrderbook env symbol).
Proof.
  unfold fetchOrderbook.
  apply (sends_bind 0 6); [apply sends_cache_get|intros entry].
  apply (sends_bind 0 6); [apply sends_date_now|intros now].
  match goal with |- sends _ (match ?x with _ => _ end) => destruct x end;
    [apply (sends_weaken 0); [lia|apply sends_ret]|].
  apply (sends_bind 0 6); [apply sends_checkRateLimit|intros allowed].
  destruct (negb allowed); [apply (sends_weaken 0); [lia|]; no_request|].
  apply (sends_try_catch 6 0); [|intros ?; no_request].
  apply (sends_bind 6 0); [apply sends_public_then_authenticated|intros data].
  no_request.
Qed.

Lemma sends_fetchKlines (symbol interval : string) (limit : nat) :
  sends 6 (fetchKlines env symbol interval limit).
Proof.
  unfold fetchKlines.
  apply (sends_bind 0 6); [apply sends_checkRateLimit|intros allowed].
  destruct (negb allowed); [apply (sends_weaken 0); [lia|]; no_request|].
  apply (sends_try_catch 6 0); [|intros ?; no_request].
  apply (sends_bind 6 0); [apply sends_public_then_authenticated|intros data].
  no_request.
Qed.

Lemma sends_fetchTrades (symbol : string) (limit : nat) :
  sends 6 (fetchTrades env symbol limit).
Proof.
  unfold fetchTrades.
  apply (sends_bind 0 6); [apply sends_checkRateLimit|intros allowed].
  destruct (negb allowed); [apply (sends_weaken 0); [lia|]; no_request|].
  apply (sends_try_catch 6 0); [|intros ?; no_request].
  apply (sends_bind 6 0); [apply sends_public_then_authenticated|intros data].
  no_request.
Qed.

(** X14: one call of a fetch operation sends at most 18 requests for a
    ticker (six endpoints, three attempts each) and at most 6 for an
    order book, for klines and for trades (one endpoint, public and then
    authenticated, three attempts each). *)
Lemma fetch_request_budget (symbol interval : string) (limit : nat) (w : World) :
  (netCalls (snd (fetchTicker env symbol w)) <= netCalls w + 18)%nat /\
  (netCalls (snd (fetchOrderbook env symbol w)) <= netCalls w + 6)%nat /\
  (netCalls (snd (fetchKlines env symbol interval limit w)) <= netCalls w + 6)%nat /\
  (netCalls (snd (fetchTrades env symbol limit w)) <= netCalls w + 6)%nat.
Proof.
  split; [apply sends_fetchTicker|].
  split; [apply sends_fetchOrderbook|].
  split; [apply sends_fetchKlines|apply sends_fetchTrades].
Qed.

Lemma sends_getMarketData (symbol : string) :
  sends 24 (OrderlyMarketService.getMarketData env symbol).
Proof.
  unfold OrderlyMarketService.getMarketData.
  apply (sends_try_catch 24 0); [|intros ?; no_request].
  apply (sends_bind 18 6); [apply sends_fetchTicker|intros ticker].
  apply (sends_bind 6 0); [apply sends_fetchOrderbook|intros orderbook].
  no_request.
Qed.

Lemma sends_getAllIndicators (symbol : string) :
  sends 6 (TechnicalAnalysisService.getAllIndicators env symbol).
Proof.
  unfold TechnicalAnalysisService.getAllIndicators.
  apply (sends_try_catch 6 0); [|intros ?; no_request].
  apply (sends_bind 6 0); [apply sends_fetchKlines|intros klines].
  no_request.
Qed.

(** X15: answering one chat message costs the exchange at most 30
    requests: 24 for the market snapshot and 6 for the klines of the
    indicators; the completion call sends none. *)
Lemma processMessage_request_budget (message wallet symbol : string) (w : World) :
  (netCalls (snd (ChatService.chatService_processMessage env message wallet symbol w))
   <= netCalls w + 30)%nat.
Proof.
  revert w. change (sends 30 (ChatService.chatService_processMessage env message wallet symbol)).
  unfold ChatService.chatService_processMessage, ChatService.processMessage.
  apply (sends_try_catch 30 0); [|intros ?; apply sends_ret].
  apply (sends_bind 24 6); [apply sends_getMarketData|intros marketData].
  apply (sends_bind 6 0); [apply sends_getAllIndicators|intros indicators].
  apply (sends_bind 0 0); [|intros content; apply sends_ret].
  intros w. unfold ChatService.createCompletion.
  destruct (chatCompletion env _ _ _); cbn; lia.
Qed.

End FetchBudget.

(** ** Market data: cache and rate limit *)

Section CacheFacts.
Import Num Js Effects MarketDataService.

Variable env : Env.

Lemma bind_cache_get {A} (key : string) (k : option CacheEntry -> M A) (w : World) :
  bind (cache_get key) k w = k (cache w !! key) w.
Proof. reflexivity. Qed.

Lemma bind_date_now {A} (k : Z -> M A) (w : World) :
  bind date_now k w = k (clock w) w.
Proof. reflexivity. Qed.

Lemma checkRateLimit_refuses (symbol : string) (w : World) :
  Stated.since_last_fetch symbol w < 1000 -> checkRateLimit symbol w = (Ok false, w).
Proof.
  unfold Stated.since_last_fetch, checkRateLimit. intros H.
  destruct (Z.ltb_spec (clock w - default 0 (lastFetch w !! symbol)) 1000);
    [reflexivity|lia].
Qed.

Lemma fetchTicker_fresh_entry (symbol : string) (w : World) (c : TickerData.t) :
  cache w !! ("ticker_" +:+ symbol) = Some (CTicker c) ->
  clock w - TickerData.timestamp c < CACHE_DURATION ->
  fetchTicker env symbol w = (Ok c, w).
Proof.
  intros Hc Hage. unfold fetchTicker, bind, cache_get, date_now, ret.
  rewrite Hc. cbn [mbind option_bind as_ticker].
  destruct (Z.ltb_spec (clock w - TickerData.timestamp c) CACHE_DURATION);
    [reflexivity|lia].
Qed.

Lemma fetchOrderbook_fresh_entry (symbol : string) (w : World) (c : OrderbookData.t) :
  cache w !! ("orderbook_" +:+ symbol) = Some (COrderbook c) ->
  clock w - OrderbookData.timestamp c < CACHE_DURATION ->
  fetchOrderbook env symbol w = (Ok c, w).
Proof.
  intros Hc Hage. unfold fetchOrderbook, bind, cache_get, date_now, ret.
  rewrite Hc. cbn [mbind option_bind as_orderbook].
  destruct (Z.ltb_spec (clock w - OrderbookData.timestamp c) CACHE_DURATION);
    [reflexivity|lia].
Qed.

Lemma fetchKlines_refused_entry (symbol interval : string) (limit : nat) (w : World)
    (klines : list KlineData.t) :
  cache w !! Stated.klines_key symbol interval limit = Some (CKlines klines) ->
  Stated.since_last_fetch symbol w < 1000 ->
  fetchKlines env symbol interval limit w = (Ok klines, w).
Proof.
  intros Hc Hlim. unfold fetchKlines, bind.
  rewrite (checkRateLimit_refuses _ _ Hlim). cbn [negb].
  unfold cache_get, Stated.klines_key in *. rewrite Hc. reflexivity.
Qed.

Lemma fetchTrades_refused_entry (symbol : string) (limit : nat) (w : World)
    (trades : list TradeData.t) :
  cache w !! ("trades_" +:+ symbol +:+ "_" +:+ pretty limit) = Some (CTrades trades) ->
  Stated.since_last_fetch symbol w < 1000 ->
  fetchTrades env symbol limit w = (Ok trades, w).
Proof.
  intros Hc Hlim. unfold fetchTrades, bind.
  rewrite (checkRateLimit_refuses _ _ Hlim). cbn [negb].
  unfold cache_get. rewrite Hc. reflexivity.
Qed.

(** C5, as the code has it: [fetchTicker] and [fetchOrderbook] return a
    cache entry younger than the 2000 ms TTL and leave the world as it
    is, so no request is sent; [fetchKlines] and [fetchTrades] return
    their cache entry, again without a request, when the rate limit
    refuses the call (less than 1000 ms since the last fetch let through
    for the symbol). *)
Theorem cache_entry_short_circuits (symbol interval : string) (limit : nat) (w : World) :
  (forall c,
     cache w !! ("ticker_" +:+ symbol) = Some (CTicker c) ->
     clock w - TickerData.timestamp c < CACHE_DURATION ->
     fetchTicker env symbol w = (Ok c, w)) /\
  (forall c,
     cache w !! ("orderbook_" +:+ symbol) = Some (COrderbook c) ->
     clock w - OrderbookData.timestamp c < CACHE_DURATION ->
     fetchOrderbook env symbol w = (Ok c, w)) /\
  (forall klines,
     cache w !! Stated.klines_key symbol interval limit = Some (CKlines klines) ->
     Stated.since_last_fetch symbol w < 1000 ->
     fetchKlines env symbol interval limit w = (Ok klines, w)) /\
  (forall trades,
     cache w !! ("trades_" +:+ symbol +:+ "_" +:+ pretty limit) = Some (CTrades trades) ->
     Stated.since_last_fetch symbol w < 1000 ->
     fetchTrades env symbol limit w = (Ok trades, w)).
Proof.
  split; [|split; [|split]].
  - intros c. apply fetchTicker_fresh_entry.
  - intros c. apply fetchOrderbook_fresh_entry.
  - intros klines. apply fetchKlines_refused_entry.
  - intros trades. apply fetchTrades_refused_entry.
Qed.

(** A refused [fetchTicker] answers with the cached ticker or with mock
    data, and sends nothing. *)
Lemma fetchTicker_refused (symbol : string) (w : World) :
  Stated.since_last_fetch symbol w < 1000 ->
  fst (fetchTicker env symbol w) = Stated.cached_or_mock env symbol w /\
  netCalls (snd (fetchTicker env symbol w)) = netCalls w.
Proof.
  intros Hlim. unfold fetchTicker, Stated.cached_or_mock, bind, cache_get, date_now.
  destruct (cache w !! ("ticker_" +:+ symbol) ≫= as_ticker) as [c|].
  - destruct (clock w - TickerData.timestamp c <? CACHE_DURATION); [split; reflexivity|].
    rewrite (checkRateLimit_refuses _ _ Hlim). split; reflexivity.
  - rewrite (checkRateLimit_refuses _ _ Hlim). split; reflexivity.
Qed.

(** A [fetchTicker] that sent a request has first entered its issue
    time in the rate-limit table, and the entry is still there when it
    returns. *)
Lemma fetchTicker_attempt_recorded (symbol : string) (w : World) :
  netCalls (snd (fetchTicker env symbol w)) <> netCalls w ->
  lastFetch (snd (fetchTicker env symbol w)) !! symbol = Some (clock w).
Proof.
  set (P := fun w' : World => lastFetch w' !! symbol = Some (clock w)).
  assert (Hsteady : steady P).
  { intros w1 w2 Heq _ H. unfold P. rewrite Heq. exact H. }
  assert (Hrequest : preserves P (fetchTicker_request env symbol)) by preservation.
  assert (Hafter : forall cached : option TickerData.t,
    let rest :=
      bind (checkRateLimit symbol)
        (fun allowed =>
           if negb allowed
           then match cached with
                | Some c => ret c
                | None => getMockTicker env symbol
                end
           else fetchTicker_request env symbol) in
    netCalls (snd (rest w)) <> netCalls w -> P (snd (rest w))).
  { intros cached. cbv zeta. unfold bind, checkRateLimit.
    destruct (clock w - default 0 (lastFetch w !! symbol) <? 1000).
    - cbn [negb]. destruct cached; intros Hn; exfalso; apply Hn; reflexivity.
    - cbn [negb]. intros _. apply Hrequest. unfold P. cbn. apply lookup_insert_eq. }
  unfold fetchTicker. rewrite bind_cache_get, bind_date_now.
  destruct (cache w !! ("ticker_" +:+ symbol) ≫= as_ticker) as [c|].
  - destruct (clock w - TickerData.timestamp c <? CACHE_DURATION).
    + intros Hn. exfalso. apply Hn. reflexivity.
    + apply (Hafter (Some c)).
  - apply (Hafter None).
Qed.

End CacheFacts.

Section RateLimitFacts.
Import Num Js Effects MarketDataService.

Variable env : Env.

Lemma not_before_steady (symbol : string) (t : Z) : steady (Stated.not_before symbol t).
Proof. intros w w' Heq _ H. unfold Stated.not_before in *. rewrite Heq. exact H. Qed.

Lemma not_before_checkRateLimit (symbol : string) (t : Z) (other : string) :
  preserves (Stated.not_before symbol t) (checkRateLimit other).
Proof.
  intros w H. unfold checkRateLimit, Stated.not_before in *.
  destruct (Z.ltb_spec (clock w - default 0 (lastFetch w !! other)) 1000) as [_|Hge];
    [exact H|].
  cbn. destruct (decide (other = symbol)) as [->|Hne].
  - rewrite lookup_insert_eq. cbn. lia.
  - rewrite lookup_insert_ne by exact Hne. exact H.
Qed.

Lemma not_before_run_ops (symbol : string) (t : Z) (ops : list Schedule.Op) (w : World) :
  Stated.not_before symbol t w -> Stated.not_before symbol t (Schedule.run_ops env ops w).
Proof.
  unfold Schedule.run_ops. revert w.
  induction ops as [|op rest IH]; intros w H; cbn [fold_left]; [exact H|].
  apply IH. destruct op; cbn [Schedule.run_op].
  - apply (preserves_sleep _ (not_before_steady symbol t)). exact H.
  - apply (preserves_fetchTicker env _ (not_before_steady symbol t)
             (not_before_checkRateLimit symbol t)). exact H.
  - apply (preserves_fetchOrderbook env _ (not_before_steady symbol t)
             (not_before_checkRateLimit symbol t)). exact H.
  - apply (preserves_fetchKlines env _ (not_before_steady symbol t)
             (not_before_checkRateLimit symbol t)). exact H.
  - apply (preserves_fetchTrades env _ (not_before_steady symbol t)
             (not_before_checkRateLimit symbol t)). exact H.
Qed.

(** C6, as the code has it: when a [fetchTicker] call has sent a
    request, a later call for the same symbol issued less than 1000 ms
    after it (whatever the service was asked in between, short of
    [clearCache]) sends none, and answers with the cached ticker of the
    symbol if there is one and with mock data otherwise. *)
Theorem later_fetchTicker_is_refused (symbol : string) (w1 : World)
    (between : list Schedule.Op) :
  let w1' := snd (fetchTicker env symbol w1) in
  let w2 := Schedule.run_ops env between w1' in
  netCalls w1' <> netCalls w1 ->
  clock w2 - clock w1 < 1000 ->
  netCalls (snd (fetchTicker env symbol w2)) = netCalls w2 /\
  fst (fetchTicker env symbol w2) = Stated.cached_or_mock env symbol w2.
Proof.
  cbv zeta. intros Hsent Hgap.
  pose proof (fetchTicker_attempt_recorded env symbol w1 Hsent) as Hrec.
  assert (Hnb : Stated.not_before symbol (clock w1)
                  (Schedule.run_ops env between (snd (fetchTicker env symbol w1)))).
  { apply not_before_run_ops. unfold Stated.not_before. rewrite Hrec. cbn. lia. }
  assert (Hlim : Stated.since_last_fetch symbol
                   (Schedule.run_ops env between (snd (fetchTicker env symbol w1))) < 1000).
  { unfold Stated.since_last_fetch. unfold Stated.not_before in Hnb. lia. }
  destruct (fetchTicker_refused env symbol _ Hlim) as [Hv Hn].
  split; [exact Hn|exact Hv].
Qed.

End RateLimitFacts.

Section CacheAndRateWitnesses.
Import Num Js Effects MarketDataService Scenario.

(** C5 on the worlds a first ticker fetch and a first klines fetch
    leave behind: 400 ms later the entry is served again and the world
    does not change. *)
Lemma cache_entry_short_circuits_witness :
  let w := snd (sleep 400 (snd (fetchTicker ticker_env "PERP_BTC_USDC" fresh_world))) in
  let wk :=
    snd (sleep 400 (snd (fetchKlines klines_env "PERP_BTC_USDC" "1m" 200 fresh_world))) in
  (exists c,
     cache w !! "ticker_PERP_BTC_USDC" = Some (CTicker c) /\
     fetchTicker ticker_env "PERP_BTC_USDC" w = (Ok c, w)) /\
  (exists klines,
     cache wk !! Stated.klines_key "PERP_BTC_USDC" "1m" 200 = Some (CKlines klines) /\
     fetchKlines klines_env "PERP_BTC_USDC" "1m" 200 wk = (Ok klines, wk)).
Proof.
  cbv zeta. split.
  - set (w := snd (sleep 400 (snd (fetchTicker ticker_env "PERP_BTC_USDC" fresh_world)))).
    destruct (cache w !! "ticker_PERP_BTC_USDC") as [[c| | |]|] eqn:Hc;
      try (vm_compute in Hc; discriminate Hc).
    exists c. split; [reflexivity|].
    destruct (cache_entry_short_circuits ticker_env "PERP_BTC_USDC" "1m" 200 w)
      as (Hticker & _ & _ & _).
    apply Hticker; [exact Hc|].
    assert (Hts : TickerData.timestamp c = 1700000000050).
    { assert (Some (CTicker c) = cache w !! "ticker_PERP_BTC_USDC") as Hc'
        by (symmetry; exact Hc).
      vm_compute in Hc'. injection Hc' as ->. reflexivity. }
    rewrite Hts. vm_compute. reflexivity.
  - set (wk := snd (sleep 400
                      (snd (fetchKlines klines_env "PERP_BTC_USDC" "1m" 200 fresh_world)))).
    destruct (cache wk !! Stated.klines_key "PERP_BTC_USDC" "1m" 200)
      as [[ | |klines| ]|] eqn:Hc; try (vm_compute in Hc; discriminate Hc).
    exists klines. split; [reflexivity|].
    destruct (cache_entry_short_circuits klines_env "PERP_BTC_USDC" "1m" 200 wk)
      as (_ & _ & Hklines & _).
    apply Hklines; [exact Hc|]. vm_compute. reflexivity.
Defined.

(** C5 as stated fails for klines: 1400 ms after a call has cached its
    result, the next call for the same key sends a request again. *)
Lemma fetchKlines_ignores_fresh_entry_counterexample :
  ~ Stated.fresh_klines_served klines_env "PERP_BTC_USDC" "1m" 200 fresh_world 1400.
Proof.
  unfold Stated.fresh_klines_served. cbv zeta. intros H.
  assert (Hage : 0 <= 1400 < CACHE_DURATION) by (unfold CACHE_DURATION; lia).
  specialize (H Hage).
  set (w1 := snd (fetchKlines klines_env "PERP_BTC_USDC" "1m" 200 fresh_world)) in *.
  destruct (cache w1 !! Stated.klines_key "PERP_BTC_USDC" "1m" 200)
    as [[ | |klines| ]|] eqn:Hc; try (vm_compute in Hc; discriminate Hc).
  specialize (H klines eq_refl).
  destruct (fetchKlines klines_env "PERP_BTC_USDC" "1m" 200 (snd (sleep 1400 w1)))
    as [r2 w2] eqn:Hrun.
  destruct H as [_ Hn].
  assert (Hw2 : netCalls w2 = 2%nat).
  { change w2 with (snd (r2, w2)). rewrite <- Hrun. vm_compute. reflexivity. }
  rewrite Hw2 in Hn. vm_compute in Hn. discriminate Hn.
Qed.

(** C6 on a fresh process: the first call fetches and caches, and a
    second call 400 ms later sends nothing. *)
Lemma later_fetchTicker_is_refused_witness :
  let w1' := snd (fetchTicker ticker_env "PERP_BTC_USDC" fresh_world) in
  let w2 := Schedule.run_ops ticker_env [Schedule.Sleep 400] w1' in
  netCalls w1' = 1%nat /\
  netCalls (snd (fetchTicker ticker_env "PERP_BTC_USDC" w2)) = 1%nat /\
  fst (fetchTicker ticker_env "PERP_BTC_USDC" w2)
    = Stated.cached_or_mock ticker_env "PERP_BTC_USDC" w2.
Proof.
  cbv zeta.
  destruct (later_fetchTicker_is_refused ticker_env "PERP_BTC_USDC" fresh_world
              [Schedule.Sleep 400]) as [Hn Hv].
  - vm_compute. discriminate.
  - vm_compute. reflexivity.
  - split; [vm_compute; reflexivity|]. split; [|exact Hv].
    rewrite Hn. vm_compute. reflexivity.
Defined.

(** C6 as stated fails when the earlier call was itself refused: a
    fetch was let through 900 ms ago and the cached ticker is stale.
    The first call is refused and answers with the cached ticker; the
    second call, 200 ms later, is let through, every request fails, and
    it answers with mock data although a cached ticker exists. *)
Lemma later_fetchTicker_fetches_counterexample :
  ~ Stated.later_ticker_served_locally silent_env "PERP_BTC_USDC"
      (limited_world "PERP_BTC_USDC") 200.
Proof.
  unfold Stated.later_ticker_served_locally. cbv zeta.
  set (w2 := snd (sleep 200
                    (snd (fetchTicker silent_env "PERP_BTC_USDC"
                            (limited_world "PERP_BTC_USDC"))))).
  destruct (fetchTicker silent_env "PERP_BTC_USDC" w2) as [r2 w2'] eqn:Hrun.
  intros H.
  assert (Hgap : clock w2 - clock (limited_world "PERP_BTC_USDC") < 1000)
    by (vm_compute; reflexivity).
  destruct (H ltac:(lia) Hgap) as [_ Hr].
  assert (Hr2 : r2 = fst (fetchTicker silent_env "PERP_BTC_USDC" w2))
    by (rewrite Hrun; reflexivity).
  rewrite Hr2 in Hr. vm_compute in Hr. discriminate Hr.
Qed.

End CacheAndRateWitnesses.

(** ** Retries, the shared rate limit and the dead fallbacks *)

Section RetryFacts.
Import Num Js Effects MarketDataService.
Variable env : Env.

(** One raced attempt sends its request, in time or not. *)
Lemma race_sends_one (request : Request) (w : World) :
  netCalls (snd (race_with_timeout (http_fetch env request) w)) = S (netCalls w).
Proof.
  unfold race_with_timeout, http_fetch.
  destruct (body (network env (netCalls w) request));
    match goal with |- context [if ?b then _ else _] => destruct b end; reflexivity.
Qed.

Lemma race_rejects_or_not (request : Request) (w : World) :
  exists r w1,
    race_with_timeout (http_fetch env request) w = (r, w1) /\
    netCalls w1 = S (netCalls w).
Proof.
  pose proof (race_sends_one request w) as H.
  destruct (race_with_timeout (http_fetch env request) w) as [r w1].
  exists r, w1. split; [reflexivity|exact H].
Qed.

Lemma withRetry_from_S {A} (operation : M A) (attempt remaining : nat)
    (lastError : string) :
  withRetry_from operation attempt (S remaining) lastError =
  try_catch (race_with_timeout operation)
    (fun error =>
       (if (attempt <? MAX_RETRIES)%nat
        then sleep (RETRY_DELAY * Z.of_nat attempt) else ret tt) >>
       withRetry_from operation (S attempt) remaining error)%eff.
Proof. reflexivity. Qed.

Lemma withRetry_from_at_least_one (request : Request) (remaining attempt : nat)
    (lastError : string) (w : World) :
  (netCalls w <
   netCalls (snd (withRetry_from (http_fetch env request) attempt (S remaining)
                    lastError w)))%nat.
Proof.
  revert attempt lastError w.
  induction remaining as [|remaining IH]; intros attempt lastError w;
    rewrite withRetry_from_S; unfold try_catch at 1;
    destruct (race_rejects_or_not request w) as ([data|error] & w1 & -> & H1);
    cbn [snd]; try lia; unfold bind at 1;
    destruct (attempt <? MAX_RETRIES)%nat; cbn [sleep ret]; cbv beta iota.
  - cbn. lia.
  - cbn. lia.
  - eapply Nat.lt_trans; [|apply IH]. cbn. lia.
  - eapply Nat.lt_trans; [|apply IH]. lia.
Qed.

Lemma withRetry_at_least_one (request : Request) (w : World) :
  (netCalls w < netCalls (snd (withRetry (http_fetch env request) w)))%nat.
Proof. apply withRetry_from_at_least_one. Qed.

Lemma withRetry_rejection (request : Request) (w : World) (r : Outcome JsVal)
    (w' : World) :
  withRetry (http_fetch env request) w = (r, w') ->
  is_ok r = false -> netCalls w' = (netCalls w + 3)%nat.
Proof.
  unfold withRetry. change MAX_RETRIES with 3%nat.
  rewrite withRetry_from_S. unfold try_catch at 1.
  destruct (race_rejects_or_not request w) as ([data|error] & w1 & -> & H1);
    [intros [= <- <-]; discriminate|].
  unfold bind at 1. unfold MAX_RETRIES at 1. cbn [Nat.ltb Nat.leb sleep]. cbv beta iota.
  rewrite withRetry_from_S. unfold try_catch at 1.
  match goal with |- context [race_with_timeout _ ?w0] =>
    destruct (race_rejects_or_not request w0) as ([data|error2] & w2 & -> & H2) end;
    [intros [= <- <-]; discriminate|].
  unfold bind at 1. unfold MAX_RETRIES at 1. cbn [Nat.ltb Nat.leb sleep]. cbv beta iota.
  rewrite withRetry_from_S. unfold try_catch at 1.
  match goal with |- context [race_with_timeout _ ?w0] =>
    destruct (race_rejects_or_not request w0) as ([data|error3] & w3 & -> & H3) end;
    [intros [= <- <-]; discriminate|].
  unfold bind at 1. unfold MAX_RETRIES at 1. cbn [Nat.ltb Nat.leb ret]. cbv beta iota.
  cbn [withRetry_from throw]. cbn in H2, H3. intros [= <- <-] _. lia.
Qed.

(** X16: [withRetry] around a request sends at least one and at most
    three requests.  It rejects only after the third attempt; and when
    the first reply carries a body and arrives before the 3000 ms
    timeout, that body is returned after one request. *)
Lemma withRetry_attempts (request : Request) (w : World) :
  let result := withRetry (http_fetch env request) w in
  (netCalls w + 1 <= netCalls (snd result) <= netCalls w + 3)%nat /\
  (is_ok (fst result) = false -> netCalls (snd result) = (netCalls w + 3)%nat) /\
  (forall data,
     body (network env (netCalls w) request) = Some data ->
     latency (network env (netCalls w) request) < REQUEST_TIMEOUT ->
     fst result = Ok data /\ netCalls (snd result) = (netCalls w + 1)%nat).
Proof.
  cbv zeta. split; [|split].
  - pose proof (withRetry_at_least_one request w).
    pose proof (sends_withRetry env request w). lia.
  - destruct (withRetry (http_fetch env request) w) as [r w'] eqn:E.
    cbn [fst snd]. intros Hr. exact (withRetry_rejection request w r w' E Hr).
  - intros data Hbody Hlat.
    unfold withRetry, MAX_RETRIES. cbn [withRetry_from].
    unfold try_catch, race_with_timeout, http_fetch. rewrite Hbody.
    cbn [clock set_clock set_netCalls].
    replace (clock w + latency (network env (netCalls w) request) - clock w)
      with (latency (network env (netCalls w) request)) by lia.
    destruct (Z.ltb_spec (latency (network env (netCalls w) request)) REQUEST_TIMEOUT);
      [|lia].
    cbn. split; [reflexivity|lia].
Qed.

End RetryFacts.

Section SharedRateLimit.
Import Num Js Effects MarketDataService.
Variable env : Env.

(** X17: the rate limit is per symbol, not per operation.  When
    [fetchTicker] has sent a request and returns less than 1000 ms
    after it was called, a [fetchOrderbook] for the same symbol issued
    right then sends no request: it answers with the cached order book
    if there is one, and with mock data otherwise.  This is the order of
    the two calls in [getMarketData] and in GET /api/market/:symbol. *)
Lemma orderbook_refused_after_quick_ticker (symbol : string) (w : World) :
  let w1 := snd (fetchTicker env symbol w) in
  netCalls w1 <> netCalls w ->
  clock w1 - clock w < 1000 ->
  fst (fetchOrderbook env symbol w1) = Stated.cached_or_mock_orderbook env symbol w1 /\
  netCalls (snd (fetchOrderbook env symbol w1)) = netCalls w1.
Proof.
  cbv zeta. intros Hsent Hquick.
  pose proof (fetchTicker_attempt_recorded env symbol w Hsent) as Hrec.
  set (w1 := snd (fetchTicker env symbol w)) in *.
  assert (Hlim : Stated.since_last_fetch symbol w1 < 1000).
  { unfold Stated.since_last_fetch. rewrite Hrec. cbn [default]. exact Hquick. }
  unfold fetchOrderbook, Stated.cached_or_mock_orderbook, bind, cache_get, date_now.
  destruct (cache w1 !! ("orderbook_" +:+ symbol) ≫= as_orderbook) as [c|].
  - destruct (clock w1 - OrderbookData.timestamp c <? CACHE_DURATION); [split; reflexivity|].
    rewrite (checkRateLimit_refuses _ _ Hlim). split; reflexivity.
  - rewrite (checkRateLimit_refuses _ _ Hlim). split; reflexivity.
Qed.

End SharedRateLimit.

Section SharedRateLimitWitness.
Import Num Js Effects MarketDataService Scenario.

(** X17 on a fresh process and an exchange that answers every request
    in 50 ms, order books included: the ticker costs one request, and
    the order book that follows is mock data. *)
Lemma orderbook_refused_after_quick_ticker_witness :
  let w1 := snd (fetchTicker orderbook_env "PERP_ETH_USDC" fresh_world) in
  netCalls w1 = 1%nat /\
  fst (fetchOrderbook orderbook_env "PERP_ETH_USDC" w1)
  = fst (getMockOrderbook orderbook_env "PERP_ETH_USDC" w1) /\
  netCalls (snd (fetchOrderbook orderbook_env "PERP_ETH_USDC" w1)) = 1%nat.
Proof.
  cbv zeta. split; [vm_compute; reflexivity|].
  destruct (orderbook_refused_after_quick_ticker orderbook_env "PERP_ETH_USDC" fresh_world)
    as [Hvalue Hcalls].
  - vm_compute. lia.
  - vm_compute. reflexivity.
  - split; [rewrite Hvalue; vm_compute; reflexivity|rewrite Hcalls; vm_compute; reflexivity].
Defined.

End SharedRateLimitWitness.

Section DeadFallbacks.
Import Num Js Effects MarketDataService.
Variable env : Env.

Lemma fulfils_getMockKlines (symbol : string) (limit : nat) :
  fulfils (getMockKlines env symbol limit).
Proof. unfold getMockKlines. fulfilment. Qed.

Lemma fulfils_getMockTrades (symbol : string) (limit : nat) :
  fulfils (getMockTrades env symbol limit).
Proof. unfold getMockTrades. fulfilment. Qed.

Lemma fulfils_fetchKlines (symbol interval : string) (limit : nat) :
  fulfils (fetchKlines env symbol interval limit).
Proof.
  unfold fetchKlines. apply fulfils_bind; [apply fulfils_checkRateLimit|intros allowed].
  destruct (negb allowed).
  - apply fulfils_bind; [apply fulfils_cache_get|intros entry].
    destruct (entry ≫= as_klines); [apply fulfils_ret|apply fulfils_getMockKlines].
  - apply fulfils_try_catch. intros error. apply fulfils_getMockKlines.
Qed.

Lemma fulfils_fetchTrades (symbol : string) (limit : nat) :
  fulfils (fetchTrades env symbol limit).
Proof.
  unfold fetchTrades. apply fulfils_bind; [apply fulfils_checkRateLimit|intros allowed].
  destruct (negb allowed).
  - apply fulfils_bind; [apply fulfils_cache_get|intros entry].
    destruct (entry ≫= as_trades); [apply fulfils_ret|apply fulfils_getMockTrades].
  - apply fulfils_try_catch. intros error. apply fulfils_getMockTrades.
Qed.

(** X18: [fetchKlines] and [fetchTrades] never reject, so
    [OrderlyMarketService.getKlines] is [fetchKlines]: the random-walk
    klines of its [catch] block are never produced. *)
Lemma getKlines_is_fetchKlines (symbol interval : string) (limit : nat) (w : World) :
  is_ok (fst (fetchKlines env symbol interval limit w)) = true /\
  is_ok (fst (fetchTrades env symbol limit w)) = true /\
  OrderlyMarketService.getKlines env symbol interval limit w
  = fetchKlines env symbol interval limit w.
Proof.
  destruct (fulfils_fetchKlines symbol interval limit w) as (klines & w1 & Hk).
  destruct (fulfils_fetchTrades symbol limit w) as (trades & w2 & Ht).
  unfold OrderlyMarketService.getKlines, try_catch.
  rewrite Hk, Ht. repeat split.
Qed.

End DeadFallbacks.

Section MockSizes.
Import Num Js Effects MarketDataService.
Variable env : Env.

(** A loop that pushes one element per round returns as many elements
    as it had rounds, after what it started with. *)
Lemma foldM_push_length {A B} (body : list B -> A -> M (list B)) (l : list A) :
  (forall acc x w, exists y w', body acc x w = (Ok (acc ++ [y]), w')) ->
  forall init w, exists r w',
    foldM body l init w = (Ok r, w') /\ length r = (length init + length l)%nat.
Proof.
  intros Hbody. induction l as [|x rest IH]; intros init w; cbn [foldM].
  - exists init, w. split; [reflexivity|cbn [length]; lia].
  - unfold bind. destruct (Hbody init x w) as (y & w1 & ->).
    destruct (IH (init ++ [y]) w1) as (r & w' & -> & Hlen).
    exists r, w'. split; [reflexivity|].
    rewrite Hlen, length_app. cbn [length]. lia.
Qed.

(** X19: the mock generators return exactly as many items as were
    asked for: [limit] klines and [limit] trades, whatever the random
    source gives. *)
Lemma mock_series_have_the_asked_length (symbol : string) (limit : nat) (w : World) :
  (exists klines w',
     getMockKlines env symbol limit w = (Ok klines, w') /\ length klines = limit) /\
  (exists trades w',
     getMockTrades env symbol limit w = (Ok trades, w') /\ length trades = limit).
Proof.
  split.
  - unfold getMockKlines.
    match goal with |- context [foldM ?body ?l ?init] =>
      assert (Hpush : forall acc x w0, exists y w1, body acc x w0 = (Ok (acc ++ [y]), w1))
        by (intros acc x w0; eexists _, _; reflexivity);
      destruct (foldM_push_length body l Hpush init w) as (r & w' & -> & Hlen) end.
    exists r, w'. split; [reflexivity|].
    rewrite Hlen, length_rev, length_seq. reflexivity.
  - unfold getMockTrades.
    match goal with |- context [foldM ?body ?l ?init] =>
      assert (Hpush : forall acc x w0, exists y w1, body acc x w0 = (Ok (acc ++ [y]), w1))
        by (intros acc x w0; eexists _, _; reflexivity);
      destruct (foldM_push_length body l Hpush init w) as (r & w' & -> & Hlen) end.
    exists r, w'. split; [reflexivity|].
    rewrite Hlen, length_seq. reflexivity.
Qed.

End MockSizes.

Section ClearCache.
Import Num Js Effects MarketDataService.
Variable env : Env.

Lemma after_bind {A B} (P : World -> Prop) (c : M A) (k : A -> M B) (w : World) :
  P (snd (c w)) -> (forall a, preserves P (k a)) -> P (snd (bind c k w)).
Proof.
  intros Hc Hk. unfold bind. destruct (c w) as [[a|error] w1]; cbn [snd] in *;
    [apply Hk, Hc|exact Hc].
Qed.

Lemma after_try_catch {A} (P : World -> Prop) (body : M A) (handler : string -> M A)
    (w : World) :
  P (snd (body w)) -> (forall error, preserves P (handler error)) ->
  P (snd (try_catch body handler w)).
Proof.
  intros Hb Hh. unfold try_catch. destruct (body w) as [[a|error] w1]; cbn [snd] in *;
    [exact Hb|apply Hh, Hb].
Qed.

(** The [try] block of [fetchTicker] starts with a request. *)
Lemma fetchTicker_request_sends (symbol : string) (w : World) :
  (netCalls w < netCalls (snd (fetchTicker_request env symbol w)))%nat.
Proof.
  set (P := fun w' : World => (netCalls w < netCalls w')%nat).
  assert (Hsteady : steady P) by (intros wa wb _ Hle H; unfold P in *; lia).
  change (P (snd (fetchTicker_request env symbol w))).
  unfold fetchTicker_request.
  apply after_try_catch; [|intros error; preservation].
  apply after_bind; [|intros data; preservation].
  cbn [try_endpoints].
  apply after_try_catch; [|intros error; preservation].
  apply withRetry_at_least_one.
Qed.

(** X20: [clearCache] also empties the rate-limit table, so the
    [fetchTicker] that follows it goes to the exchange: whatever was
    cached, and however recently a fetch for the symbol was let
    through. *)
Lemma clearCache_forces_a_request (symbol : string) (w : World) :
  1000 <= clock w ->
  (netCalls w < netCalls (snd (fetchTicker env symbol (snd (clearCache w)))))%nat.
Proof.
  intros Hclock. unfold clearCache. cbn [snd].
  unfold fetchTicker. rewrite bind_cache_get. cbn [cache set_lastFetch set_cache].
  rewrite lookup_empty. cbn [mbind option_bind]. rewrite bind_date_now.
  unfold bind at 1, checkRateLimit.
  cbn [lastFetch clock set_lastFetch set_cache]. rewrite lookup_empty. cbn [default].
  destruct (Z.ltb_spec (clock w - 0) 1000) as [Hlt|_]; [lia|].
  cbn [negb].
  match goal with |- context [fetchTicker_request env symbol ?w0] =>
    pose proof (fetchTicker_request_sends symbol w0) as H end.
  cbn [netCalls set_lastFetch set_cache] in H. exact H.
Qed.

End ClearCache.

Section ClearCacheWitness.
Import Num Js Effects MarketDataService Scenario.

(** X20 right after a ticker fetch that was let through and cached. *)
Lemma clearCache_forces_a_request_witness :
  let w1 := snd (fetchTicker ticker_env "PERP_ETH_USDC" fresh_world) in
  (netCalls w1 < netCalls (snd (fetchTicker ticker_env "PERP_ETH_USDC"
                                  (snd (clearCache w1)))))%nat.
Proof.
  cbv zeta. apply clearCache_forces_a_request.
  apply Z.leb_le. vm_compute. reflexivity.
Defined.

End ClearCacheWitness.

Section ChatRoute.
Import Num Js Effects.
Variable processMessage : JsVal -> JsVal -> JsVal -> M ChatService.ChatResponse.
Hypothesis processMessage_fulfils :
  forall message wallet symbol, fulfils (processMessage message wallet symbol).


End ChatRoute.

Section ChatRouteWitness.
Import Num Js Effects Scenario.


End ChatRouteWitness.

(** ** What is written to the cache *)

Section CacheKept.
Import Num Js Effects MarketDataService.

























End CacheKept.


Section CacheWrites.
Import Num Js Effects MarketDataService.
Variable env : Env.














End CacheWrites.

Section PerSymbolLimit.
Import Num Js Effects MarketDataService.
Variable env : Env.

(** X24: the rate limit of one symbol is not touched by fetches for
    another: whatever [fetchTicker], [fetchOrderbook], [fetchKlines] or
    [fetchTrades] do for [symbol], the time of the last fetch let
    through for any [other] symbol is as before. *)
Lemma rate_limit_is_per_symbol (symbol other interval : string) (limit : nat) (w : World) :
  other <> symbol ->
  lastFetch (snd (fetchTicker env symbol w)) !! other = lastFetch w !! other /\
  lastFetch (snd (fetchOrderbook env symbol w)) !! other = lastFetch w !! other /\
  lastFetch (snd (fetchKlines env symbol interval limit w)) !! other = lastFetch w !! other /\
  lastFetch (snd (fetchTrades env symbol limit w)) !! other = lastFetch w !! other.
Proof.
  intros Hother.
  set (P := fun w' : World => lastFetch w' !! other = lastFetch w !! other).
  assert (Hsteady : steady P).
  { intros wa wb Heq _ H. unfold P in *. rewrite Heq. exact H. }
  assert (Hrate : preserves P (checkRateLimit symbol)).
  { intros wa H. unfold checkRateLimit, P in *.
    destruct (clock wa - default 0 (lastFetch wa !! symbol) <? 1000); cbn; [exact H|].
    rewrite lookup_insert_ne by congruence. exact H. }
  assert (HP : P w) by reflexivity.
  split; [|split; [|split]].
  - assert (H : preserves P (fetchTicker env symbol))
      by (unfold fetchTicker; preservation).
    exact (H w HP).
  - assert (H : preserves P (fetchOrderbook env symbol))
      by (unfold fetchOrderbook; preservation).
    exact (H w HP).
  - assert (H : preserves P (fetchKlines env symbol interval limit))
      by (unfold fetchKlines; preservation).
    exact (H w HP).
  - assert (H : preserves P (fetchTrades env symbol limit))
      by (unfold fetchTrades; preservation).
    exact (H w HP).
Qed.

End PerSymbolLimit.

Section PerSymbolLimitWitness.
Import Num Js Effects MarketDataService Scenario.

(** X24: a ticker fetch for ETH leaves BTC never fetched. *)
Lemma rate_limit_is_per_symbol_witness :
  lastFetch (snd (fetchTicker ticker_env "PERP_ETH_USDC" fresh_world)) !! "PERP_BTC_USDC"
  = None.
Proof.
  destruct (rate_limit_is_per_symbol ticker_env "PERP_ETH_USDC" "PERP_BTC_USDC" "1m" 10
              fresh_world) as [H _].
  - intros H. discriminate H.
  - rewrite H. reflexivity.
Defined.

End PerSymbolLimitWitness.
